(** * Order fulfilment: shipment ledger and order status

    A shallow embedding of the order routes ([routes/orders.js]), of the
    audit helper [logAction] ([middleware/auth.js]) and of the schema,
    constraints and triggers of [database/init.sql].

    The handlers are JavaScript running against PostgreSQL through the
    node-postgres driver.  Three layers meet in every quantity:

    - the store keeps [DECIMAL(10,2)] columns: exact hundredths;
    - the driver hands a [NUMERIC] column to JavaScript as its text (no type
      parser is registered anywhere in the repository; the routes themselves
      call [parseInt] on every [COUNT] they read, which the driver hands over
      the same way), and sends a JavaScript number to the store as the text
      of [String(x)];
    - JavaScript numbers are IEEE 754 binary64 values, and [+] on a string
      concatenates.

    The three layers are modelled as they are: [JS] holds the values and
    operators of the language, [PG] the conversions of the store.

    A handler is a function from the tables it finds to its answer and the
    tables it leaves.  A statement that raises is [None]; the [catch] of a
    handler that opened a transaction rolls back to the tables the request
    found.  Requests are handled one after the other.

    Left to the HTTP layer, and taken as given here: the caller is
    authenticated with a role the route admits ([requireRole]); path and
    body identifiers are UUIDs (a type of their own, generated in sequence);
    date texts have passed [isISO8601] and are kept as texts. *)

From Stdlib Require Import ZArith NArith List String Ascii Bool Lia.
From Stdlib Require Import DecimalString SpecFloat.
Import ListNotations.

Local Open Scope string_scope.
Local Open Scope Z_scope.

(** ** Decimal texts *)

Module Text.

Definition is_digit (c : ascii) : bool :=
  let n := N_of_ascii c in (N.leb 48 n && N.leb n 57)%bool.

(** [\s] restricted to the ASCII range. *)
Definition is_space (c : ascii) : bool :=
  let n := N_of_ascii c in
  (N.eqb n 32 || (N.leb 9 n && N.leb n 13))%bool.

Fixpoint span_digits (s : string) : string * string :=
  match s with
  | String c r =>
      if is_digit c
      then let (d, r') := span_digits r in (String c d, r')
      else (EmptyString, s)
  | EmptyString => (EmptyString, EmptyString)
  end.

Fixpoint digits_value_from (d : string) (acc : Z) : Z :=
  match d with
  | String c r => digits_value_from r (10 * acc + (Z.of_N (N_of_ascii c) - 48))
  | EmptyString => acc
  end.

Definition digits_value (d : string) : Z := digits_value_from d 0.

Definition of_Z (z : Z) : string := NilZero.string_of_int (Z.to_int z).

Fixpoint drop_spaces (s : string) : string :=
  match s with
  | String c r => if is_space c then drop_spaces r else s
  | EmptyString => EmptyString
  end.

Fixpoint rev_from (s acc : string) : string :=
  match s with
  | String c r => rev_from r (String c acc)
  | EmptyString => acc
  end.

Definition rev (s : string) : string := rev_from s EmptyString.

(** [String.prototype.trim], and validator.js [trim] without a character set. *)
Definition trim (s : string) : string := rev (drop_spaces (rev (drop_spaces s))).

Fixpoint zeros (n : nat) : string :=
  match n with
  | O => EmptyString
  | S k => String "0" (zeros k)
  end.

Fixpoint drop_zeros (s : string) : string :=
  match s with
  | String c r => if Ascii.eqb c "0" then drop_zeros r else s
  | EmptyString => EmptyString
  end.

Definition strip_trailing_zeros (s : string) : string := rev (drop_zeros (rev s)).

(** Comparison of strings by code unit, the order of [<] on two strings. *)
Fixpoint ltb (s t : string) : bool :=
  match s, t with
  | _, EmptyString => false
  | EmptyString, String _ _ => true
  | String a s', String b t' =>
      if N.ltb (N_of_ascii a) (N_of_ascii b) then true
      else if N.ltb (N_of_ascii b) (N_of_ascii a) then false
      else ltb s' t'
  end.

(** A scanned decimal text: optional sign, digits, optional point and
    digits, optional exponent.  This is the language of the regular
    expression of validator.js [isFloat] (an optional sign, any digits, an
    optional point with any digits, an optional [e] or [E] with an optional
    sign and at least one digit); a numeric literal of JavaScript or of the
    store needs a digit in its mantissa besides. *)
Record scanned := {
  sc_neg : bool;
  sc_int : string;
  sc_frac : string;
  sc_exp : Z
}.

Definition scan_sign (s : string) : bool * string :=
  match s with
  | String "+" r => (false, r)
  | String "-" r => (true, r)
  | _ => (false, s)
  end.

Definition scan_exponent (s : string) : option Z :=
  match s with
  | EmptyString => Some 0
  | String c r =>
      if (Ascii.eqb c "e" || Ascii.eqb c "E")%bool then
        let (neg, r1) := scan_sign r in
        let (d, r2) := span_digits r1 in
        match d, r2 with
        | String _ _, EmptyString =>
            Some (if neg then - digits_value d else digits_value d)
        | _, _ => None
        end
      else None
  end.

Definition scan (s : string) : option scanned :=
  let (neg, r0) := scan_sign s in
  let (i, r1) := span_digits r0 in
  let (f, r2) :=
    match r1 with
    | String "." r => span_digits r
    | _ => (EmptyString, r1)
    end in
  match scan_exponent r2 with
  | Some e => Some {| sc_neg := neg; sc_int := i; sc_frac := f; sc_exp := e |}
  | None => None
  end.

Definition has_digit (sc : scanned) : bool :=
  negb (String.eqb (sc_int sc) "" && String.eqb (sc_frac sc) "")%bool.

(** The value of a scanned text is [mantissa * 10 ^ exponent10]. *)
Definition mantissa (sc : scanned) : Z := digits_value (sc_int sc ++ sc_frac sc).

Definition exponent10 (sc : scanned) : Z :=
  sc_exp sc - Z.of_nat (String.length (sc_frac sc)).

End Text.

(** ** JavaScript values and the operators the handlers apply to them *)

Module JS.

(** A Number is a binary64 value. *)
Definition number := spec_float.
Definition prec : Z := 53.
Definition emax : Z := 1024.

Definition NaN : number := S754_nan.

(** The values a JSON body gives to a quantity and a [NUMERIC] column gives
    to a row field: a number or a string. *)
Inductive value :=
  | Num (x : number)
  | Str (s : string).

(** The binary64 value nearest to [a / b] (ties to even), for [0 <= a] and
    [0 < b]. *)
Definition round_ratio (neg : bool) (a b : Z) : number :=
  if a =? 0 then S754_zero neg
  else
    let '(q, e, l) := SFdiv_core_binary prec emax a 0 b 0 in
    binary_round_aux prec emax neg q e l.

(** The binary64 value nearest to [m * 10 ^ e], for [0 <= m]. *)
Definition round_decimal (neg : bool) (m e : Z) : number :=
  if 0 <=? e then round_ratio neg (m * 10 ^ e) 1
  else round_ratio neg m (10 ^ (- e)).

(** StringToNumber.  Literals with a radix prefix are left out: every string
    the handlers convert is made of the characters [0-9 . + - e E]. *)
Definition StringToNumber (s : string) : number :=
  let t := Text.trim s in
  if String.eqb t "" then S754_zero false
  else if (String.eqb t "Infinity" || String.eqb t "+Infinity")%bool
  then S754_infinity false
  else if String.eqb t "-Infinity" then S754_infinity true
  else
    match Text.scan t with
    | Some sc =>
        if Text.has_digit sc
        then round_decimal (Text.sc_neg sc) (Text.mantissa sc) (Text.exponent10 sc)
        else NaN
    | None => NaN
    end.

(** Number::toString: the shortest digits [s] (there are [k] of them) and
    the exponent [n] with [s * 10 ^ (n - k)] rounding to the number. *)
Definition ndigits (z : Z) : Z := Z.of_nat (String.length (Text.of_Z z)).

(** [magnitude a b] is the [n] with [10 ^ (n - 1) <= a / b < 10 ^ n]. *)
Definition magnitude (a b : Z) : Z :=
  if b <=? a then ndigits (a / b)
  else
    let d := ndigits b - ndigits a in
    if b <=? a * 10 ^ d then 1 - d else - d.

Definition rounds_to (x : number) (s p : Z) : bool :=
  SFeqb (round_decimal false s p) x.

Fixpoint shortest (fuel : nat) (k : Z) (a b n : Z) (x : number) : Z * Z :=
  match fuel with
  | O => (0, k)
  | S fuel' =>
      let p := n - k in
      let '(a', b') := if 0 <=? p then (a, b * 10 ^ p) else (a * 10 ^ (- p), b) in
      let lo := a' / b' in
      let r := a' mod b' in
      let hi := lo + 1 in
      match rounds_to x lo p, rounds_to x hi p with
      | true, true =>
          if 2 * r <? b' then (lo, k)
          else if b' <? 2 * r then (hi, k)
          else if Z.even lo then (lo, k) else (hi, k)
      | true, false => (lo, k)
      | false, true => (hi, k)
      | false, false => shortest fuel' (k + 1) a b n x
      end
  end.

Definition exponent_text (e : Z) : string :=
  if 0 <=? e then "e+" ++ Text.of_Z e else "e-" ++ Text.of_Z (- e).

Definition format_digits (d : string) (n : Z) : string :=
  let k := Z.of_nat (String.length d) in
  if ((k <=? n) && (n <=? 21))%bool then d ++ Text.zeros (Z.to_nat (n - k))
  else if ((0 <? n) && (n <=? 21))%bool then
    substring 0 (Z.to_nat n) d ++ "." ++ substring (Z.to_nat n) (Z.to_nat (k - n)) d
  else if ((-6 <? n) && (n <=? 0))%bool then
    "0." ++ Text.zeros (Z.to_nat (- n)) ++ d
  else if k =? 1 then d ++ exponent_text (n - 1)
  else substring 0 1 d ++ "." ++ substring 1 (Z.to_nat (k - 1)) d ++ exponent_text (n - 1).

Definition positive_to_string (m : positive) (e : Z) : string :=
  let '(a, b) := if 0 <=? e then (Zpos m * 2 ^ e, 1) else (Zpos m, 2 ^ (- e)) in
  let n := magnitude a b in
  let '(s, k) := shortest 17 1 a b n (S754_finite false m e) in
  let d := Text.strip_trailing_zeros (Text.of_Z s) in
  format_digits d (n - k + ndigits s).

Definition NumberToString (x : number) : string :=
  match x with
  | S754_nan => "NaN"
  | S754_zero _ => "0"
  | S754_infinity false => "Infinity"
  | S754_infinity true => "-Infinity"
  | S754_finite false m e => positive_to_string m e
  | S754_finite true m e => "-" ++ positive_to_string m e
  end.

Definition ToNumber (v : value) : number :=
  match v with
  | Num x => x
  | Str s => StringToNumber s
  end.

Definition ToString (v : value) : string :=
  match v with
  | Num x => NumberToString x
  | Str s => s
  end.

(** [a + b]: concatenation as soon as one operand is a string. *)
Definition add (a b : value) : value :=
  match a, b with
  | Num x, Num y => Num (SFadd prec emax x y)
  | _, _ => Str (ToString a ++ ToString b)
  end.

(** [a - b]: always on numbers. *)
Definition sub (a b : value) : number :=
  SFsub prec emax (ToNumber a) (ToNumber b).

(** IsLessThan: by code unit on two strings, on numbers otherwise; [None] is
    the undefined result of a NaN operand. *)
Definition IsLessThan (a b : value) : option bool :=
  match a, b with
  | Str s, Str t => Some (Text.ltb s t)
  | _, _ =>
      match SFcompare (ToNumber a) (ToNumber b) with
      | Some Lt => Some true
      | Some _ => Some false
      | None => None
      end
  end.

(** [a > b] *)
Definition gt (a b : value) : bool :=
  match IsLessThan b a with
  | Some true => true
  | _ => false
  end.

(** [a >= b] *)
Definition ge (a b : value) : bool :=
  match IsLessThan a b with
  | Some false => true
  | _ => false
  end.

End JS.

(** ** What the store and the driver do with a value *)

Module PG.

(** A [DECIMAL(10,2)] value, in hundredths. *)
Definition numeric := Z.

(** Input of a text into a [DECIMAL(10,2)] column: the decimal literal is
    read exactly, rounded to two places (halves away from zero) and refused
    when it needs more than eight digits before the point.  [None] is the
    error the statement raises (invalid syntax or numeric overflow). *)
Definition numeric_in (s : string) : option numeric :=
  match Text.scan (Text.trim s) with
  | Some sc =>
      if Text.has_digit sc then
        let m := Text.mantissa sc in
        let e := Text.exponent10 sc + 2 in
        let h := if 0 <=? e then m * 10 ^ e
                 else (m + 10 ^ (- e) / 2) / 10 ^ (- e) in
        if h <? 10 ^ 10
        then Some (if Text.sc_neg sc then - h else h)
        else None
      else None
  | None => None
  end.

(** Output of a [DECIMAL(10,2)] value: always two decimals. *)
Definition numeric_out (h : numeric) : string :=
  let a := Z.abs h in
  let r := a mod 100 in
  (if h <? 0 then "-" else "") ++
  Text.of_Z (a / 100) ++ "." ++ Text.of_Z (r / 10) ++ Text.of_Z (r mod 10).

(** The driver sends a query parameter as text: [String(x)] for a number,
    the string itself for a string. *)
Definition prepareValue (v : JS.value) : string := JS.ToString v.

Fixpoint all_spaces (s : string) : bool :=
  match s with
  | String c r => (Ascii.eqb c " " && all_spaces r)%bool
  | EmptyString => true
  end.

(** Input into a [VARCHAR(n)] column: a longer text is an error unless the
    excess is made of spaces, which are cut. *)
Definition varchar (n : nat) (s : string) : option string :=
  if (String.length s <=? n)%nat then Some s
  else if all_spaces (substring n (String.length s - n) s)
  then Some (substring 0 n s)
  else None.

Definition varchar_opt (n : nat) (s : option string) : option (option string) :=
  match s with
  | None => Some None
  | Some t => option_map Some (varchar n t)
  end.

End PG.

(** ** Schema ([database/init.sql]) *)

Definition uuid := N.
Definition timestamp := N.
Definition date := string.

Bind Scope N_scope with uuid.
Bind Scope N_scope with timestamp.

Inductive order_status := pending | production | shipped | cancelled.

Record customer := {
  c_id : uuid;
  c_name : string;
  c_active : bool
}.

Record part := {
  p_id : uuid;
  p_part_number : string;
  p_active : bool
}.

Record order := {
  o_id : uuid;
  o_po_number : string;
  o_customer_id : uuid;
  o_due_date : option date;
  o_quoted_ship_date : option date;
  o_status : order_status;
  o_notes : option string;
  o_created_at : timestamp;
  o_updated_at : timestamp;
  o_created_by : uuid
}.

Record line_item := {
  li_id : uuid;
  li_order_id : uuid;
  li_part_id : option uuid;
  li_part_number : string;
  li_description : string;
  li_colors : option string;
  li_quantity : PG.numeric;
  li_unit : string;
  li_in_production : bool;
  li_shipped_quantity : PG.numeric;
  li_date_shipped : option date;
  li_created_at : timestamp;
  li_updated_at : timestamp
}.

Record shipment := {
  s_id : uuid;
  s_line_item_id : uuid;
  s_quantity : PG.numeric;
  s_ship_date : date;
  s_tracking_number : option string;
  s_notes : option string;
  s_created_at : timestamp;
  s_created_by : uuid
}.

(** The JSON image of a row, as [logAction] stores it. *)
Inductive image :=
  | OrderImage (o : order)
  | LineItemImage (li : line_item).

Record audit_entry := {
  a_user_id : uuid;
  a_action : string;
  a_table_name : string;
  a_record_id : uuid;
  a_old_values : option image;
  a_new_values : option image
}.

(** The tables, rows in insertion order, and the next identifier the store
    generates. *)
Record database := {
  customers : list customer;
  parts : list part;
  orders : list order;
  order_line_items : list line_item;
  shipments : list shipment;
  audit_log : list audit_entry;
  next_id : uuid
}.

(** What a request finds around it: the transaction time
    ([CURRENT_TIMESTAMP]), the current date
    ([new Date().toISOString().split('T')[0]]), the authenticated user, and
    whether an insertion into [audit_log] goes through. *)
Record env := {
  now : timestamp;
  today : date;
  user_id : uuid;
  audit_sink_up : bool
}.

Definition with_orders (db : database) (l : list order) : database :=
  {| customers := customers db; parts := parts db; orders := l;
     order_line_items := order_line_items db; shipments := shipments db;
     audit_log := audit_log db; next_id := next_id db |}.

Definition with_line_items (db : database) (l : list line_item) : database :=
  {| customers := customers db; parts := parts db; orders := orders db;
     order_line_items := l; shipments := shipments db;
     audit_log := audit_log db; next_id := next_id db |}.

Definition with_shipments (db : database) (l : list shipment) : database :=
  {| customers := customers db; parts := parts db; orders := orders db;
     order_line_items := order_line_items db; shipments := l;
     audit_log := audit_log db; next_id := next_id db |}.

Definition with_audit_log (db : database) (l : list audit_entry) : database :=
  {| customers := customers db; parts := parts db; orders := orders db;
     order_line_items := order_line_items db; shipments := shipments db;
     audit_log := l; next_id := next_id db |}.

(** [uuid_generate_v4()] *)
Definition fresh (db : database) : uuid * database :=
  (next_id db,
   {| customers := customers db; parts := parts db; orders := orders db;
      order_line_items := order_line_items db; shipments := shipments db;
      audit_log := audit_log db; next_id := N.succ (next_id db) |}).

Definition is_set {A} (x : option A) : bool :=
  match x with Some _ => true | None => false end.

(** ** Triggers *)

(** [update_updated_at_column], BEFORE UPDATE on [orders], under
    [UPDATE orders SET status = st WHERE id = order_id]. *)
Definition set_order_status (t : timestamp) (st : order_status) (o : order) : order :=
  {| o_id := o_id o; o_po_number := o_po_number o;
     o_customer_id := o_customer_id o; o_due_date := o_due_date o;
     o_quoted_ship_date := o_quoted_ship_date o; o_status := st;
     o_notes := o_notes o; o_created_at := o_created_at o;
     o_updated_at := t; o_created_by := o_created_by o |}.

Definition update_status_where (t : timestamp) (order_id : uuid)
    (st : order_status) (db : database) : database :=
  with_orders db
    (map (fun o => if N.eqb (o_id o) order_id then set_order_status t st o else o)
         (orders db)).

Definition count {A} (f : A -> bool) (l : list A) : Z :=
  Z.of_nat (List.length (filter f l)).

(** The status [update_order_status] writes, from the line items of the
    order: [COUNT( * )], [COUNT(CASE WHEN date_shipped IS NOT NULL ...)] and
    [COUNT(CASE WHEN in_production = true AND date_shipped IS NULL ...)]. *)
Definition status_of_counts (items : list line_item) : order_status :=
  let total_items := count (fun _ => true) items in
  let shipped_items := count (fun li => is_set (li_date_shipped li)) items in
  let production_items :=
    count (fun li => li_in_production li && negb (is_set (li_date_shipped li))) items in
  if shipped_items =? total_items then shipped
  else if ((production_items >? 0) || (shipped_items >? 0))%bool then production
  else pending.

Definition items_of_order (order_id : uuid) (db : database) : list line_item :=
  filter (fun li => N.eqb (li_order_id li) order_id) (order_line_items db).

(** [update_order_status], AFTER INSERT OR UPDATE OR DELETE on
    [order_line_items], for a row of order [order_id]. *)
Definition update_order_status (t : timestamp) (order_id : uuid)
    (db : database) : database :=
  match find (fun o => N.eqb (o_id o) order_id) (orders db) with
  | None => db
  | Some order_record =>
      update_status_where t (o_id order_record)
        (status_of_counts (items_of_order (o_id order_record) db)) db
  end.

(** ** The audit sink ([middleware/auth.js]) *)

(** [logAction]: one insertion into [audit_log] on the pool, outside any
    transaction of the caller; an error of the insertion is caught and
    written to the console. *)
Definition logAction (e : env) (action tableName : string) (recordId : uuid)
    (oldValues newValues : option image) (db : database) : database :=
  if audit_sink_up e then
    with_audit_log db
      (audit_log db ++
       [{| a_user_id := user_id e; a_action := action;
           a_table_name := tableName; a_record_id := recordId;
           a_old_values := oldValues; a_new_values := newValues |}])
  else db.

(** ** Requests and responses *)

Record line_item_input := {
  in_partId : option uuid;
  in_partNumber : string;
  in_description : string;
  in_colors : option string;
  in_quantity : JS.value;
  in_unit : string
}.

Record create_body := {
  cb_poNumber : string;
  cb_customerId : uuid;
  cb_dueDate : option date;
  cb_quotedShipDate : option date;
  cb_notes : option string;
  cb_lineItems : list line_item_input
}.

(** The four fields [PUT /:id] reads, and whatever else the client put in
    the body. *)
Record update_body := {
  ub_poNumber : option string;
  ub_dueDate : option date;
  ub_quotedShipDate : option date;
  ub_notes : option string;
  ub_rest : list (string * string)
}.

Record ship_body := {
  sb_quantity : JS.value;
  sb_shipDate : option date;
  sb_trackingNumber : option string;
  sb_notes : option string
}.

Inductive response :=
  | ValidationErrors
  | Error (status : Z) (message : string)
  | OrderCreated (o : order) (lineItems : list line_item)
  | OrderUpdated (o : option order)
  | ItemUpdated (li : option line_item)
  | ItemShipped (li : option line_item) (shippedQuantity : JS.value)
      (remainingQuantity : JS.number)
  | OrderCancelled.

(** The error kinds of the design, as the routes answer them. *)
Definition Conflict := Error 400 "PO number already exists for this customer".
Definition CustomerNotFound := Error 400 "Customer not found".
Definition OverShipment := Error 400 "Quantity exceeds remaining amount".
Definition OrderNotFound := Error 404 "Order not found".
Definition LineItemNotFound := Error 404 "Line item not found".
Definition TransactionFailure := Error 500 "Internal server error".

(** ** Validators (express-validator chains of the routes) *)

(** [isFloat({ min })] of validator.js on the text of the value: the text
    is in the language of [Text.scan], is none of the five excluded texts,
    and [parseFloat] of it is at least [min].  On a text of that language
    [parseFloat] reads all of it or, without a digit in the mantissa, gives
    NaN, as [StringToNumber] does. *)
Definition isFloat_min (min : JS.number) (v : JS.value) : bool :=
  let str := JS.ToString v in
  if existsb (String.eqb str) [""; "."; ","; "-"; "+"] then false
  else
    match Text.scan str with
    | Some _ => SFleb min (JS.StringToNumber str)
    | None => false
    end.

(** The literal [0.01]. *)
Definition min_quantity : JS.number := JS.round_decimal false 1 (-2).

Definition isIn (l : list string) (s : string) : bool := existsb (String.eqb s) l.

Definition notEmpty (s : string) : bool := negb (String.eqb s "").

(** [x || null] on an optional text: the empty string is falsy. *)
Definition or_null (x : option string) : option string :=
  match x with
  | Some s => if String.eqb s "" then None else Some s
  | None => None
  end.

(** [x || d] *)
Definition or_else (x : option string) (d : string) : string :=
  match or_null x with
  | Some s => s
  | None => d
  end.

Definition opt_default {A} (x : option A) (d : A) : A :=
  match x with Some a => a | None => d end.

(** ** POST / (createOrder) *)

Definition sanitize_item (i : line_item_input) : line_item_input :=
  {| in_partId := in_partId i;
     in_partNumber := Text.trim (in_partNumber i);
     in_description := Text.trim (in_description i);
     in_colors := in_colors i;
     in_quantity := in_quantity i;
     in_unit := in_unit i |}.

Definition sanitize_create (b : create_body) : create_body :=
  {| cb_poNumber := Text.trim (cb_poNumber b);
     cb_customerId := cb_customerId b;
     cb_dueDate := cb_dueDate b;
     cb_quotedShipDate := cb_quotedShipDate b;
     cb_notes := cb_notes b;
     cb_lineItems := map sanitize_item (cb_lineItems b) |}.

Definition valid_item (i : line_item_input) : bool :=
  notEmpty (in_partNumber i) && notEmpty (in_description i)
  && isFloat_min min_quantity (in_quantity i)
  && isIn ["feet"; "meters"; "pieces"] (in_unit i).

Definition valid_create (b : create_body) : bool :=
  notEmpty (cb_poNumber b)
  && (1 <=? List.length (cb_lineItems b))%nat
  && forallb valid_item (cb_lineItems b).

(** [INSERT INTO orders (po_number, customer_id, due_date, quoted_ship_date,
    notes, created_by) ... RETURNING ...] with the column checks of the
    table: length of [po_number], the customer reference, the uniqueness of
    [(customer_id, po_number)]. *)
Definition insert_order (e : env) (poNumber : string) (customerId : uuid)
    (dueDate quotedShipDate : option date) (notes : option string)
    (db : database) : option (order * database) :=
  match PG.varchar 100 poNumber with
  | None => None
  | Some po =>
      if negb (existsb (fun c => N.eqb (c_id c) customerId) (customers db)) then None
      else if existsb (fun o => N.eqb (o_customer_id o) customerId
                                && String.eqb (o_po_number o) po) (orders db)
      then None
      else
        let (id, db1) := fresh db in
        let o := {| o_id := id; o_po_number := po; o_customer_id := customerId;
                    o_due_date := dueDate; o_quoted_ship_date := quotedShipDate;
                    o_status := pending; o_notes := notes;
                    o_created_at := now e; o_updated_at := now e;
                    o_created_by := user_id e |} in
        Some (o, with_orders db1 (orders db1 ++ [o]))
  end.

(** [INSERT INTO order_line_items (order_id, part_id, part_number,
    description, colors, quantity, unit) ... RETURNING *], with the column
    checks of the table, followed by the status trigger. *)
Definition insert_line_item (e : env) (order_id : uuid) (item : line_item_input)
    (db : database) : option (line_item * database) :=
  if negb (existsb (fun o => N.eqb (o_id o) order_id) (orders db)) then None
  else if match in_partId item with
          | Some pid => negb (existsb (fun p => N.eqb (p_id p) pid) (parts db))
          | None => false
          end then None
  else
    match PG.varchar 100 (in_partNumber item),
          PG.varchar_opt 255 (or_null (in_colors item)),
          PG.numeric_in (PG.prepareValue (in_quantity item)),
          PG.varchar 20 (in_unit item) with
    | Some pn, Some colors, Some q, Some u =>
        if negb (0 <? q) then None
        else if negb (isIn ["feet"; "meters"; "pieces"] u) then None
        else
          let (id, db1) := fresh db in
          let row := {| li_id := id; li_order_id := order_id;
                        li_part_id := in_partId item; li_part_number := pn;
                        li_description := in_description item;
                        li_colors := colors; li_quantity := q; li_unit := u;
                        li_in_production := false; li_shipped_quantity := 0;
                        li_date_shipped := None;
                        li_created_at := now e; li_updated_at := now e |} in
          let db2 := with_line_items db1 (order_line_items db1 ++ [row]) in
          Some (row, update_order_status (now e) order_id db2)
    | _, _, _, _ => None
    end.

(** [for (const item of lineItems) { ... createdLineItems.push(...) }] *)
Fixpoint insert_line_items (e : env) (order_id : uuid)
    (items : list line_item_input) (db : database)
    : option (list line_item * database) :=
  match items with
  | [] => Some ([], db)
  | item :: rest =>
      match insert_line_item e order_id item db with
      | None => None
      | Some (row, db1) =>
          match insert_line_items e order_id rest db1 with
          | None => None
          | Some (rows, db2) => Some (row :: rows, db2)
          end
      end
  end.

(** The handler.  A transaction works on its own copy of the tables:
    ROLLBACK, in a branch or in the [catch], answers with the tables the
    request found. *)
Definition createOrder (e : env) (db : database) (body : create_body)
    : response * database :=
  let body := sanitize_create body in
  if negb (valid_create body) then (ValidationErrors, db)
  else
    let poNumber := cb_poNumber body in
    let customerId := cb_customerId body in
    if existsb (fun o => N.eqb (o_customer_id o) customerId
                         && String.eqb (o_po_number o) poNumber) (orders db)
    then (Conflict, db)
    else if negb (existsb (fun c => N.eqb (c_id c) customerId && c_active c)
                          (customers db))
    then (CustomerNotFound, db)
    else
      match insert_order e poNumber customerId (or_null (cb_dueDate body))
              (or_null (cb_quotedShipDate body)) (or_null (cb_notes body)) db with
      | None => (TransactionFailure, db)
      | Some (order, db1) =>
          match insert_line_items e (o_id order) (cb_lineItems body) db1 with
          | None => (TransactionFailure, db)
          | Some (createdLineItems, db2) =>
              let db3 := logAction e "CREATE_ORDER" "orders" (o_id order)
                           None (Some (OrderImage order)) db2 in
              (OrderCreated order createdLineItems, db3)
          end
      end.

(** ** PUT /:id (updateOrder) *)

Definition sanitize_update (b : update_body) : update_body :=
  {| ub_poNumber := option_map Text.trim (ub_poNumber b);
     ub_dueDate := ub_dueDate b;
     ub_quotedShipDate := ub_quotedShipDate b;
     ub_notes := ub_notes b;
     ub_rest := ub_rest b |}.

Definition valid_update (b : update_body) : bool :=
  match ub_poNumber b with
  | Some p => notEmpty p
  | None => true
  end.

(** [COALESCE(x, old)] *)
Definition coalesce {A} (x : option A) (old : option A) : option A :=
  match x with Some _ => x | None => old end.

(** The SET list of the UPDATE of [PUT /:id], on one row. *)
Definition set_order_fields (t : timestamp) (po : string)
    (dueDate quotedShipDate : option date) (notes : option string)
    (o : order) : order :=
  {| o_id := o_id o;
     o_po_number := po;
     o_customer_id := o_customer_id o;
     o_due_date := coalesce dueDate (o_due_date o);
     o_quoted_ship_date := coalesce quotedShipDate (o_quoted_ship_date o);
     o_status := o_status o;
     o_notes := coalesce notes (o_notes o);
     o_created_at := o_created_at o;
     o_updated_at := t;
     o_created_by := o_created_by o |}.

(** One row under the UPDATE: [None] when the new [po_number] does not fit
    its column. *)
Definition update_order_row (t : timestamp) (id : uuid) (poNumber : option string)
    (dueDate quotedShipDate : option date) (notes : option string)
    (o : order) : option order :=
  if N.eqb (o_id o) id then
    match PG.varchar 100 (opt_default poNumber (o_po_number o)) with
    | Some po => Some (set_order_fields t po dueDate quotedShipDate notes o)
    | None => None
    end
  else Some o.

Fixpoint map_opt {A B} (f : A -> option B) (l : list A) : option (list B) :=
  match l with
  | [] => Some []
  | x :: r =>
      match f x, map_opt f r with
      | Some y, Some r' => Some (y :: r')
      | _, _ => None
      end
  end.

(** UNIQUE(customer_id, po_number): an updated row must not take the key of
    another row. *)
Definition key_taken (id : uuid) (rows : list order) : bool :=
  existsb (fun o =>
    N.eqb (o_id o) id
    && existsb (fun o' => negb (N.eqb (o_id o') id)
                          && N.eqb (o_customer_id o') (o_customer_id o)
                          && String.eqb (o_po_number o') (o_po_number o)) rows)
    rows.

(** [UPDATE orders SET po_number = COALESCE($1, po_number), ... WHERE id = $5
    RETURNING *] *)
Definition update_order_stmt (t : timestamp) (id : uuid) (poNumber : option string)
    (dueDate quotedShipDate : option date) (notes : option string)
    (db : database) : option (list order * database) :=
  match map_opt (update_order_row t id poNumber dueDate quotedShipDate notes)
          (orders db) with
  | None => None
  | Some rows =>
      if key_taken id rows then None
      else Some (filter (fun o => N.eqb (o_id o) id) rows, with_orders db rows)
  end.

Definition updateOrder (e : env) (db : database) (id : uuid) (body : update_body)
    : response * database :=
  let body := sanitize_update body in
  if negb (valid_update body) then (ValidationErrors, db)
  else
    match find (fun o => N.eqb (o_id o) id) (orders db) with
    | None => (OrderNotFound, db)
    | Some oldValues =>
        match update_order_stmt (now e) id (ub_poNumber body) (ub_dueDate body)
                (ub_quotedShipDate body) (ub_notes body) db with
        | None => (TransactionFailure, db)
        | Some (rows, db1) =>
            let updatedOrder := hd_error rows in
            let db2 := logAction e "UPDATE_ORDER" "orders" id
                         (Some (OrderImage oldValues))
                         (option_map OrderImage updatedOrder) db1 in
            (OrderUpdated updatedOrder, db2)
        end
    end.

(** ** Statements on [order_line_items] *)

(** [UPDATE order_line_items SET ... WHERE id = $n RETURNING *]: the rows of
    that id get the SET list [f] and the time of the statement
    ([update_updated_at_column]); the status trigger then runs for the order
    of each updated row. *)
Definition touch (t : timestamp) (li : line_item) : line_item :=
  {| li_id := li_id li; li_order_id := li_order_id li;
     li_part_id := li_part_id li; li_part_number := li_part_number li;
     li_description := li_description li; li_colors := li_colors li;
     li_quantity := li_quantity li; li_unit := li_unit li;
     li_in_production := li_in_production li;
     li_shipped_quantity := li_shipped_quantity li;
     li_date_shipped := li_date_shipped li;
     li_created_at := li_created_at li; li_updated_at := t |}.

Definition update_line_items_where (t : timestamp) (id : uuid)
    (f : line_item -> line_item) (db : database) : list line_item * database :=
  let rows := map (fun li => if N.eqb (li_id li) id then touch t (f li) else li)
                  (order_line_items db) in
  let updated := filter (fun li => N.eqb (li_id li) id) rows in
  (updated,
   fold_left (fun d li => update_order_status t (li_order_id li) d) updated
     (with_line_items db rows)).

Definition find_line_item (itemId orderId : uuid) (db : database) : option line_item :=
  find (fun li => N.eqb (li_id li) itemId && N.eqb (li_order_id li) orderId)
       (order_line_items db).

(** ** PUT /:orderId/items/:itemId/production (setInProduction) *)

Definition set_in_production (li : line_item) : line_item :=
  {| li_id := li_id li; li_order_id := li_order_id li;
     li_part_id := li_part_id li; li_part_number := li_part_number li;
     li_description := li_description li; li_colors := li_colors li;
     li_quantity := li_quantity li; li_unit := li_unit li;
     li_in_production := true;
     li_shipped_quantity := li_shipped_quantity li;
     li_date_shipped := li_date_shipped li;
     li_created_at := li_created_at li; li_updated_at := li_updated_at li |}.

Definition setInProduction (e : env) (db : database) (orderId itemId : uuid)
    : response * database :=
  match find_line_item itemId orderId db with
  | None => (LineItemNotFound, db)
  | Some oldValues =>
      let (rows, db1) := update_line_items_where (now e) itemId set_in_production db in
      let updatedItem := hd_error rows in
      let db2 := logAction e "SET_PRODUCTION" "order_line_items" itemId
                   (Some (LineItemImage oldValues))
                   (option_map LineItemImage updatedItem) db1 in
      (ItemUpdated updatedItem, db2)
  end.

(** ** POST /:orderId/items/:itemId/ship (shipLineItem) *)

(** The two [DECIMAL(10,2)] fields of the row as the driver hands them to
    the handler: node-postgres parses no [NUMERIC] value, [lineItem.quantity]
    and [lineItem.shipped_quantity] are the texts the store prints. *)
Definition row_quantity (lineItem : line_item) : JS.value :=
  JS.Str (PG.numeric_out (li_quantity lineItem)).

Definition row_shipped_quantity (lineItem : line_item) : JS.value :=
  JS.Str (PG.numeric_out (li_shipped_quantity lineItem)).

Definition sanitize_ship (b : ship_body) : ship_body :=
  {| sb_quantity := sb_quantity b;
     sb_shipDate := sb_shipDate b;
     sb_trackingNumber := option_map Text.trim (sb_trackingNumber b);
     sb_notes := option_map Text.trim (sb_notes b) |}.

Definition valid_ship (b : ship_body) : bool :=
  isFloat_min min_quantity (sb_quantity b).

(** [INSERT INTO shipments (line_item_id, quantity, ship_date,
    tracking_number, notes, created_by) VALUES ...] *)
Definition insert_shipment (e : env) (itemId : uuid) (quantity : JS.value)
    (shipDate : date) (trackingNumber notes : option string) (db : database)
    : option database :=
  if negb (existsb (fun li => N.eqb (li_id li) itemId) (order_line_items db)) then None
  else
    match PG.numeric_in (PG.prepareValue quantity),
          PG.varchar_opt 100 trackingNumber with
    | Some q, Some tn =>
        if negb (0 <? q) then None
        else
          let (id, db1) := fresh db in
          Some (with_shipments db1
                  (shipments db1 ++
                   [{| s_id := id; s_line_item_id := itemId; s_quantity := q;
                       s_ship_date := shipDate; s_tracking_number := tn;
                       s_notes := notes; s_created_at := now e;
                       s_created_by := user_id e |}]))
    | _, _ => None
    end.

(** The SET list of the UPDATE of the ship route:
    [shipped_quantity = $1,
     date_shipped = CASE WHEN $2 THEN $3 ELSE date_shipped END]. *)
Definition set_shipped (q : PG.numeric) (isFullyShipped : bool) (d : date)
    (li : line_item) : line_item :=
  {| li_id := li_id li; li_order_id := li_order_id li;
     li_part_id := li_part_id li; li_part_number := li_part_number li;
     li_description := li_description li; li_colors := li_colors li;
     li_quantity := li_quantity li; li_unit := li_unit li;
     li_in_production := li_in_production li;
     li_shipped_quantity := q;
     li_date_shipped := if isFullyShipped then Some d else li_date_shipped li;
     li_created_at := li_created_at li; li_updated_at := li_updated_at li |}.

(** The UPDATE itself: the text of [$1] has to be a numeric that fits the
    column and satisfies [CHECK (shipped_quantity >= 0)]. *)
Definition update_shipped (e : env) (itemId : uuid) (newShippedQuantity : JS.value)
    (isFullyShipped : bool) (d : date) (db : database)
    : option (list line_item * database) :=
  match PG.numeric_in (PG.prepareValue newShippedQuantity) with
  | None => None
  | Some q =>
      if negb (0 <=? q) then None
      else Some (update_line_items_where (now e) itemId
                   (set_shipped q isFullyShipped d) db)
  end.

Definition shipLineItem (e : env) (db : database) (orderId itemId : uuid)
    (body : ship_body) : response * database :=
  let body := sanitize_ship body in
  if negb (valid_ship body) then (ValidationErrors, db)
  else
    let quantity := sb_quantity body in
    match find_line_item itemId orderId db with
    | None => (LineItemNotFound, db)
    | Some lineItem =>
        let remainingQuantity :=
          JS.sub (row_quantity lineItem) (row_shipped_quantity lineItem) in
        if JS.gt quantity (JS.Num remainingQuantity) then (OverShipment, db)
        else
          let shipDate := or_else (sb_shipDate body) (today e) in
          match insert_shipment e itemId quantity shipDate
                  (sb_trackingNumber body) (sb_notes body) db with
          | None => (TransactionFailure, db)
          | Some db1 =>
              let newShippedQuantity := JS.add (row_shipped_quantity lineItem) quantity in
              let isFullyShipped := JS.ge newShippedQuantity (row_quantity lineItem) in
              match update_shipped e itemId newShippedQuantity isFullyShipped
                      shipDate db1 with
              | None => (TransactionFailure, db)
              | Some (rows, db2) =>
                  let updatedLineItem := hd_error rows in
                  let db3 := logAction e "SHIP_ITEM" "order_line_items" itemId
                               (Some (LineItemImage lineItem))
                               (option_map LineItemImage updatedLineItem) db2 in
                  (ItemShipped updatedLineItem quantity
                     (JS.sub (row_quantity lineItem) newShippedQuantity),
                   db3)
              end
          end
    end.

(** ** DELETE /:id (cancelOrder) *)

Definition cancelOrder (e : env) (db : database) (id : uuid) : response * database :=
  match find (fun o => N.eqb (o_id o) id) (orders db) with
  | None => (OrderNotFound, db)
  | Some order =>
      let db1 := update_status_where (now e) id cancelled db in
      let db2 := logAction e "DELETE_ORDER" "orders" id
                   (Some (OrderImage order)) None db1 in
      (OrderCancelled, db2)
  end.

(** ** The rules of the design, in its own words *)

(** A line item is fully shipped when its [date_shipped] is set. *)
Definition fully_shipped (li : line_item) : bool := is_set (li_date_shipped li).


(** The rule the trigger computes, in the same words: the second case looks
    at [date_shipped], not at [shipped_quantity]. *)
Definition recompute_rule (items : list line_item) : order_status :=
  if forallb fully_shipped items then shipped
  else if existsb li_in_production items || existsb fully_shipped items
  then production
  else pending.

Definition order_status_of (id : uuid) (db : database) : option order_status :=
  option_map o_status (find (fun o => N.eqb (o_id o) id) (orders db)).

(** The ledger invariant: [0 <= shipped_quantity <= quantity] on every line
    item, and the quantities of its shipments add up to [shipped_quantity]. *)
Definition shipments_total (itemId : uuid) (db : database) : PG.numeric :=
  fold_right Z.add 0
    (map s_quantity
       (filter (fun s => N.eqb (s_line_item_id s) itemId) (shipments db))).

Definition ledger_ok (db : database) : bool :=
  forallb (fun li =>
    (0 <=? li_shipped_quantity li)
    && (li_shipped_quantity li <=? li_quantity li)
    && (shipments_total (li_id li) db =? li_shipped_quantity li))
    (order_line_items db).

(** The fields of a line item other than [in_production] and [updated_at]. *)
Definition same_but_production_and_time (a b : line_item) : Prop :=
  li_id a = li_id b /\ li_order_id a = li_order_id b
  /\ li_part_id a = li_part_id b /\ li_part_number a = li_part_number b
  /\ li_description a = li_description b /\ li_colors a = li_colors b
  /\ li_quantity a = li_quantity b /\ li_unit a = li_unit b
  /\ li_shipped_quantity a = li_shipped_quantity b
  /\ li_date_shipped a = li_date_shipped b
  /\ li_created_at a = li_created_at b.

(** The fields of an order that [PUT /:id] has no business with. *)
Definition order_frame (o : order) : uuid * uuid * order_status * timestamp * uuid :=
  (o_id o, o_customer_id o, o_status o, o_created_at o, o_created_by o).

Definition set_sink (up : bool) (e : env) : env :=
  {| now := now e; today := today e; user_id := user_id e; audit_sink_up := up |}.

Definition is_created (r : response) : bool :=
  match r with OrderCreated _ _ => true | _ => false end.

Definition is_shipped (r : response) : bool :=
  match r with ItemShipped _ _ _ => true | _ => false end.

(** The audit entries of the two routes that run a transaction. *)
Definition create_entry (e : env) (o : order) : audit_entry :=
  {| a_user_id := user_id e; a_action := "CREATE_ORDER";
     a_table_name := "orders"; a_record_id := o_id o;
     a_old_values := None; a_new_values := Some (OrderImage o) |}.

Definition ship_entry (e : env) (itemId : uuid) (before after : option line_item)
    : audit_entry :=
  {| a_user_id := user_id e; a_action := "SHIP_ITEM";
     a_table_name := "order_line_items"; a_record_id := itemId;
     a_old_values := option_map LineItemImage before;
     a_new_values := option_map LineItemImage after |}.

(** ** A run of the routes, for the concrete statements below *)

Module Scenario.

Definition e0 : env :=
  {| now := 1%N; today := "2024-09-01"; user_id := 7%N; audit_sink_up := true |}.

Definition at_date (d : date) : env :=
  {| now := 2%N; today := d; user_id := 7%N; audit_sink_up := true |}.

Definition empty : database :=
  {| customers := [{| c_id := 1%N; c_name := "ABC Manufacturing"; c_active := true |}];
     parts := []; orders := []; order_line_items := []; shipments := [];
     audit_log := []; next_id := 100%N |}.

(** The JSON number written [s]. *)
Definition json_number (s : string) : JS.value := JS.Num (JS.StringToNumber s).

Definition one_item (quantity : string) : create_body :=
  {| cb_poNumber := "PO-2024-001"; cb_customerId := 1%N;
     cb_dueDate := None; cb_quotedShipDate := None; cb_notes := None;
     cb_lineItems :=
       [{| in_partId := None; in_partNumber := "WG-001";
           in_description := "Wire Guard Standard"; in_colors := Some "Black";
           in_quantity := json_number quantity; in_unit := "pieces" |}] |}.

Definition ship (quantity : JS.value) : ship_body :=
  {| sb_quantity := quantity; sb_shipDate := None;
     sb_trackingNumber := None; sb_notes := None |}.

(** One order (id 100) with one line item (id 101) of 100 pieces. *)
Definition placed : database := snd (createOrder e0 empty (one_item "100")).

(** The same with 10000 pieces. *)
Definition placed_large : database := snd (createOrder e0 empty (one_item "10000")).

Definition item (db : database) : option line_item := find_line_item 101 100 db.

(** Ship 40 of the 100 pieces. *)
Definition ship_40 : response * database :=
  shipLineItem e0 placed 100 101 (ship (json_number "40")).


(** Ask for 101 of the 100 pieces. *)
Definition ship_101 : response * database :=
  shipLineItem e0 placed 100 101 (ship (json_number "101")).

(** Cancel the order, then start production of its line item. *)
Definition cancelled_order : database := snd (cancelOrder e0 placed 100).

Definition then_in_production : database :=
  snd (setInProduction e0 cancelled_order 100 101).

(** Of the 10000 pieces: a first shipment whose quantity comes as the JSON
    string ["5e3"], then one piece on 2 September, then one piece on
    3 September. *)
Definition first_shipment : response * database :=
  shipLineItem e0 placed_large 100 101 (ship (JS.Str "5e3")).

Definition second_shipment : response * database :=
  shipLineItem (at_date "2024-09-02") (snd first_shipment) 100 101
    (ship (json_number "1")).

Definition third_shipment : response * database :=
  shipLineItem (at_date "2024-09-03") (snd second_shipment) 100 101
    (ship (json_number "1")).

(** A second order for the same customer, its PO number in lower case. *)
Definition lower_case_po : create_body :=
  {| cb_poNumber := "po-2024-001"; cb_customerId := 1%N;
     cb_dueDate := None; cb_quotedShipDate := None; cb_notes := None;
     cb_lineItems := cb_lineItems (one_item "100") |}.

(** A line item of 0.30 feet with 0.10 shipped, and its order. *)
Definition thirty_hundredths : database :=
  {| customers := customers empty; parts := [];
     orders := [{| o_id := 100; o_po_number := "PO-2024-002"; o_customer_id := 1;
                   o_due_date := None; o_quoted_ship_date := None;
                   o_status := pending; o_notes := None;
                   o_created_at := 1; o_updated_at := 1; o_created_by := 7 |}];
     order_line_items :=
       [{| li_id := 101; li_order_id := 100; li_part_id := None;
           li_part_number := "CB-100"; li_description := "Cable Bundle 100mm";
           li_colors := None; li_quantity := 30; li_unit := "feet";
           li_in_production := false; li_shipped_quantity := 10;
           li_date_shipped := None; li_created_at := 1; li_updated_at := 1 |}];
     shipments := []; audit_log := []; next_id := 102%N |}.

(** One line item of 10 pieces, and [n] shipments of 5 pieces each, every
    quantity a JSON number. *)
Definition placed_small : database := snd (createOrder e0 empty (one_item "10")).

Fixpoint shipments_of_5 (n : nat) (db : database) : database :=
  match n with
  | O => db
  | S k =>
      shipments_of_5 k (snd (shipLineItem e0 db 100 101 (ship (json_number "5"))))
  end.

Definition succeeded (r : response) : bool :=
  match r with
  | ItemShipped (Some _) _ _ => true
  | _ => false
  end.

(** The same shipment of 40 with the audit sink down. *)
Definition ship_40_sink_down : response * database :=
  shipLineItem (set_sink false e0) placed 100 101 (ship (json_number "40")).

End Scenario.

Import Scenario.

(** ** The mutating routes of the router as one step *)

Inductive request :=
  | CreateOrder (body : create_body)
  | UpdateOrder (id : uuid) (body : update_body)
  | SetInProduction (orderId itemId : uuid)
  | ShipLineItem (orderId itemId : uuid) (body : ship_body)
  | CancelOrder (id : uuid).

(** [router.post('/')], [router.put('/:id')],
    [router.put('/:orderId/items/:itemId/production')],
    [router.post('/:orderId/items/:itemId/ship')], [router.delete('/:id')]. *)
Definition handle (e : env) (db : database) (r : request) : response * database :=
  match r with
  | CreateOrder body => createOrder e db body
  | UpdateOrder id body => updateOrder e db id body
  | SetInProduction orderId itemId => setInProduction e db orderId itemId
  | ShipLineItem orderId itemId body => shipLineItem e db orderId itemId body
  | CancelOrder id => cancelOrder e db id
  end.

(** Requests handled one after the other, each at its own time. *)
Fixpoint run (db : database) (l : list (env * request)) : database :=
  match l with
  | [] => db
  | (e, r) :: l' => run (snd (handle e db r)) l'
  end.

Definition is_error (r : response) : bool :=
  match r with
  | ValidationErrors | Error _ _ => true
  | _ => false
  end.

(** The columns of a line item no statement of the routes writes. *)
Definition li_static (li : line_item) :=
  (li_id li, li_order_id li, li_part_id li, li_part_number li,
   li_description li, li_colors li, li_quantity li, li_unit li,
   li_created_at li).

(** What a line item can become: the same row in its fixed columns, still in
    production if it was, still with a [date_shipped] if it had one. *)
Definition li_evolves (a b : line_item) : Prop :=
  li_static a = li_static b
  /\ (li_in_production a = true -> li_in_production b = true)
  /\ (is_set (li_date_shipped a) = true -> is_set (li_date_shipped b) = true).

(** Every order that has line items and is not cancelled carries the status
    the recomputation gives on them. *)
Definition status_consistent (db : database) : Prop :=
  forall o, In o (orders db) ->
    o_status o = cancelled
    \/ items_of_order (o_id o) db = []
    \/ o_status o = recompute_rule (items_of_order (o_id o) db).

(** Identifiers that are distinct and older than the next one generated. *)
Definition ids_ok (ids : list uuid) (next : uuid) : Prop :=
  NoDup ids /\ Forall (fun i => (i < next)%N) ids.

(** The keys of the schema: PRIMARY KEY on the three tables (with
    identifiers from [uuid_generate_v4()]) and UNIQUE(customer_id,
    po_number) on [orders]. *)
Definition keys_ok (db : database) : Prop :=
  ids_ok (map o_id (orders db)) (next_id db)
  /\ ids_ok (map li_id (order_line_items db)) (next_id db)
  /\ ids_ok (map s_id (shipments db)) (next_id db)
  /\ NoDup (map (fun o => (o_customer_id o, o_po_number o)) (orders db)).

(** The references of the schema: an order to its customer, a line item to
    its order and to its part, a shipment to its line item. *)
Definition references_ok (db : database) : Prop :=
  Forall (fun o => In (o_customer_id o) (map c_id (customers db))) (orders db)
  /\ Forall (fun li => In (li_order_id li) (map o_id (orders db))
                       /\ forall p, li_part_id li = Some p ->
                                    In p (map p_id (parts db)))
            (order_line_items db)
  /\ Forall (fun s => In (s_line_item_id s) (map li_id (order_line_items db)))
            (shipments db).

(** The CHECK constraints and the column sizes of the schema. *)
Definition item_checks (li : line_item) : Prop :=
  0 < li_quantity li < 10 ^ 10
  /\ 0 <= li_shipped_quantity li < 10 ^ 10
  /\ In (li_unit li) ["feet"; "meters"; "pieces"]
  /\ (String.length (li_part_number li) <= 100)%nat.

Definition checks_ok (db : database) : Prop :=
  Forall item_checks (order_line_items db)
  /\ Forall (fun s => 0 < s_quantity s < 10 ^ 10) (shipments db)
  /\ Forall (fun o => (String.length (o_po_number o) <= 100)%nat) (orders db).

Definition schema_ok (db : database) : Prop :=
  keys_ok db /\ references_ok db /\ checks_ok db.

(** The columns of an order no statement of the routes writes. *)
Definition o_static (o : order) := (o_id o, o_customer_id o, o_created_at o, o_created_by o).

(** A table and a later state of it: the old rows are all there, in place,
    each related to what it was by [R]; new rows come after them. *)
Definition history {A} (R : A -> A -> Prop) (old new : list A) : Prop :=
  exists l1 l2, new = (l1 ++ l2)%list /\ Forall2 R old l1.

Definition o_evolves (a b : order) : Prop := o_static a = o_static b.

(** The status trigger on one row of [orders]. *)
Definition recompute_order (t : timestamp) (id : uuid) (db : database) (o : order)
    : order :=
  if N.eqb (o_id o) id
  then set_order_status t (status_of_counts (items_of_order id db)) o
  else o.

(** A table and a later state of it in which rows were only added. *)
Definition extends {A} (old new : list A) : Prop :=
  exists l, new = (old ++ l)%list.

(** The orders after the triggers of a statement: the orders of the rows
    carry the status of their line items, the others are as they were. *)
Definition recomputed (t : timestamp) (l : list line_item) (db : database)
    (o : order) : order :=
  if existsb (fun li => N.eqb (o_id o) (li_order_id li)) l
  then set_order_status t (status_of_counts (items_of_order (o_id o) db)) o
  else o.



(** The action and the table each route passes to [logAction]. *)
Definition action_of (r : request) : string * string :=
  match r with
  | CreateOrder _ => ("CREATE_ORDER", "orders")
  | UpdateOrder _ _ => ("UPDATE_ORDER", "orders")
  | SetInProduction _ _ => ("SET_PRODUCTION", "order_line_items")
  | ShipLineItem _ _ _ => ("SHIP_ITEM", "order_line_items")
  | CancelOrder _ => ("DELETE_ORDER", "orders")
  end.

(** A line item as [POST /] leaves it: nothing shipped, not in production. *)
Definition untouched (li : line_item) : Prop :=
  li_shipped_quantity li = 0 /\ li_in_production li = false
  /\ li_date_shipped li = None.

Module More.

(** Two orders of the same customer: 100 with PO-2024-001 and 102 with
    po-2024-001. *)
Definition two_orders : database :=
  snd (createOrder Scenario.e0 Scenario.placed Scenario.lower_case_po).

Definition take_po (p : string) : update_body :=
  {| ub_poNumber := Some p; ub_dueDate := None; ub_quotedShipDate := None;
     ub_notes := None; ub_rest := [] |}.

End More.

(** * Authentication and roles ([middleware/auth.js], [server.js]) *)

(** [s.split(' ')]: the first field of [s] and the fields after it, a field
    ending at each space. *)
Fixpoint split_fields (s : string) : string * list string :=
  match s with
  | EmptyString => (EmptyString, [])
  | String c r =>
      let (f, fs) := split_fields r in
      if Ascii.eqb c " " then (EmptyString, f :: fs) else (String c f, fs)
  end.

Definition split (s : string) : list string :=
  let (f, fs) := split_fields s in f :: fs.

(** The columns of [users] the middleware selects; [u_active] is false for a
    row whose [active] is false or NULL. *)
Record user := {
  u_id : uuid;
  u_email : string;
  u_first_name : string;
  u_last_name : string;
  u_role : string;
  u_active : bool
}.

(** [decoded.userId] as a parameter of the query on [users]: missing (the
    driver sends NULL), not the text of a UUID (the store refuses it), or a
    UUID. *)
Inductive claim :=
  | Undefined
  | NotUuid
  | Uuid (id : uuid).

(** What [jwt.verify(token, process.env.JWT_SECRET)] does: it returns the
    payload or throws, a [TokenExpiredError] or another error. *)
Inductive verified :=
  | Decoded (userId : claim)
  | TokenExpiredError
  | OtherError.

(** [authHeader && authHeader.split(' ')[1]]; [None] is [undefined]. *)
Definition token_of (authorization : option string) : option string :=
  match authorization with
  | None => None
  | Some authHeader =>
      if String.eqb authHeader "" then Some ""%string
      else nth_error (split authHeader) 1
  end.

(** [!token] *)
Definition no_token (token : option string) : bool :=
  match token with
  | None => true
  | Some t => String.eqb t ""
  end.

(** [authenticateToken]: the answer it sends, or the user it leaves in
    [req.user] when it calls [next()]. *)
Definition authenticateToken (verify : string -> verified) (users : list user)
    (authorization : option string) : response + user :=
  let token := token_of authorization in
  if no_token token then inl (Error 401 "Access token required")
  else
    match verify (opt_default token "") with
    | Decoded (Uuid id) =>
        match filter (fun u => N.eqb (u_id u) id && u_active u) users with
        | [] => inl (Error 403 "User not found or inactive")
        | u :: _ => inr u
        end
    | Decoded Undefined => inl (Error 403 "User not found or inactive")
    | Decoded NotUuid => inl (Error 403 "Invalid token")
    | TokenExpiredError => inl (Error 403 "Token expired")
    | OtherError => inl (Error 403 "Invalid token")
    end.

(** [requireRole(roles)]: the answer it sends, or [None] when it calls
    [next()]. *)
Definition requireRole (roles : list string) (req_user : option user)
    : option response :=
  match req_user with
  | None => Some (Error 401 "Authentication required")
  | Some u =>
      if negb (existsb (String.eqb (u_role u)) roles)
      then Some (Error 403 "Insufficient permissions")
      else None
  end.

(** The roles each mutating route of [routes/orders.js] requires. *)
Definition roles_of (r : request) : list string :=
  match r with
  | CancelOrder _ => ["admin"]
  | _ => ["admin"; "manager"]
  end.

(** [req.user.id] as the routes read it. *)
Definition as_user (u : user) (e : env) : env :=
  {| now := now e; today := today e; user_id := u_id u;
     audit_sink_up := audit_sink_up e |}.

(** A request to [/api/orders]: [authenticateToken], then the [requireRole]
    of the route, then the route. *)
Definition serve (verify : string -> verified) (users : list user) (e : env)
    (db : database) (authorization : option string) (r : request)
    : response * database :=
  match authenticateToken verify users authorization with
  | inl answer => (answer, db)
  | inr u =>
      match requireRole (roles_of r) (Some u) with
      | Some answer => (answer, db)
      | None => handle (as_user u e) db r
      end
  end.

(** No space in [s]. *)
Definition no_space (s : string) : bool :=
  forallb (fun c => negb (Ascii.eqb c " ")) (list_ascii_of_string s).

Module Staff.

Definition admin : user :=
  {| u_id := 7; u_email := "admin@company.com"; u_first_name := "System";
     u_last_name := "Administrator"; u_role := "admin"; u_active := true |}.

Definition manager : user :=
  {| u_id := 8; u_email := "manager@company.com"; u_first_name := "Mary";
     u_last_name := "Manager"; u_role := "manager"; u_active := true |}.

Definition clerk : user :=
  {| u_id := 9; u_email := "clerk@company.com"; u_first_name := "Carl";
     u_last_name := "Clerk"; u_role := "user"; u_active := true |}.

Definition users : list user := [admin; manager; clerk].

(** A verifier that accepts the tokens [t7], [t8] and [t9]. *)
Definition verify (token : string) : verified :=
  if String.eqb token "t7" then Decoded (Uuid 7)
  else if String.eqb token "t8" then Decoded (Uuid 8)
  else if String.eqb token "t9" then Decoded (Uuid 9)
  else OtherError.

End Staff.

From Stdlib Require Import Permutation DecimalPos.

(** * The reading routes of [routes/orders.js] *)

Definition status_eqb (a b : order_status) : bool :=
  match a, b with
  | pending, pending | production, production
  | shipped, shipped | cancelled, cancelled => true
  | _, _ => false
  end.

(** The text of a status in its column. *)
Definition status_text (s : order_status) : string :=
  match s with
  | pending => "pending"
  | production => "production"
  | shipped => "shipped"
  | cancelled => "cancelled"
  end.

(** [WHERE status != 'cancelled'] *)
Definition not_cancelled (o : order) : bool := negb (status_eqb (o_status o) cancelled).

(** ** GET /stats/dashboard *)

(** The row of the statistics; the driver hands each count as its text. *)
Record dashboard := {
  total_orders : Z;
  pending_orders : Z;
  production_orders : Z;
  shipped_this_month : Z
}.

(** [same_month t d] stands for
    [DATE_TRUNC('month', t) = DATE_TRUNC('month', d)]. *)
Definition dashboardStats (same_month : timestamp -> date -> bool) (e : env)
    (db : database) : dashboard :=
  let rows := filter not_cancelled (orders db) in
  {| total_orders := count (fun _ => true) rows;
     pending_orders := count (fun o => status_eqb (o_status o) pending) rows;
     production_orders := count (fun o => status_eqb (o_status o) production) rows;
     shipped_this_month :=
       count (fun o => status_eqb (o_status o) shipped
                       && same_month (o_updated_at o) (today e)) rows |}.

(** ** GET /:id *)

(** [FROM orders o JOIN customers c ON o.customer_id = c.id] *)
Definition orders_with_customers (db : database) : list (order * customer) :=
  flat_map (fun o =>
              map (pair o)
                  (filter (fun c => N.eqb (c_id c) (o_customer_id o)) (customers db)))
           (orders db).

(** A shipment with [first_name] and [last_name] of the user who created it
    ([LEFT JOIN users u ON s.created_by = u.id], on the primary key). *)
Record shipment_row := {
  sr_shipment : shipment;
  sr_created_by : option (string * string)
}.

(** A line item with [part_part_number] ([LEFT JOIN parts p ON oli.part_id =
    p.id], on the primary key) and its shipments. *)
Record line_item_row := {
  lr_item : line_item;
  lr_part_part_number : option string;
  lr_shipments : list shipment_row
}.

Record order_details := {
  od_order : order;
  od_customer : customer;
  od_lineItems : list line_item_row
}.

Definition part_part_number (db : database) (li : line_item) : option string :=
  match li_part_id li with
  | None => None
  | Some p =>
      option_map p_part_number (find (fun x => N.eqb (p_id x) p) (parts db))
  end.

Definition shipment_with_user (users : list user) (s : shipment) : shipment_row :=
  {| sr_shipment := s;
     sr_created_by :=
       option_map (fun u => (u_first_name u, u_last_name u))
                  (find (fun u => N.eqb (u_id u) (s_created_by s)) users) |}.

(** The route: [None] is the answer 404 'Order not found'.  The rows carry
    the whole table rows, of which the answer shows the selected columns.
    [by_created_at] and [by_ship_date_desc] are the orders the store gives
    to [ORDER BY oli.created_at] and [ORDER BY s.ship_date DESC]. *)
Definition getOrder
    (by_created_at : list line_item -> list line_item)
    (by_ship_date_desc : list shipment -> list shipment)
    (users : list user) (db : database) (id : uuid) : option order_details :=
  match filter (fun oc => N.eqb (o_id (fst oc)) id) (orders_with_customers db) with
  | [] => None
  | (order, c) :: _ =>
      let lineItems := by_created_at (items_of_order id db) in
      let lineItemIds := map li_id lineItems in
      let shipments :=
        match lineItemIds with
        | [] => []
        | _ =>
            map (shipment_with_user users)
                (by_ship_date_desc
                   (filter (fun s => existsb (N.eqb (s_line_item_id s)) lineItemIds)
                           (shipments db)))
        end in
      let lineItemsWithShipments :=
        map (fun item =>
               {| lr_item := item;
                  lr_part_part_number := part_part_number db item;
                  lr_shipments :=
                    filter (fun s => N.eqb (s_line_item_id (sr_shipment s)) (li_id item))
                           shipments |})
            lineItems in
      Some {| od_order := order; od_customer := c;
              od_lineItems := lineItemsWithShipments |}
  end.

(** ** GET / *)

(** The filters of the query string; a filter that is missing or empty is
    not applied.  [lq_customer] is the filter on the customer as the store
    reads it into a UUID. *)
Record list_query := {
  lq_customer : claim;
  lq_status : option string;
  lq_search : option string
}.

(** A string of the query that is there and not empty. *)
Definition given (s : option string) : option string :=
  match s with
  | Some (String c r) => Some (String c r)
  | _ => None
  end.

(** The [whereClause] the route builds; [ilike] is the [ILIKE] of the store. *)
Definition whereClause (ilike : string -> string -> bool) (q : list_query)
    (o : order) (c : customer) : bool :=
  not_cancelled o
  && match lq_customer q with
     | Uuid id => N.eqb (c_id c) id
     | _ => true
     end
  && match given (lq_status q) with
     | Some st => String.eqb (status_text (o_status o)) st
     | None => true
     end
  && match given (lq_search q) with
     | Some search =>
         let pattern := ("%" ++ search ++ "%")%string in
         ilike (o_po_number o) pattern || ilike (c_name c) pattern
     | None => true
     end.

(** A row of the list: the order, its customer, and the aggregates over its
    line items ([LEFT JOIN order_line_items], [GROUP BY o.id, c.id, c.name]);
    a sum over no line item is NULL. *)
Record order_row := {
  or_order : order;
  or_customer : customer;
  or_total_line_items : Z;
  or_shipped_items : Z;
  or_total_quantity : option PG.numeric;
  or_total_shipped_quantity : option PG.numeric
}.

Definition sum_of (f : line_item -> PG.numeric) (items : list line_item)
    : option PG.numeric :=
  match items with
  | [] => None
  | _ => Some (fold_right Z.add 0 (map f items))
  end.

Definition order_row_of (db : database) (oc : order * customer) : order_row :=
  let items := items_of_order (o_id (fst oc)) db in
  {| or_order := fst oc;
     or_customer := snd oc;
     or_total_line_items := count (fun _ => true) items;
     or_shipped_items := count (fun li => is_set (li_date_shipped li)) items;
     or_total_quantity := sum_of li_quantity items;
     or_total_shipped_quantity := sum_of li_shipped_quantity items |}.

(** The two queries of the route, for the values [limit] and [offset] the
    store reads from its last two parameters: the rows of the page and the
    total of the pagination.  [None] is the answer 500, when the store
    refuses a parameter.  [newest_first] is the order the store gives to
    [ORDER BY o.created_at DESC]. *)
Definition listOrders (ilike : string -> string -> bool)
    (newest_first : list order_row -> list order_row)
    (limit offset : Z) (q : list_query) (db : database)
    : option (list order_row * Z) :=
  match lq_customer q with
  | NotUuid => None
  | _ =>
      if (limit <? 0) || (offset <? 0) then None
      else
        let matching :=
          filter (fun oc => whereClause ilike q (fst oc) (snd oc))
                 (orders_with_customers db) in
        let page :=
          firstn (Z.to_nat limit)
                 (skipn (Z.to_nat offset)
                        (newest_first (map (order_row_of db) matching))) in
        let total :=
          Z.of_nat (List.length (nodup N.eq_dec (map (fun oc => o_id (fst oc)) matching))) in
        Some (page, total)
  end.

Module Reads.

(** Orders of the store that leave the rows as they come. *)
Definition as_stored {A} (l : list A) : list A := l.

(** An [ILIKE] that compares for equality, case and wildcards left aside. *)
Definition ilike (s pattern : string) : bool := String.eqb ("%" ++ s ++ "%") pattern.

Definition same_month (t : timestamp) (d : date) : bool := true.

Definition all_orders : list_query :=
  {| lq_customer := Undefined; lq_status := None; lq_search := None |}.

End Reads.

(** * Time stamps ([update_updated_at_column], [DEFAULT CURRENT_TIMESTAMP]) *)

(** A table after a request at time [t]: every row that was there is as it
    was or carries [updated_at = t], and the rows added after them carry
    [created_at = updated_at = t]. *)
Definition stamped {A} (created_at updated_at : A -> timestamp) (t : timestamp)
    (old new : list A) : Prop :=
  exists l1 l2,
    new = (l1 ++ l2)%list
    /\ Forall2 (fun a b => b = a \/ updated_at b = t) old l1
    /\ Forall (fun b => created_at b = t /\ updated_at b = t) l2.

(** * Texts of quantities *)


(** A text made of digits. *)
Fixpoint all_digits (s : string) : bool :=
  match s with
  | String c r => Text.is_digit c && all_digits r
  | EmptyString => true
  end.

(** What a text of digits appended to the text of a [DECIMAL(10,2)] value
    adds to it when the store reads the whole: the digits stand behind the
    second decimal, so they round to one hundredth or to nothing. *)
Definition appended (d : string) : Z :=
  if 10 ^ Z.of_nat (String.length d) <=? 2 * Text.digits_value d then 1 else 0.

(** A text without a space. *)
Fixpoint no_spaces_in (s : string) : Prop :=
  match s with
  | String c r => Text.is_space c = false /\ no_spaces_in r
  | EmptyString => True
  end.

(** * Properties *)

Local Open Scope list_scope.

(** Follow the branch an equation of the goal has taken. *)
Ltac on_branch :=
  match goal with
  | |- (if ?c then _ else _) = _ -> _ => destruct c eqn:?; try discriminate
  | |- match ?c with _ => _ end = _ -> _ => destruct c eqn:?; try discriminate
  end.

(** ** What a statement leaves alone *)

Section Frames.

Variable t : timestamp.

Lemma update_status_where_line_items id st db :
  order_line_items (update_status_where t id st db) = order_line_items db.
Proof. reflexivity. Qed.

Lemma update_order_status_line_items id db :
  order_line_items (update_order_status t id db) = order_line_items db.
Proof.
  unfold update_order_status.
  destruct (find _ (orders db)); reflexivity.
Qed.

Lemma update_order_status_shipments id db :
  shipments (update_order_status t id db) = shipments db.
Proof.
  unfold update_order_status.
  destruct (find _ (orders db)); reflexivity.
Qed.

Lemma update_order_status_audit_log id db :
  audit_log (update_order_status t id db) = audit_log db.
Proof.
  unfold update_order_status.
  destruct (find _ (orders db)); reflexivity.
Qed.

Lemma update_order_status_items_of_order id id' db :
  items_of_order id' (update_order_status t id db) = items_of_order id' db.
Proof.
  unfold items_of_order. now rewrite update_order_status_line_items.
Qed.

(** The triggers of a statement, one after the other, write [orders] only. *)
Lemma triggers_line_items (l : list line_item) db :
  order_line_items
    (fold_left (fun d li => update_order_status t (li_order_id li) d) l db)
  = order_line_items db.
Proof.
  revert db. induction l as [|li l IH]; intros db; simpl.
  - reflexivity.
  - rewrite IH. apply update_order_status_line_items.
Qed.

Lemma update_line_items_where_rows id f db :
  order_line_items (snd (update_line_items_where t id f db))
  = map (fun li => if N.eqb (li_id li) id then touch t (f li) else li)
        (order_line_items db).
Proof.
  unfold update_line_items_where; simpl.
  now rewrite triggers_line_items.
Qed.

End Frames.

Lemma logAction_line_items e a tn r o n db :
  order_line_items (logAction e a tn r o n db) = order_line_items db.
Proof. unfold logAction. destruct (audit_sink_up e); reflexivity. Qed.

Lemma logAction_orders e a tn r o n db :
  orders (logAction e a tn r o n db) = orders db.
Proof. unfold logAction. destruct (audit_sink_up e); reflexivity. Qed.

Lemma logAction_shipments e a tn r o n db :
  shipments (logAction e a tn r o n db) = shipments db.
Proof. unfold logAction. destruct (audit_sink_up e); reflexivity. Qed.

(** ** Counting against quantifying *)

Section Counting.

Context {A : Type}.
Variable f : A -> bool.

Lemma count_nil : count f [] = 0.
Proof. reflexivity. Qed.

Lemma count_cons (x : A) (l : list A) :
  count f (x :: l) = (if f x then 1 else 0) + count f l.
Proof.
  unfold count. simpl filter. destruct (f x).
  - simpl List.length. rewrite Nat2Z.inj_succ. lia.
  - lia.
Qed.

Lemma count_nonneg (l : list A) : 0 <= count f l.
Proof. unfold count. lia. Qed.

Lemma count_length (l : list A) :
  count (fun _ => true) l = Z.of_nat (List.length l).
Proof.
  unfold count. f_equal. f_equal.
  induction l as [|x l IH]; simpl; [reflexivity | now rewrite IH].
Qed.

Lemma count_le_length (l : list A) : count f l <= Z.of_nat (List.length l).
Proof.
  unfold count. apply inj_le. apply filter_length_le.
Qed.

Lemma count_all (l : list A) :
  (count f l =? count (fun _ => true) l) = forallb f l.
Proof.
  rewrite count_length.
  induction l as [|x l IH].
  - reflexivity.
  - pose proof (count_le_length l) as Hle.
    rewrite count_cons. simpl List.length. rewrite Nat2Z.inj_succ.
    simpl forallb. destruct (f x); simpl andb.
    + rewrite <- IH.
      destruct (Z.eqb_spec (count f l) (Z.of_nat (List.length l)));
        [apply Z.eqb_eq | apply Z.eqb_neq]; lia.
    + apply Z.eqb_neq. lia.
Qed.

Lemma count_some (l : list A) : (count f l >? 0) = existsb f l.
Proof.
  induction l as [|x l IH].
  - reflexivity.
  - pose proof (count_nonneg l) as Hge.
    rewrite count_cons. simpl existsb. destruct (f x); simpl orb.
    + rewrite Z.gtb_ltb. apply Z.ltb_lt. lia.
    + exact IH.
Qed.

End Counting.

Lemma existsb_in_production_or_shipped (items : list line_item) :
  existsb (fun li => li_in_production li && negb (is_set (li_date_shipped li))) items
  || existsb fully_shipped items
  = existsb li_in_production items || existsb fully_shipped items.
Proof.
  induction items as [|li items IH]; simpl.
  - reflexivity.
  - unfold fully_shipped in *.
    destruct (li_in_production li), (is_set (li_date_shipped li)); simpl;
      rewrite ?orb_true_r; try reflexivity; exact IH.
Qed.

(** The counts of the trigger decide the same status as the rule over the
    line items. *)
Lemma status_of_counts_rule (items : list line_item) :
  status_of_counts items = recompute_rule items.
Proof.
  unfold status_of_counts, recompute_rule.
  rewrite count_all. fold fully_shipped.
  destruct (forallb fully_shipped items); [reflexivity|].
  rewrite !count_some. fold fully_shipped.
  now rewrite existsb_in_production_or_shipped.
Qed.

(** ** The status trigger *)

Lemma find_map_preserved {A} (p : A -> bool) (g : A -> A) (l : list A) :
  (forall x, p (g x) = p x) ->
  find p (map g l) = option_map g (find p l).
Proof.
  intros Hp. induction l as [|x l IH]; simpl.
  - reflexivity.
  - rewrite Hp. destruct (p x); [reflexivity | exact IH].
Qed.

Lemma find_order_id id (l : list order) o :
  find (fun o => N.eqb (o_id o) id) l = Some o -> o_id o = id.
Proof.
  intros H. apply find_some in H. now apply N.eqb_eq.
Qed.

Lemma order_status_of_update_status_where t id st db o :
  find (fun o => N.eqb (o_id o) id) (orders db) = Some o ->
  order_status_of id (update_status_where t id st db) = Some st.
Proof.
  intros H. unfold order_status_of, update_status_where. simpl.
  rewrite find_map_preserved.
  - rewrite H. simpl. rewrite (find_order_id _ _ _ H), N.eqb_refl. reflexivity.
  - intros x. destruct (N.eqb (o_id x) id) eqn:E; simpl; first [exact E | reflexivity].
Qed.

Lemma order_status_of_update_status_other t id id' st db :
  id' <> id ->
  order_status_of id' (update_status_where t id st db) = order_status_of id' db.
Proof.
  intros Hne. unfold order_status_of, update_status_where. simpl.
  rewrite find_map_preserved.
  - destruct (find _ (orders db)) as [o|] eqn:H; [|reflexivity].
    simpl. apply find_order_id in H.
    destruct (N.eqb_spec (o_id o) id); [congruence | reflexivity].
  - intros x. destruct (N.eqb (o_id x) id) eqn:E; simpl; first [exact E | reflexivity].
Qed.

Lemma update_order_status_writes t id db :
  is_set (order_status_of id db) = true ->
  order_status_of id (update_order_status t id db)
  = Some (status_of_counts (items_of_order id db)).
Proof.
  unfold update_order_status, order_status_of at 1.
  destruct (find _ (orders db)) as [o|] eqn:H; [|discriminate].
  intros _. rewrite (find_order_id _ _ _ H).
  now apply order_status_of_update_status_where with o.
Qed.

Lemma update_order_status_other t id id' db :
  id' <> id ->
  order_status_of id' (update_order_status t id db) = order_status_of id' db.
Proof.
  intros Hne. unfold update_order_status.
  destruct (find _ (orders db)) as [o|] eqn:H; [|reflexivity].
  rewrite (find_order_id _ _ _ H).
  now apply order_status_of_update_status_other.
Qed.

(** After the triggers of a statement, an order one of the rows belongs to
    carries the status of its line items. *)
Lemma triggers_write t id (l : list line_item) db :
  is_set (order_status_of id db) = true ->
  In id (map li_order_id l) ->
  order_status_of id
    (fold_left (fun d li => update_order_status t (li_order_id li) d) l db)
  = Some (status_of_counts (items_of_order id db)).
Proof.
  revert db. induction l as [|li l IH]; intros db Hex Hin; [contradiction|].
  simpl fold_left.
  assert (Hex1 : is_set (order_status_of id
                   (update_order_status t (li_order_id li) db)) = true).
  { destruct (N.eq_dec id (li_order_id li)) as [->|Hne].
    - now rewrite update_order_status_writes.
    - now rewrite update_order_status_other. }
  destruct (in_dec N.eq_dec id (map li_order_id l)) as [Hl|Hl].
  - rewrite IH by assumption.
    now rewrite update_order_status_items_of_order.
  - destruct Hin as [Heq|Hin]; [|contradiction]. subst id.
    clear IH Hex1.
    assert (Hkeep : forall d,
      order_status_of (li_order_id li)
        (fold_left (fun d li => update_order_status t (li_order_id li) d) l d)
      = order_status_of (li_order_id li) d).
    { induction l as [|x l IHl]; intros d; simpl; [reflexivity|].
      rewrite IHl.
      - apply update_order_status_other. intros E. apply Hl. now left.
      - intros E. apply Hl. now right. }
    rewrite Hkeep. now apply update_order_status_writes.
Qed.

Lemma find_line_item_order itemId orderId db li :
  find_line_item itemId orderId db = Some li ->
  In li (order_line_items db) /\ li_id li = itemId /\ li_order_id li = orderId.
Proof.
  unfold find_line_item. intros H. apply find_some in H.
  destruct H as [Hin H]. apply andb_true_iff in H.
  destruct H as [H1 H2]. apply N.eqb_eq in H1, H2. auto.
Qed.

(** [UPDATE order_line_items ... WHERE id = itemId] leaves the order of the
    row with the status of its line items as they are after the update. *)
Lemma update_line_items_where_status t itemId orderId f db li :
  find_line_item itemId orderId db = Some li ->
  (forall x, li_id (f x) = li_id x /\ li_order_id (f x) = li_order_id x) ->
  is_set (order_status_of orderId db) = true ->
  let db' := snd (update_line_items_where t itemId f db) in
  order_status_of orderId db'
  = Some (status_of_counts (items_of_order orderId db')).
Proof.
  intros Hfind Hf Hex db'.
  apply find_line_item_order in Hfind. destruct Hfind as (Hin & Hid & Hord).
  assert (Hitems : items_of_order orderId db'
                   = items_of_order orderId
                       (with_line_items db
                          (map (fun li => if N.eqb (li_id li) itemId
                                          then touch t (f li) else li)
                               (order_line_items db)))).
  { unfold items_of_order, db'. now rewrite update_line_items_where_rows. }
  rewrite Hitems. unfold db', update_line_items_where. simpl snd.
  apply triggers_write; [exact Hex|].
  apply in_map_iff. exists (touch t (f li)). split.
  - simpl. rewrite <- Hord. apply (Hf li).
  - apply filter_In. split.
    + apply in_map_iff. exists li. split; [|exact Hin].
      rewrite Hid, N.eqb_refl. reflexivity.
    + simpl. destruct (Hf li) as [-> _]. rewrite Hid. apply N.eqb_refl.
Qed.






(** C5.  The order is cancelled, then its line item is put in production:
    the recomputation writes production over cancelled. *)
Theorem cancelled_status_overwritten :
  order_status_of 100 cancelled_order = Some cancelled
  /\ order_status_of 100 then_in_production = Some production.
Proof. vm_compute. split; reflexivity. Qed.

(** C1.  After a shipment of 40 of the 100 pieces, accepted by the route, the
    shipments of the line item add up to 40.00 and its [shipped_quantity] is
    0.00: [lineItem.shipped_quantity + quantity] is the text ["0.0040"]. *)
Theorem ledger_broken_by_shipment :
  ledger_ok placed = true
  /\ succeeded (fst ship_40) = true
  /\ JS.add (JS.Str "0.00") (json_number "40") = JS.Str "0.0040"
  /\ shipments_total 101 (snd ship_40) = 4000
  /\ option_map li_shipped_quantity (item (snd ship_40)) = Some 0
  /\ ledger_ok (snd ship_40) = false.
Proof. vm_compute. repeat split. Qed.

(** C3.  The same shipment: the stored [shipped_quantity] stays 0.00 instead
    of 40.00, and the answer carries [remainingQuantity] 99.996, which is
    neither 60 nor the ordered quantity less the stored shipped quantity. *)
Theorem shipment_not_added :
  exists li,
    fst ship_40 = ItemShipped (Some li) (json_number "40") (JS.StringToNumber "99.996")
    /\ li_quantity li = 10000
    /\ li_shipped_quantity li = 0
    /\ item (snd ship_40) = Some li.
Proof. eexists. vm_compute. repeat split. Qed.

(** C7.  Three accepted shipments on a line item of 10000 pieces: the second
    sets [date_shipped] to 2 September with 5.00 shipped, the third sets it
    again, to 3 September. *)
Theorem date_shipped_overwritten :
  succeeded (fst first_shipment) = true
  /\ succeeded (fst second_shipment) = true
  /\ succeeded (fst third_shipment) = true
  /\ option_map li_date_shipped (item (snd first_shipment)) = Some None
  /\ option_map li_date_shipped (item (snd second_shipment)) = Some (Some "2024-09-02")
  /\ option_map li_shipped_quantity (item (snd second_shipment)) = Some 500
  /\ option_map li_date_shipped (item (snd third_shipment)) = Some (Some "2024-09-03").
Proof. vm_compute. repeat split. Qed.

(** ** Over-shipment *)



(** ** updateOrder *)

Lemma Forall2_same {A} (R : A -> A -> Prop) (l : list A) :
  (forall x, R x x) -> Forall2 R l l.
Proof. intros HR. induction l; constructor; auto. Qed.

Lemma update_order_rows_frame t id po due quoted notes (l rows : list order) :
  map_opt (update_order_row t id po due quoted notes) l = Some rows ->
  map order_frame rows = map order_frame l
  /\ Forall2 (fun o o' => o_id o <> id -> o' = o) l rows.
Proof.
  revert rows. induction l as [|o l IH]; intros rows; simpl.
  - intros H. injection H as <-. split; constructor.
  - destruct (update_order_row t id po due quoted notes o) as [o'|] eqn:Ho;
      [|discriminate].
    destruct (map_opt _ l) as [r|]; [|discriminate].
    intros H. injection H as <-.
    destruct (IH r eq_refl) as [IH1 IH2].
    unfold update_order_row in Ho.
    destruct (N.eqb_spec (o_id o) id) as [Hid|Hid].
    + destruct (PG.varchar 100 _) as [p|]; [|discriminate].
      injection Ho as <-. split.
      * simpl. now rewrite IH1.
      * constructor; [congruence | exact IH2].
    + injection Ho as <-. split.
      * simpl. now rewrite IH1.
      * constructor; [reflexivity | exact IH2].
Qed.

(** C9.  Whatever the body holds, [PUT /:id] leaves on every order its id,
    customer, status, creation time and creator, leaves every other order
    as it was, and leaves the line items, the shipments, the customers and
    the parts as they were. *)
Theorem updateOrder_frame :
  forall (e : env) (db : database) (id : uuid) (body : update_body),
    let db' := snd (updateOrder e db id body) in
    map order_frame (orders db') = map order_frame (orders db)
    /\ Forall2 (fun o o' => o_id o <> id -> o' = o) (orders db) (orders db')
    /\ order_line_items db' = order_line_items db
    /\ shipments db' = shipments db
    /\ customers db' = customers db
    /\ parts db' = parts db.
Proof.
  intros e db id body db'. unfold db', updateOrder.
  assert (Hsame : map order_frame (orders db) = map order_frame (orders db)
                  /\ Forall2 (fun o o' => o_id o <> id -> o' = o) (orders db) (orders db)
                  /\ order_line_items db = order_line_items db
                  /\ shipments db = shipments db
                  /\ customers db = customers db
                  /\ parts db = parts db).
  { repeat split. apply Forall2_same. reflexivity. }
  destruct (negb (valid_update (sanitize_update body))); [exact Hsame|].
  destruct (find _ (orders db)) as [oldValues|]; [|exact Hsame].
  unfold update_order_stmt.
  destruct (map_opt _ (orders db)) as [rows|] eqn:Hrows; [|exact Hsame].
  destruct (key_taken id rows); [exact Hsame|].
  apply update_order_rows_frame in Hrows. destruct Hrows as [H1 H2].
  cbv beta iota zeta. unfold logAction, snd.
  destruct (audit_sink_up e); simpl; repeat split; assumption.
Qed.

(** ** setInProduction *)

Lemma setInProduction_rows e db orderId itemId li :
  find_line_item itemId orderId db = Some li ->
  order_line_items (snd (setInProduction e db orderId itemId))
  = map (fun x => if N.eqb (li_id x) itemId
                  then touch (now e) (set_in_production x) else x)
        (order_line_items db).
Proof.
  intros Hfind. unfold setInProduction. rewrite Hfind.
  pose proof (update_line_items_where_rows (now e) itemId set_in_production db) as H.
  destruct (update_line_items_where (now e) itemId set_in_production db) as [rows db1].
  simpl in *. now rewrite logAction_line_items.
Qed.

Lemma setInProduction_row e db orderId itemId li :
  find_line_item itemId orderId db = Some li ->
  find_line_item itemId orderId (snd (setInProduction e db orderId itemId))
  = Some (touch (now e) (set_in_production li)).
Proof.
  intros Hfind. unfold find_line_item at 1.
  rewrite (setInProduction_rows e db orderId itemId li Hfind).
  rewrite find_map_preserved.
  - unfold find_line_item in Hfind. rewrite Hfind. simpl.
    apply find_line_item_order in Hfind. destruct Hfind as (_ & -> & _).
    now rewrite N.eqb_refl.
  - intros x. destruct (N.eqb (li_id x) itemId) eqn:E; simpl; now rewrite ?E.
Qed.

Lemma set_in_production_twice t t' li :
  touch t' (set_in_production (touch t (set_in_production li)))
  = touch t' (set_in_production li).
Proof. reflexivity. Qed.

Lemma set_in_production_frame t li :
  same_but_production_and_time li (touch t (set_in_production li)).
Proof. repeat split. Qed.

(** C10.  For a line item of the order: after one call the line item is in
    production and differs from what it was in [in_production] and
    [updated_at] only; a second call (at a time of its own) leaves the line
    item in production with every field but [updated_at] as the first call
    left it, and gives the state one call at that time gives; at the same
    time it changes no row at all. *)
Theorem setInProduction_idempotent :
  forall (e1 e2 : env) (db : database) (orderId itemId : uuid) (li : line_item),
    find_line_item itemId orderId db = Some li ->
    let db1 := snd (setInProduction e1 db orderId itemId) in
    let db2 := snd (setInProduction e2 db1 orderId itemId) in
    exists li1 li2,
      find_line_item itemId orderId db1 = Some li1
      /\ find_line_item itemId orderId db2 = Some li2
      /\ li_in_production li1 = true
      /\ li_in_production li2 = true
      /\ same_but_production_and_time li li1
      /\ same_but_production_and_time li1 li2
      /\ li2 = touch (now e2) li1
      /\ find_line_item itemId orderId (snd (setInProduction e2 db orderId itemId))
         = Some li2
      /\ (now e2 = now e1 -> order_line_items db2 = order_line_items db1).
Proof.
  intros e1 e2 db orderId itemId li Hfind db1 db2.
  pose proof (setInProduction_row e1 db orderId itemId li Hfind) as H1.
  fold db1 in H1.
  pose proof (setInProduction_row e2 db1 orderId itemId _ H1) as H2.
  fold db2 in H2. rewrite set_in_production_twice in H2.
  exists (touch (now e1) (set_in_production li)),
         (touch (now e2) (set_in_production li)).
  repeat split; try assumption.
  - now apply setInProduction_row.
  - intros Hnow. unfold db2.
    rewrite (setInProduction_rows e2 db1 orderId itemId _ H1).
    unfold db1. rewrite (setInProduction_rows e1 db orderId itemId li Hfind).
    rewrite map_map, Hnow. apply map_ext. intros x.
    destruct (N.eqb (li_id x) itemId) eqn:E; simpl; rewrite E; reflexivity.
Qed.

Lemma setInProduction_idempotent_witness :
  exists li1 li2,
    item (snd (setInProduction e0 placed 100 101)) = Some li1
    /\ item (snd (setInProduction (at_date "2024-09-02")
                    (snd (setInProduction e0 placed 100 101)) 100 101)) = Some li2
    /\ li_in_production li1 = true
    /\ li_in_production li2 = true
    /\ li2 = touch 2 li1.
Proof.
  assert (Hfind : find_line_item 101 100 placed
                  = Some {| li_id := 101; li_order_id := 100; li_part_id := None;
                            li_part_number := "WG-001";
                            li_description := "Wire Guard Standard";
                            li_colors := Some "Black"; li_quantity := 10000;
                            li_unit := "pieces"; li_in_production := false;
                            li_shipped_quantity := 0; li_date_shipped := None;
                            li_created_at := 1; li_updated_at := 1 |})
    by (vm_compute; reflexivity).
  destruct (setInProduction_idempotent e0 (at_date "2024-09-02") placed 100 101 _ Hfind)
    as (li1 & li2 & H1 & H2 & H3 & H4 & _ & _ & H5 & _).
  exists li1, li2. repeat split; assumption.
Defined.

(** ** createOrder *)

Lemma update_order_status_order_ids t id db :
  map o_id (orders (update_order_status t id db)) = map o_id (orders db).
Proof.
  unfold update_order_status.
  destruct (find _ (orders db)) as [o|]; [|reflexivity].
  unfold update_status_where. simpl. rewrite map_map. apply map_ext.
  intros x. destruct (N.eqb (o_id x) (o_id o)); reflexivity.
Qed.

Lemma insert_order_rows e po c due quoted notes db o db1 :
  insert_order e po c due quoted notes db = Some (o, db1) ->
  orders db1 = orders db ++ [o]
  /\ order_line_items db1 = order_line_items db
  /\ shipments db1 = shipments db
  /\ audit_log db1 = audit_log db
  /\ o_customer_id o = c /\ o_status o = pending.
Proof.
  unfold insert_order, fresh. repeat on_branch.
  intros H. injection H as <- <-. repeat split.
Qed.

Lemma insert_line_item_rows e oid item db row db' :
  insert_line_item e oid item db = Some (row, db') ->
  order_line_items db' = order_line_items db ++ [row]
  /\ map o_id (orders db') = map o_id (orders db)
  /\ shipments db' = shipments db
  /\ audit_log db' = audit_log db
  /\ li_order_id row = oid.
Proof.
  unfold insert_line_item. repeat on_branch. unfold fresh in *.
  match goal with H : (_, _) = (_, _) |- _ => injection H as <- <- end.
  intros H. injection H as <- <-.
  rewrite update_order_status_line_items, update_order_status_order_ids,
    update_order_status_shipments, update_order_status_audit_log.
  repeat split.
Qed.

Lemma insert_line_items_rows e oid items :
  forall db rows db',
    insert_line_items e oid items db = Some (rows, db') ->
    order_line_items db' = order_line_items db ++ rows
    /\ List.length rows = List.length items
    /\ Forall (fun li => li_order_id li = oid) rows
    /\ map o_id (orders db') = map o_id (orders db)
    /\ shipments db' = shipments db
    /\ audit_log db' = audit_log db.
Proof.
  induction items as [|item items IH]; intros db rows db'; simpl.
  - intros H. injection H as <- <-. rewrite app_nil_r. repeat split. constructor.
  - destruct (insert_line_item e oid item db) as [[row db1]|] eqn:H1; [|discriminate].
    destruct (insert_line_items e oid items db1) as [[rs db2]|] eqn:H2; [|discriminate].
    intros H. injection H as <- <-.
    apply insert_line_item_rows in H1. destruct H1 as (A1 & A2 & A3 & A4 & A5).
    apply IH in H2. destruct H2 as (B1 & B2 & B3 & B4 & B5 & B6).
    rewrite B1, A1, <- app_assoc. simpl. repeat split; try congruence.
    constructor; assumption.
Qed.

(** The two ways out of [POST /]: an error that leaves the tables as the
    request found them, or the order and every line item inserted, then the
    audit entry. *)
Lemma createOrder_cases e db body :
  (exists r, createOrder e db body = (r, db)
             /\ In r [ValidationErrors; Conflict; CustomerNotFound; TransactionFailure])
  \/ (exists o db1 rows db2,
        let b := sanitize_create body in
        valid_create b = true
        /\ insert_order e (cb_poNumber b) (cb_customerId b) (or_null (cb_dueDate b))
             (or_null (cb_quotedShipDate b)) (or_null (cb_notes b)) db = Some (o, db1)
        /\ insert_line_items e (o_id o) (cb_lineItems b) db1 = Some (rows, db2)
        /\ createOrder e db body
           = (OrderCreated o rows,
              logAction e "CREATE_ORDER" "orders" (o_id o) None
                (Some (OrderImage o)) db2)).
Proof.
  unfold createOrder.
  destruct (valid_create (sanitize_create body)) eqn:Hv; simpl negb; cbv iota.
  2: { left. eexists. split; [reflexivity | simpl; auto]. }
  destruct (existsb _ (orders db)).
  { left. eexists. split; [reflexivity | simpl; auto]. }
  destruct (negb (existsb _ (customers db))).
  { left. eexists. split; [reflexivity | simpl; auto]. }
  destruct (insert_order _ _ _ _ _ _ db) as [[o db1]|] eqn:Ho.
  2: { left. eexists. split; [reflexivity | simpl; auto 6]. }
  destruct (insert_line_items e (o_id o) _ db1) as [[rows db2]|] eqn:Hi.
  2: { left. eexists. split; [reflexivity | simpl; auto 6]. }
  right. exists o, db1, rows, db2. cbv zeta. auto.
Qed.

(** C6.  A well-formed request whose (customer, PO number) pair is already
    in [orders] (compared as it is, character by character) is answered with
    the conflict error and leaves the tables as they were.  A request with a
    line item that fails validation is answered with the validation errors
    and leaves the tables as they were.  A request that gets as far as the
    insertions and has one of its line items refused by the store leaves the
    tables as they were.  And in general a request either leaves the tables
    as they were or adds the order and one row for each of its line
    items. *)
Theorem createOrder_conflict_atomic :
  forall (e : env) (db : database) (body : create_body),
    let b := sanitize_create body in
    (valid_create b = true ->
     existsb (fun o => N.eqb (o_customer_id o) (cb_customerId b)
                       && String.eqb (o_po_number o) (cb_poNumber b)) (orders db)
     = true ->
     createOrder e db body = (Conflict, db))
    /\ (forall item, In item (cb_lineItems b) -> valid_item item = false ->
        createOrder e db body = (ValidationErrors, db))
    /\ (forall o db1,
          insert_order e (cb_poNumber b) (cb_customerId b) (or_null (cb_dueDate b))
            (or_null (cb_quotedShipDate b)) (or_null (cb_notes b)) db = Some (o, db1) ->
          insert_line_items e (o_id o) (cb_lineItems b) db1 = None ->
          snd (createOrder e db body) = db)
    /\ (forall r db', createOrder e db body = (r, db') ->
        db' = db
        \/ exists o rows,
             r = OrderCreated o rows
             /\ map o_id (orders db') = map o_id (orders db) ++ [o_id o]
             /\ order_line_items db' = order_line_items db ++ rows
             /\ List.length rows = List.length (cb_lineItems body)
             /\ Forall (fun li => li_order_id li = o_id o) rows).
Proof.
  intros e db body b. repeat split.
  - intros Hv Hdup. unfold createOrder. fold b. now rewrite Hv, Hdup.
  - intros item Hin Hbad. unfold createOrder. fold b.
    assert (Hv : valid_create b = false).
    { unfold valid_create. apply andb_false_iff. right.
      destruct (forallb valid_item (cb_lineItems b)) eqn:Hall; [|reflexivity].
      rewrite forallb_forall in Hall. now rewrite (Hall item Hin) in Hbad. }
    now rewrite Hv.
  - intros o db1 Ho Hi. unfold createOrder. fold b.
    destruct (negb (valid_create b)); [reflexivity|].
    destruct (existsb _ (orders db)); [reflexivity|].
    destruct (negb (existsb _ (customers db))); [reflexivity|].
    now rewrite Ho, Hi.
  - intros r db' H.
    destruct (createOrder_cases e db body) as [(r0 & H0 & _)|(o & db1 & rows & db2 & Hc)].
    + left. congruence.
    + right. cbv zeta in Hc. destruct Hc as (_ & Ho & Hi & Heq).
      rewrite Heq in H. injection H as <- <-.
      exists o, rows. split; [reflexivity|].
      apply insert_order_rows in Ho. destruct Ho as (A1 & A2 & _).
      apply insert_line_items_rows in Hi. destruct Hi as (B1 & B2 & B3 & B4 & _).
      rewrite logAction_orders, logAction_line_items, B4, B1, A1, A2, map_app.
      repeat split; try assumption.
      rewrite B2. unfold sanitize_create. simpl. apply length_map.
Qed.

Lemma createOrder_conflict_atomic_witness :
  createOrder e0 placed (one_item "100") = (Conflict, placed).
Proof.
  exact (proj1 (createOrder_conflict_atomic e0 placed (one_item "100"))
           ltac:(vm_compute; reflexivity) ltac:(vm_compute; reflexivity)).
Defined.

(** ** The audit entry *)

Lemma with_audit_log_same db : with_audit_log db (audit_log db) = db.
Proof. destruct db; reflexivity. Qed.

Lemma insert_line_items_sink up e oid items db :
  insert_line_items (set_sink up e) oid items db = insert_line_items e oid items db.
Proof.
  revert db. induction items as [|item items IH]; intros db; simpl.
  - reflexivity.
  - change (insert_line_item (set_sink up e) oid item db)
      with (insert_line_item e oid item db).
    destruct (insert_line_item e oid item db) as [[row db1]|]; [|reflexivity].
    now rewrite IH.
Qed.

Lemma triggers_audit_log t (l : list line_item) db :
  audit_log (fold_left (fun d li => update_order_status t (li_order_id li) d) l db)
  = audit_log db.
Proof.
  revert db. induction l as [|li l IH]; intros db; simpl.
  - reflexivity.
  - rewrite IH. apply update_order_status_audit_log.
Qed.

Lemma insert_shipment_audit_log e itemId q d tn notes db db1 :
  insert_shipment e itemId q d tn notes db = Some db1 ->
  audit_log db1 = audit_log db.
Proof.
  unfold insert_shipment, fresh. repeat on_branch.
  intros H. injection H as <-. reflexivity.
Qed.

Lemma update_shipped_audit_log e itemId q full d db rows db1 :
  update_shipped e itemId q full d db = Some (rows, db1) ->
  audit_log db1 = audit_log db.
Proof.
  unfold update_shipped, update_line_items_where. repeat on_branch.
  intros H. injection H as <- <-. now rewrite triggers_audit_log.
Qed.

(** The two ways out of the ship route. *)
Lemma shipLineItem_cases e db orderId itemId body :
  (exists r, shipLineItem e db orderId itemId body = (r, db)
             /\ In r [ValidationErrors; LineItemNotFound; OverShipment;
                      TransactionFailure])
  \/ (exists lineItem db1 rows db2,
        let b := sanitize_ship body in
        let shipDate := or_else (sb_shipDate b) (today e) in
        let newShippedQuantity := JS.add (row_shipped_quantity lineItem) (sb_quantity b) in
        find_line_item itemId orderId db = Some lineItem
        /\ insert_shipment e itemId (sb_quantity b) shipDate
             (sb_trackingNumber b) (sb_notes b) db = Some db1
        /\ update_shipped e itemId newShippedQuantity
             (JS.ge newShippedQuantity (row_quantity lineItem)) shipDate db1
           = Some (rows, db2)
        /\ shipLineItem e db orderId itemId body
           = (ItemShipped (hd_error rows) (sb_quantity b)
                (JS.sub (row_quantity lineItem) newShippedQuantity),
              logAction e "SHIP_ITEM" "order_line_items" itemId
                (Some (LineItemImage lineItem))
                (option_map LineItemImage (hd_error rows)) db2)).
Proof.
  unfold shipLineItem.
  destruct (negb (valid_ship (sanitize_ship body))).
  { left. eexists. split; [reflexivity | simpl; auto]. }
  destruct (find_line_item itemId orderId db) as [lineItem|].
  2: { left. eexists. split; [reflexivity | simpl; auto]. }
  destruct (JS.gt _ _).
  { left. eexists. split; [reflexivity | simpl; auto]. }
  destruct (insert_shipment _ _ _ _ _ _ db) as [db1|] eqn:Hs.
  2: { left. eexists. split; [reflexivity | simpl; auto 6]. }
  destruct (update_shipped _ _ _ _ _ db1) as [[rows db2]|] eqn:Hu.
  2: { left. eexists. split; [reflexivity | simpl; auto 6]. }
  right. exists lineItem, db1, rows, db2. cbv zeta. auto.
Qed.

Lemma insert_order_sink up e :
  insert_order (set_sink up e) = insert_order e.
Proof. reflexivity. Qed.

Lemma insert_shipment_sink up e :
  insert_shipment (set_sink up e) = insert_shipment e.
Proof. reflexivity. Qed.

Lemma update_shipped_sink up e :
  update_shipped (set_sink up e) = update_shipped e.
Proof. reflexivity. Qed.

(** C8, as amended.  For order creation and for shipment recording, the
    audit entry is written after the transaction of the mutation has
    committed and outside it, and a failure of the sink is swallowed: with
    the sink down the route gives the same answer and the same tables as
    with the sink up, but for the audit log, which stays as it was.  With
    the sink up, a mutation that went through adds exactly one entry, holding
    the state before and after, and a request that failed adds none and
    changes nothing. *)
Theorem audit_entry_after_commit :
  forall (e : env) (db : database),
    (forall body,
       let up := createOrder (set_sink true e) db body in
       let down := createOrder (set_sink false e) db body in
       fst down = fst up
       /\ snd down = with_audit_log (snd up) (audit_log db)
       /\ (if is_created (fst up)
           then exists o rows,
                  fst up = OrderCreated o rows
                  /\ audit_log (snd up) = audit_log db ++ [create_entry e o]
           else snd up = db))
    /\ (forall orderId itemId body,
          let up := shipLineItem (set_sink true e) db orderId itemId body in
          let down := shipLineItem (set_sink false e) db orderId itemId body in
          fst down = fst up
          /\ snd down = with_audit_log (snd up) (audit_log db)
          /\ (if is_shipped (fst up)
              then exists after q r,
                     fst up = ItemShipped after q r
                     /\ audit_log (snd up)
                        = audit_log db
                          ++ [ship_entry e itemId
                                (find_line_item itemId orderId db) after]
              else snd up = db)).
Proof.
  intros e db. split.
  - intros body up down. unfold up, down, createOrder.
    rewrite !insert_order_sink.
    destruct (negb (valid_create (sanitize_create body))).
    { simpl. now rewrite with_audit_log_same. }
    destruct (existsb _ (orders db)).
    { simpl. now rewrite with_audit_log_same. }
    destruct (negb (existsb _ (customers db))).
    { simpl. now rewrite with_audit_log_same. }
    destruct (insert_order e _ _ _ _ _ db) as [[o db1]|] eqn:Ho.
    2: { simpl. now rewrite with_audit_log_same. }
    rewrite !insert_line_items_sink.
    destruct (insert_line_items e (o_id o) _ db1) as [[rows db2]|] eqn:Hi.
    2: { simpl. now rewrite with_audit_log_same. }
    apply insert_order_rows in Ho. destruct Ho as (_ & _ & _ & A & _).
    apply insert_line_items_rows in Hi. destruct Hi as (_ & _ & _ & _ & _ & B).
    unfold logAction. simpl. repeat split.
    + unfold with_audit_log. simpl. rewrite <- A, <- B. now destruct db2.
    + exists o, rows. split; [reflexivity|]. now rewrite B, A.
  - intros orderId itemId body up down. unfold up, down, shipLineItem.
    rewrite !insert_shipment_sink, !update_shipped_sink.
    destruct (negb (valid_ship (sanitize_ship body))).
    { simpl. now rewrite with_audit_log_same. }
    destruct (find_line_item itemId orderId db) as [lineItem|].
    2: { simpl. now rewrite with_audit_log_same. }
    destruct (JS.gt _ _).
    { simpl. now rewrite with_audit_log_same. }
    change (today (set_sink true e)) with (today e).
    change (today (set_sink false e)) with (today e).
    destruct (insert_shipment e _ _ _ _ _ db) as [db1|] eqn:Hs.
    2: { simpl. now rewrite with_audit_log_same. }
    destruct (update_shipped e _ _ _ _ db1) as [[rows db2]|] eqn:Hu.
    2: { simpl. now rewrite with_audit_log_same. }
    apply insert_shipment_audit_log in Hs.
    apply update_shipped_audit_log in Hu.
    unfold logAction. simpl. repeat split.
    + unfold with_audit_log. simpl. rewrite <- Hs, <- Hu. now destruct db2.
    + eexists _, _, _. split; [reflexivity|]. now rewrite Hu, Hs.
Qed.

(** C8, as stated, fails with the sink down: the shipment of 40 is answered
    as shipped, its shipment row and the update of the line item stay, and
    the audit log has no entry for it. *)
Lemma shipment_commits_without_audit :
  succeeded (fst ship_40_sink_down) = true
  /\ List.length (shipments (snd ship_40_sink_down))
     = S (List.length (shipments placed))
  /\ audit_log (snd ship_40_sink_down) = audit_log placed.
Proof. vm_compute. repeat split. Qed.

(** ** The routes and the status trigger *)

(** After a successful call of the production route or of the ship route,
    the order of the line item carries the status [recompute_rule] gives on
    its line items. *)
Lemma setInProduction_status e db orderId itemId li :
  find_line_item itemId orderId db = Some li ->
  is_set (order_status_of orderId db) = true ->
  let db' := snd (setInProduction e db orderId itemId) in
  order_status_of orderId db'
  = Some (recompute_rule (items_of_order orderId db')).
Proof.
  intros Hfind Hex db'. unfold db', setInProduction. rewrite Hfind.
  pose proof (update_line_items_where_status (now e) itemId orderId
                set_in_production db li Hfind
                (fun x => conj eq_refl eq_refl) Hex) as H.
  destruct (update_line_items_where (now e) itemId set_in_production db)
    as [rows db1].
  simpl in *. unfold order_status_of, items_of_order in *.
  now rewrite logAction_orders, logAction_line_items, H, status_of_counts_rule.
Qed.

Lemma shipLineItem_status e db orderId itemId body li q r :
  is_set (order_status_of orderId db) = true ->
  fst (shipLineItem e db orderId itemId body) = ItemShipped li q r ->
  let db' := snd (shipLineItem e db orderId itemId body) in
  order_status_of orderId db'
  = Some (recompute_rule (items_of_order orderId db')).
Proof.
  intros Hex Hok db'. unfold db'.
  destruct (shipLineItem_cases e db orderId itemId body)
    as [(r0 & H0 & Hin)|(lineItem & db1 & rows & db2 & Hc)].
  - rewrite H0 in Hok. simpl in Hok, Hin. subst r0.
    repeat (destruct Hin as [Hin|Hin]; [discriminate|]). contradiction.
  - cbv zeta in Hc. destruct Hc as (Hfind & Hs & Hu & Heq).
    rewrite Heq. simpl snd.
    unfold order_status_of, items_of_order.
    rewrite logAction_orders, logAction_line_items.
    unfold update_shipped in Hu. revert Hu. repeat on_branch.
    intros Hu.
    assert (Hfind1 : find_line_item itemId orderId db1 = Some lineItem).
    { unfold find_line_item. revert Hs. unfold insert_shipment, fresh.
      repeat on_branch. intros Hs. injection Hs as <-. exact Hfind. }
    assert (Hex1 : is_set (order_status_of orderId db1) = true).
    { revert Hs. unfold insert_shipment, fresh.
      repeat on_branch. intros Hs. injection Hs as <-. exact Hex. }
    match type of Hu with
    | Some (update_line_items_where ?t ?i ?f ?d) = _ =>
        pose proof (update_line_items_where_status t i orderId f d lineItem
                      Hfind1 (fun x => conj eq_refl eq_refl) Hex1) as H
    end.
    match type of Hu with
    | Some ?x = _ => assert (Hp : x = (rows, db2)) by congruence
    end.
    cbv zeta in H. rewrite Hp in H. simpl snd in H.
    unfold order_status_of, items_of_order in H.
    now rewrite H, status_of_counts_rule.
Qed.

(** ** The number and text conversions on familiar values *)

Example number_of_text :
  JS.StringToNumber "0.1" = S754_finite false 7205759403792794 (-56).
Proof. vm_compute. reflexivity. Qed.

Example text_of_sum :
  JS.ToString (JS.add (Scenario.json_number "0.1") (Scenario.json_number "0.2"))
  = "0.30000000000000004"%string.
Proof. vm_compute. reflexivity. Qed.

Example text_of_difference :
  JS.NumberToString (JS.sub (JS.Str "0.30") (JS.Str "0.10"))
  = "0.19999999999999998"%string.
Proof. vm_compute. reflexivity. Qed.

Example text_of_large_and_small :
  map (fun s => JS.NumberToString (JS.StringToNumber s))
      ["1e21"; "123456789012345680000"; "1e-7"; "0.000001"; "5e-324";
       "9007199254740993"; "99999999.99"; "-12.5e-3"]%string
  = ["1e+21"; "123456789012345680000"; "1e-7"; "0.000001"; "5e-324";
     "9007199254740992"; "99999999.99"; "-0.0125"]%string.
Proof. vm_compute. reflexivity. Qed.

Example string_plus_number :
  JS.add (JS.Str "0.00") (Scenario.json_number "40") = JS.Str "0.0040".
Proof. vm_compute. reflexivity. Qed.

Example strings_compare_by_code_unit :
  JS.ge (JS.Str "0.00100") (JS.Str "100.00") = false
  /\ JS.ge (JS.Str "5.001") (JS.Str "10000.00") = true.
Proof. vm_compute. split; reflexivity. Qed.

Example numeric_input :
  map PG.numeric_in ["0.0040"; "0.005"; "0.004e1"; "0.000.5"; "100000000"; "40"]%string
  = [Some 0; Some 1; Some 4; None; None; Some 4000].
Proof. vm_compute. reflexivity. Qed.

Example numeric_output :
  map PG.numeric_out [0; 5; 4000; 10000; 9999999999]
  = ["0.00"; "0.05"; "40.00"; "100.00"; "99999999.99"]%string.
Proof. vm_compute. reflexivity. Qed.

Example quantity_validation :
  map (isFloat_min min_quantity)
      [Scenario.json_number "40"; Scenario.json_number "0.01";
       Scenario.json_number "0.009"; JS.Str "5e3"; JS.Str "e5"; JS.Str "abc";
       JS.Str ""; JS.Str "-1"]
  = [true; true; false; true; false; false; false; false].
Proof. vm_compute. reflexivity. Qed.

(** ** Further facts about the routes *)

(** The recomputation never writes cancelled: only the cancel route does. *)
Lemma recomputation_never_cancels (items : list line_item) :
  status_of_counts items <> cancelled.
Proof.
  unfold status_of_counts.
  destruct (_ =? _); [discriminate|].
  destruct (_ || _)%bool; discriminate.
Qed.

(** PO numbers are compared as they are: the lower-case PO number is another
    PO number, and the order is created. *)
Example po_number_case_sensitive :
  is_created (fst (createOrder e0 placed lower_case_po)) = true.
Proof. vm_compute. reflexivity. Qed.

(** The comparison of the ship route is one of binary64 numbers: with 0.30
    ordered and 0.10 shipped, ["0.30" - "0.10"] is 0.19999999999999998 and a
    request for the 0.2 that remain is answered as an over-shipment. *)
Example exact_remainder_rejected :
  shipLineItem e0 thirty_hundredths 100 101 (ship (json_number "0.2"))
  = (OverShipment, thirty_hundredths).
Proof. vm_compute. reflexivity. Qed.

(** Three shipments of 5 on a line item of 10 pieces are all accepted: 15.00
    in the shipment rows, 0.03 in [shipped_quantity]. *)
Example oversell_accepted :
  let db := shipments_of_5 3 placed_small in
  shipments_total 101 db = 1500
  /\ option_map li_quantity (item db) = Some 1000
  /\ option_map li_shipped_quantity (item db) = Some 3.
Proof. vm_compute. repeat split. Qed.

(** With JSON numbers only, [date_shipped] is first set by the 201st shipment
    of 5 on the line item of 10 pieces (["2.005" >= "10.00"] as strings) and
    set again by the next one. *)
Example date_shipped_overwritten_by_numbers :
  let db := shipments_of_5 201 placed_small in
  option_map li_date_shipped (item (shipments_of_5 200 placed_small)) = Some None
  /\ option_map li_date_shipped (item db) = Some (Some "2024-09-01"%string)
  /\ option_map li_date_shipped
       (item (snd (shipLineItem (at_date "2024-10-10") db 100 101
                     (ship (json_number "5")))))
     = Some (Some "2024-10-10"%string).
Proof. vm_compute. repeat split. Qed.

(** * More of the routes *)

(** ** Tables over time *)

Section History.

Context {A : Type}.
Variable R : A -> A -> Prop.
Hypothesis R_refl : forall x, R x x.
Hypothesis R_trans : forall x y z, R x y -> R y z -> R x z.

Lemma Forall2_map_step (g : A -> A) (l : list A) :
  (forall x, R x (g x)) -> Forall2 R l (map g l).
Proof. intros Hg. induction l; simpl; constructor; auto. Qed.

Lemma Forall2_chain (l1 l2 l3 : list A) :
  Forall2 R l1 l2 -> Forall2 R l2 l3 -> Forall2 R l1 l3.
Proof.
  intros H. revert l3. induction H; intros l3 H3; inversion H3; subst.
  - constructor.
  - constructor; eauto.
Qed.

Lemma history_same (l : list A) : history R l l.
Proof.
  exists l, []. split; [now rewrite app_nil_r | now apply Forall2_same].
Qed.

Lemma history_step (g : A -> A) (l : list A) :
  (forall x, R x (g x)) -> history R l (map g l).
Proof.
  intros Hg. exists (map g l), []. split; [now rewrite app_nil_r|].
  now apply Forall2_map_step.
Qed.

Lemma history_add (l l' : list A) : history R l (l ++ l').
Proof. exists l, l'. split; [reflexivity | now apply Forall2_same]. Qed.

Lemma history_chain (l1 l2 l3 : list A) :
  history R l1 l2 -> history R l2 l3 -> history R l1 l3.
Proof.
  intros (a & b & -> & Hab) (c & d & -> & Hcd).
  apply Forall2_app_inv_l in Hcd.
  destruct Hcd as (c1 & c2 & H1 & H2 & ->).
  exists c1, (c2 ++ d). split; [now rewrite app_assoc|].
  now apply Forall2_chain with a.
Qed.

Lemma history_length (l1 l2 : list A) :
  history R l1 l2 -> (List.length l1 <= List.length l2)%nat.
Proof.
  intros (a & b & -> & H). apply Forall2_length in H.
  rewrite length_app. lia.
Qed.

End History.

Lemma extends_same {A} (l : list A) : extends l l.
Proof. exists []. now rewrite app_nil_r. Qed.

Lemma extends_chain {A} (l1 l2 l3 : list A) :
  extends l1 l2 -> extends l2 l3 -> extends l1 l3.
Proof. intros [a ->] [b ->]. exists (a ++ b). now rewrite app_assoc. Qed.

Lemma li_evolves_same li : li_evolves li li.
Proof. repeat split; auto. Qed.

Lemma li_evolves_chain a b c : li_evolves a b -> li_evolves b c -> li_evolves a c.
Proof.
  intros (H1 & H2 & H3) (K1 & K2 & K3). repeat split; auto. congruence.
Qed.

Lemma o_evolves_same o : o_evolves o o.
Proof. reflexivity. Qed.

Lemma o_evolves_chain a b c : o_evolves a b -> o_evolves b c -> o_evolves a c.
Proof. unfold o_evolves. congruence. Qed.

(** ** The status trigger, row by row *)

Lemma map_same_on {A} (g : A -> A) (l : list A) :
  (forall x, In x l -> g x = x) -> map g l = l.
Proof.
  intros H. induction l as [|x l IH]; simpl; [reflexivity|].
  rewrite H by now left. f_equal. apply IH. intros y Hy. apply H. now right.
Qed.

Lemma update_order_status_orders t id db :
  orders (update_order_status t id db) = map (recompute_order t id db) (orders db).
Proof.
  unfold update_order_status.
  destruct (find _ (orders db)) as [o|] eqn:Hf.
  - rewrite (find_order_id _ _ _ Hf). reflexivity.
  - symmetry. apply map_same_on. intros x Hx. unfold recompute_order.
    now rewrite (find_none _ _ Hf x Hx).
Qed.

Lemma recompute_order_static t id db o : o_evolves o (recompute_order t id db o).
Proof. unfold recompute_order. destruct (N.eqb (o_id o) id); reflexivity. Qed.

Lemma recompute_order_id t id db o : o_id (recompute_order t id db o) = o_id o.
Proof. unfold recompute_order. destruct (N.eqb (o_id o) id); reflexivity. Qed.

Lemma triggers_orders t (l : list line_item) db :
  orders (fold_left (fun d li => update_order_status t (li_order_id li) d) l db)
  = map (recomputed t l db) (orders db).
Proof.
  revert db. induction l as [|li l IH]; intros db; simpl fold_left.
  - symmetry. apply map_same_on. reflexivity.
  - rewrite IH, update_order_status_orders, map_map. apply map_ext.
    intros o. unfold recomputed, recompute_order. simpl existsb.
    rewrite update_order_status_items_of_order.
    destruct (N.eqb_spec (o_id o) (li_order_id li)) as [E|E]; simpl.
    + rewrite <- E.
      destruct (existsb _ l); reflexivity.
    + reflexivity.
Qed.

Lemma with_orders_same db : with_orders db (orders db) = db.
Proof. destruct db; reflexivity. Qed.

Lemma update_order_status_eq t id db :
  update_order_status t id db
  = with_orders db (map (recompute_order t id db) (orders db)).
Proof.
  rewrite <- update_order_status_orders. unfold update_order_status.
  destruct (find _ (orders db)); [reflexivity|].
  symmetry. apply with_orders_same.
Qed.

Lemma triggers_eq t (l : list line_item) db :
  fold_left (fun d li => update_order_status t (li_order_id li) d) l db
  = with_orders db (map (recomputed t l db) (orders db)).
Proof.
  rewrite <- triggers_orders.
  revert db. induction l as [|li l IH]; intros db; simpl fold_left.
  - symmetry. apply with_orders_same.
  - rewrite IH at 1. rewrite update_order_status_eq at 1. reflexivity.
Qed.

Lemma recomputed_static t l db o : o_evolves o (recomputed t l db o).
Proof. unfold recomputed. destruct (existsb _ l); reflexivity. Qed.

Lemma recomputed_id t l db o : o_id (recomputed t l db o) = o_id o.
Proof. unfold recomputed. destruct (existsb _ l); reflexivity. Qed.

(** The whole effect of [UPDATE order_line_items ... WHERE id = itemId]. *)
Lemma update_line_items_where_eq t id f db :
  let rows := map (fun li => if N.eqb (li_id li) id then touch t (f li) else li)
                  (order_line_items db) in
  let updated := filter (fun li => N.eqb (li_id li) id) rows in
  update_line_items_where t id f db
  = (updated,
     with_orders (with_line_items db rows)
       (map (recomputed t updated (with_line_items db rows)) (orders db))).
Proof.
  intros rows updated. unfold update_line_items_where. fold rows. fold updated.
  now rewrite triggers_eq.
Qed.

Lemma filter_map_same_on {A} (p : A -> bool) (g : A -> A) (l : list A) :
  (forall x, In x l -> p (g x) = p x) ->
  (forall x, In x l -> p x = true -> g x = x) ->
  filter p (map g l) = filter p l.
Proof.
  intros Hp Hg. induction l as [|x l IH]; simpl; [reflexivity|].
  rewrite Hp by now left.
  destruct (p x) eqn:E.
  - rewrite Hg by (auto; now left). f_equal. apply IH; intros; [apply Hp | apply Hg]; auto; now right.
  - apply IH; intros; [apply Hp | apply Hg]; auto; now right.
Qed.

(** ** Status and line items stay in step *)

Lemma status_consistent_ext db db' :
  orders db' = orders db ->
  order_line_items db' = order_line_items db ->
  status_consistent db -> status_consistent db'.
Proof.
  intros Ho Hi H o Hin. unfold items_of_order. rewrite Hi.
  rewrite Ho in Hin. apply (H o Hin).
Qed.

Lemma status_consistent_update_where t id f db :
  (forall x, li_id (f x) = li_id x /\ li_order_id (f x) = li_order_id x) ->
  status_consistent db ->
  status_consistent (snd (update_line_items_where t id f db)).
Proof.
  intros Hf H. rewrite update_line_items_where_eq. cbv zeta. simpl snd.
  set (g := fun li => if N.eqb (li_id li) id then touch t (f li) else li).
  set (rows := map g (order_line_items db)).
  set (updated := filter (fun li => N.eqb (li_id li) id) rows).
  intros o' Hin. simpl in Hin. apply in_map_iff in Hin.
  destruct Hin as (o & <- & Hin).
  rewrite recomputed_id.
  destruct (existsb (fun li => N.eqb (o_id o) (li_order_id li)) updated) eqn:Hex.
  - right. right. unfold recomputed. rewrite Hex. simpl.
    now rewrite status_of_counts_rule.
  - replace (recomputed t updated (with_line_items db rows) o) with o
      by (unfold recomputed; now rewrite Hex).
    assert (Hitems : items_of_order (o_id o)
                       (with_orders (with_line_items db rows)
                          (map (recomputed t updated (with_line_items db rows))
                               (orders db)))
                     = items_of_order (o_id o) db).
    { unfold items_of_order. simpl. unfold rows.
      apply filter_map_same_on.
      - intros x _. unfold g. destruct (N.eqb (li_id x) id); [|reflexivity].
        simpl. now destruct (Hf x) as [_ ->].
      - intros x Hx Hord. unfold g.
        destruct (N.eqb (li_id x) id) eqn:Hid; [|reflexivity].
        exfalso.
        assert (Hu : In (g x) updated).
        { apply filter_In. split; [now apply in_map|].
          unfold g. rewrite Hid. simpl. destruct (Hf x) as [-> _]. exact Hid. }
        rewrite <- not_true_iff_false in Hex. apply Hex.
        apply existsb_exists. exists (g x). split; [exact Hu|].
        unfold g. rewrite Hid. simpl. destruct (Hf x) as [_ ->].
        apply N.eqb_eq in Hord. rewrite Hord. apply N.eqb_refl. }
    rewrite Hitems. apply (H o Hin).
Qed.

(** ** What the store accepts into a column *)

Lemma span_digits_value_nonneg s :
  forall acc, 0 <= acc -> 0 <= Text.digits_value_from (fst (Text.span_digits s)) acc.
Proof.
  induction s as [|c s IH]; intros acc Hacc; cbn [Text.span_digits].
  - exact Hacc.
  - destruct (Text.is_digit c) eqn:Hd.
    + destruct (Text.span_digits s) as [d r] eqn:Hs.
      cbn [fst Text.digits_value_from] in *.
      apply IH. unfold Text.is_digit in Hd. cbv zeta in Hd.
      apply andb_true_iff in Hd. destruct Hd as [Hd _].
      apply N.leb_le in Hd. lia.
    + exact Hacc.
Qed.

Lemma digits_value_from_app d1 d2 acc :
  Text.digits_value_from (d1 ++ d2) acc
  = Text.digits_value_from d2 (Text.digits_value_from d1 acc).
Proof.
  revert acc. induction d1 as [|c d1 IH]; intros acc; simpl; [reflexivity|].
  apply IH.
Qed.

Lemma scan_mantissa_nonneg s sc : Text.scan s = Some sc -> 0 <= Text.mantissa sc.
Proof.
  unfold Text.scan.
  destruct (Text.scan_sign s) as [neg r0].
  pose proof (span_digits_value_nonneg r0) as Hi.
  destruct (Text.span_digits r0) as [i r1]. simpl in Hi.
  assert (Hf : forall f r2,
             match r1 with
             | String "." r => Text.span_digits r
             | _ => (EmptyString, r1)
             end = (f, r2) ->
             forall acc, 0 <= acc -> 0 <= Text.digits_value_from f acc).
  { intros f r2 H acc Hacc.
    assert (Hnil : (EmptyString, r1) = (f, r2) -> 0 <= Text.digits_value_from f acc).
    { intros E. injection E as <- _. exact Hacc. }
    destruct r1 as [|c r]; [now apply Hnil|].
    destruct c as [[] [] [] [] [] [] [] []]; try (now apply Hnil).
    pose proof (span_digits_value_nonneg r acc Hacc) as Hr.
    rewrite H in Hr. exact Hr. }
  destruct (match r1 with String "." r => _ | _ => _ end) as [f r2].
  destruct (Text.scan_exponent r2); [|discriminate].
  intros H. injection H as <-. unfold Text.mantissa, Text.digits_value. simpl.
  rewrite digits_value_from_app. apply (Hf f r2 eq_refl). now apply Hi.
Qed.

(** A text the store takes into a [DECIMAL(10,2)] column is a value of at
    most ten digits. *)
Lemma numeric_in_range s h : PG.numeric_in s = Some h -> - 10 ^ 10 < h < 10 ^ 10.
Proof.
  unfold PG.numeric_in.
  destruct (Text.scan (Text.trim s)) as [sc|] eqn:Hsc; [|discriminate].
  destruct (Text.has_digit sc); [|discriminate].
  pose proof (scan_mantissa_nonneg _ _ Hsc) as Hm.
  set (e := Text.exponent10 sc + 2).
  set (v := if 0 <=? e then Text.mantissa sc * 10 ^ e
            else (Text.mantissa sc + 10 ^ (- e) / 2) / 10 ^ (- e)).
  assert (Hv : 0 <= v).
  { unfold v. destruct (Z.leb_spec 0 e).
    - apply Z.mul_nonneg_nonneg; [exact Hm|]. apply Z.pow_nonneg. lia.
    - assert (0 < 10 ^ (- e)) by (apply Z.pow_pos_nonneg; lia).
      apply Z.div_pos; [|assumption].
      assert (0 <= 10 ^ (- e) / 2) by (apply Z.div_pos; lia). lia. }
  destruct (Z.ltb_spec v (10 ^ 10)); [|discriminate].
  intros H0. injection H0 as <-.
  destruct (Text.sc_neg sc); lia.
Qed.

Lemma substring_length_le m s : (String.length (substring 0 m s) <= m)%nat.
Proof.
  revert s. induction m as [|m IH]; intros s; destruct s; simpl; try lia.
  specialize (IH s). lia.
Qed.

Lemma varchar_length n s s' : PG.varchar n s = Some s' -> (String.length s' <= n)%nat.
Proof.
  unfold PG.varchar. destruct (Nat.leb_spec (String.length s) n).
  - intros H0. injection H0 as <-. assumption.
  - destruct (PG.all_spaces _); [|discriminate].
    intros H0. injection H0 as <-. apply substring_length_le.
Qed.

(** ** The whole effect of each statement *)

Lemma insert_order_effect e po c due quoted notes db o db1 :
  insert_order e po c due quoted notes db = Some (o, db1) ->
  db1 = with_orders (snd (fresh db)) (orders db ++ [o])
  /\ o_id o = next_id db
  /\ o_customer_id o = c
  /\ o_status o = pending
  /\ (String.length (o_po_number o) <= 100)%nat
  /\ In c (map c_id (customers db))
  /\ ~ In (c, o_po_number o)
         (map (fun o => (o_customer_id o, o_po_number o)) (orders db)).
Proof.
  unfold insert_order, fresh. repeat on_branch.
  intros H. injection H as <- <-. simpl. repeat split.
  - eapply varchar_length; eassumption.
  - match goal with H : negb (existsb _ (customers db)) = false |- _ =>
      apply negb_false_iff, existsb_exists in H; destruct H as (x & Hx & Hc)
    end.
    apply N.eqb_eq in Hc. subst c. now apply in_map.
  - intros Hin. apply in_map_iff in Hin. destruct Hin as (x & Hk & Hx).
    injection Hk as Hc Hp.
    match goal with H : existsb _ (orders db) = false |- _ =>
      rewrite <- not_true_iff_false in H; apply H
    end.
    apply existsb_exists. exists x. split; [exact Hx|].
    rewrite Hc, Hp, N.eqb_refl, String.eqb_refl. reflexivity.
Qed.

Lemma insert_line_item_effect e oid item db row db' :
  insert_line_item e oid item db = Some (row, db') ->
  db' = update_order_status (now e) oid
          (with_line_items (snd (fresh db)) (order_line_items db ++ [row]))
  /\ li_id row = next_id db
  /\ li_order_id row = oid
  /\ In oid (map o_id (orders db))
  /\ (forall p, li_part_id row = Some p -> In p (map p_id (parts db)))
  /\ li_in_production row = false
  /\ li_shipped_quantity row = 0
  /\ li_date_shipped row = None
  /\ 0 < li_quantity row < 10 ^ 10
  /\ In (li_unit row) ["feet"; "meters"; "pieces"]%string
  /\ (String.length (li_part_number row) <= 100)%nat.
Proof.
  unfold insert_line_item. repeat on_branch. unfold fresh in *.
  match goal with H : (_, _) = (_, _) |- _ => injection H as <- <- end.
  intros H. injection H as <- <-. simpl. repeat split.
  - match goal with H : negb (existsb _ (orders db)) = false |- _ =>
      apply negb_false_iff, existsb_exists in H; destruct H as (x & Hx & Hc)
    end.
    apply N.eqb_eq in Hc. subst oid. now apply in_map.
  - intros p Hp.
    match goal with H : match in_partId item with _ => _ end = false |- _ =>
      rewrite Hp in H; apply negb_false_iff, existsb_exists in H;
      destruct H as (x & Hx & Hc)
    end.
    apply N.eqb_eq in Hc. subst p. now apply in_map.
  - match goal with H : negb (0 <? _) = false |- _ =>
      apply negb_false_iff, Z.ltb_lt in H; exact H
    end.
  - match goal with H : PG.numeric_in _ = Some _ |- _ =>
      apply numeric_in_range in H; lia
    end.
  - match goal with H : negb (isIn _ _) = false |- _ =>
      apply negb_false_iff in H; unfold isIn in H;
      apply existsb_exists in H; destruct H as (x & Hx & Hc)
    end.
    apply String.eqb_eq in Hc. now subst.
  - eapply varchar_length; eassumption.
Qed.

Lemma insert_shipment_effect e itemId q d tn notes db db1 :
  insert_shipment e itemId q d tn notes db = Some db1 ->
  exists s,
    db1 = with_shipments (snd (fresh db)) (shipments db ++ [s])
    /\ s_id s = next_id db
    /\ s_line_item_id s = itemId
    /\ In itemId (map li_id (order_line_items db))
    /\ PG.numeric_in (PG.prepareValue q) = Some (s_quantity s)
    /\ 0 < s_quantity s < 10 ^ 10
    /\ s_ship_date s = d
    /\ s_notes s = notes
    /\ s_created_by s = user_id e.
Proof.
  unfold insert_shipment, fresh. repeat on_branch.
  intros H. injection H as <-. eexists. split; [reflexivity|]. simpl.
  repeat split; try assumption.
  - match goal with H : negb (existsb _ (order_line_items db)) = false |- _ =>
      apply negb_false_iff, existsb_exists in H; destruct H as (x & Hx & Hc)
    end.
    apply N.eqb_eq in Hc. subst itemId. now apply in_map.
  - match goal with H : negb (0 <? _) = false |- _ =>
      apply negb_false_iff, Z.ltb_lt in H; exact H
    end.
  - match goal with H : PG.numeric_in _ = Some _ |- _ =>
      apply numeric_in_range in H; lia
    end.
Qed.

Lemma update_shipped_effect e itemId v full d db rows db2 :
  update_shipped e itemId v full d db = Some (rows, db2) ->
  exists q,
    PG.numeric_in (PG.prepareValue v) = Some q
    /\ 0 <= q < 10 ^ 10
    /\ update_line_items_where (now e) itemId (set_shipped q full d) db = (rows, db2).
Proof.
  unfold update_shipped.
  destruct (PG.numeric_in _) as [q|] eqn:Hq; [|discriminate].
  destruct (negb (0 <=? q)) eqn:Hpos; [discriminate|].
  intros H. exists q.
  apply negb_false_iff, Z.leb_le in Hpos.
  pose proof (numeric_in_range _ _ Hq) as Hr.
  repeat split; [lia | lia | congruence].
Qed.

Lemma recompute_order_ext t id d1 d2 o :
  items_of_order id d1 = items_of_order id d2 ->
  recompute_order t id d1 o = recompute_order t id d2 o.
Proof. intros H. unfold recompute_order. now rewrite H. Qed.

Lemma recompute_order_twice t id d1 d2 o :
  recompute_order t id d2 (recompute_order t id d1 o) = recompute_order t id d2 o.
Proof.
  unfold recompute_order.
  destruct (N.eqb (o_id o) id) eqn:E; simpl; rewrite E; reflexivity.
Qed.

(** After the insertion of the line items of a request, the orders of that
    id carry the status of their line items. *)
Lemma insert_line_items_orders e oid items :
  forall db rows db2,
    insert_line_items e oid items db = Some (rows, db2) ->
    items <> [] ->
    orders db2 = map (recompute_order (now e) oid db2) (orders db).
Proof.
  induction items as [|item rest IH]; intros db rows db2 H Hne; [congruence|].
  simpl in H.
  destruct (insert_line_item e oid item db) as [[row db1]|] eqn:H1; [|discriminate].
  destruct (insert_line_items e oid rest db1) as [[rs db2']|] eqn:H2; [|discriminate].
  injection H as <- <-.
  apply insert_line_item_effect in H1. destruct H1 as (E1 & _).
  assert (Ho1 : orders db1
                = map (recompute_order (now e) oid db1) (orders db)).
  { rewrite E1 at 1. rewrite update_order_status_orders. simpl.
    apply map_ext. intros o. apply recompute_order_ext.
    rewrite E1. now rewrite update_order_status_items_of_order. }
  destruct rest as [|item' rest'].
  - simpl in H2. injection H2 as <- <-. exact Ho1.
  - rewrite (IH db1 rs db2' H2) by discriminate.
    rewrite Ho1, map_map. apply map_ext. intros o.
    apply recompute_order_twice.
Qed.

Lemma status_consistent_logAction e a tn r o n db :
  status_consistent db -> status_consistent (logAction e a tn r o n db).
Proof.
  apply status_consistent_ext;
    [apply logAction_orders | apply logAction_line_items].
Qed.

Lemma filter_app_none {A} (p : A -> bool) (l l' : list A) :
  Forall (fun x => p x = false) l' -> filter p (l ++ l') = filter p l.
Proof.
  intros H. rewrite filter_app.
  replace (filter p l') with (@nil A); [now rewrite app_nil_r|].
  induction H as [|x l0 Hx _ IH]; simpl; [reflexivity|]. now rewrite Hx.
Qed.

Lemma status_consistent_createOrder e db body :
  status_consistent db -> status_consistent (snd (createOrder e db body)).
Proof.
  intros H.
  destruct (createOrder_cases e db body)
    as [(r & -> & _)|(o & db1 & rows & db2 & Hc)]; [exact H|].
  cbv zeta in Hc. destruct Hc as (Hv & Ho & Hi & ->). simpl snd.
  apply status_consistent_logAction.
  assert (Hne : cb_lineItems (sanitize_create body) <> []).
  { unfold valid_create in Hv. apply andb_true_iff in Hv. destruct Hv as [Hv _].
    apply andb_true_iff in Hv. destruct Hv as [_ Hv].
    intros E. rewrite E in Hv. discriminate. }
  pose proof (insert_line_items_orders _ _ _ _ _ _ Hi Hne) as Hord.
  apply insert_line_items_rows in Hi. destruct Hi as (Hitems & _ & Hall & _).
  apply insert_order_effect in Ho. destruct Ho as (-> & Hid & _).
  simpl in Hord, Hitems.
  intros o' Hin. rewrite Hord in Hin. apply in_map_iff in Hin.
  destruct Hin as (x & <- & Hx). rewrite recompute_order_id.
  unfold recompute_order at 1 2.
  destruct (N.eqb_spec (o_id x) (o_id o)) as [E|E].
  - right. right. simpl. rewrite E. now rewrite status_of_counts_rule.
  - apply in_app_or in Hx. destruct Hx as [Hx|[<-|[]]]; [|congruence].
    replace (items_of_order (o_id x) db2) with (items_of_order (o_id x) db);
      [exact (H x Hx)|].
    unfold items_of_order. rewrite Hitems. symmetry. apply filter_app_none.
    eapply Forall_impl; [|exact Hall]. simpl. intros li ->.
    apply N.eqb_neq. congruence.
Qed.

Lemma status_consistent_updateOrder e db id body :
  status_consistent db -> status_consistent (snd (updateOrder e db id body)).
Proof.
  intros H.
  pose proof (updateOrder_frame e db id body) as Hf. cbv zeta in Hf.
  destruct Hf as (Hframe & _ & Hitems & _).
  intros o' Hin.
  assert (Hin' : In (order_frame o') (map order_frame (orders db)))
    by (rewrite <- Hframe; now apply in_map).
  apply in_map_iff in Hin'. destruct Hin' as (o & Heq & Ho).
  unfold order_frame in Heq. injection Heq as Hid _ Hst _ _.
  unfold items_of_order. rewrite Hitems, <- Hid, <- Hst. apply (H o Ho).
Qed.

Lemma status_consistent_setInProduction e db orderId itemId :
  status_consistent db ->
  status_consistent (snd (setInProduction e db orderId itemId)).
Proof.
  intros H. unfold setInProduction.
  destruct (find_line_item itemId orderId db); [|exact H].
  pose proof (status_consistent_update_where (now e) itemId set_in_production db
                (fun x => conj eq_refl eq_refl) H) as Hu.
  destruct (update_line_items_where (now e) itemId set_in_production db).
  simpl in *. now apply status_consistent_logAction.
Qed.

Lemma status_consistent_insert_shipment e itemId q d tn notes db db1 :
  insert_shipment e itemId q d tn notes db = Some db1 ->
  status_consistent db -> status_consistent db1.
Proof.
  intros Hs. apply insert_shipment_effect in Hs. destruct Hs as (s & -> & _).
  now apply status_consistent_ext.
Qed.

Lemma status_consistent_shipLineItem e db orderId itemId body :
  status_consistent db ->
  status_consistent (snd (shipLineItem e db orderId itemId body)).
Proof.
  intros H.
  destruct (shipLineItem_cases e db orderId itemId body)
    as [(r & -> & _)|(li & db1 & rows & db2 & Hc)]; [exact H|].
  cbv zeta in Hc. destruct Hc as (_ & Hs & Hu & ->). simpl snd.
  apply status_consistent_logAction.
  apply update_shipped_effect in Hu. destruct Hu as (q & _ & _ & Hu).
  replace db2 with (snd (update_line_items_where (now e) itemId
                           (set_shipped q
                              (JS.ge (JS.add (row_shipped_quantity li)
                                        (sb_quantity (sanitize_ship body)))
                                 (row_quantity li))
                              (or_else (sb_shipDate (sanitize_ship body)) (today e)))
                           db1))
    by now rewrite Hu.
  apply status_consistent_update_where; [intros x; now split|].
  eapply status_consistent_insert_shipment; eassumption.
Qed.

Lemma status_consistent_cancelOrder e db id :
  status_consistent db -> status_consistent (snd (cancelOrder e db id)).
Proof.
  intros H. unfold cancelOrder.
  destruct (find _ (orders db)) as [found|]; [|exact H].
  simpl snd. apply status_consistent_logAction.
  intros o' Hin. simpl in Hin. apply in_map_iff in Hin.
  destruct Hin as (o & <- & Ho).
  destruct (N.eqb (o_id o) id); [now left|].
  apply (H o Ho).
Qed.

(** X1.  The status of an order and its line items stay in step: if every
    order that has line items and is not cancelled carries the status the
    recomputation gives on its line items, this is still so after any
    sequence of requests to the mutating routes. *)
Theorem status_kept_in_step :
  forall (l : list (env * request)) (db : database),
    status_consistent db -> status_consistent (run db l).
Proof.
  induction l as [|[e r] l IH]; intros db H; simpl; [exact H|].
  apply IH. destruct r; simpl.
  - now apply status_consistent_createOrder.
  - now apply status_consistent_updateOrder.
  - now apply status_consistent_setInProduction.
  - now apply status_consistent_shipLineItem.
  - now apply status_consistent_cancelOrder.
Qed.

Lemma status_kept_in_step_witness :
  status_consistent placed
  /\ status_consistent
       (run placed [(e0, ShipLineItem 100 101 (ship (json_number "40")));
                    (e0, SetInProduction 100 101)]).
Proof.
  assert (H : status_consistent placed).
  { intros o Hin. vm_compute in Hin. destruct Hin as [<-|[]].
    right. right. vm_compute. reflexivity. }
  exact (conj H (status_kept_in_step _ _ H)).
Defined.

(** ** Nothing is removed *)

Lemma Forall2_of_map_eq {A B} (f : A -> B) (l l' : list A) :
  map f l = map f l' -> Forall2 (fun a b => f a = f b) l l'.
Proof.
  revert l'. induction l as [|x l IH]; intros [|y l'] H; try discriminate.
  - constructor.
  - injection H as H1 H2. constructor; auto.
Qed.

Lemma set_shipped_evolves t q full d li :
  li_evolves li (touch t (set_shipped q full d li)).
Proof.
  repeat split; simpl; auto. destruct full; auto.
Qed.

Lemma set_in_production_evolves t li :
  li_evolves li (touch t (set_in_production li)).
Proof. repeat split; simpl; auto. Qed.

Lemma update_line_items_where_tables t id f db :
  (forall x, li_evolves x (touch t (f x))) ->
  let db' := snd (update_line_items_where t id f db) in
  history o_evolves (orders db) (orders db')
  /\ history li_evolves (order_line_items db) (order_line_items db')
  /\ shipments db' = shipments db
  /\ audit_log db' = audit_log db
  /\ customers db' = customers db
  /\ parts db' = parts db
  /\ next_id db' = next_id db.
Proof.
  intros Hf. rewrite update_line_items_where_eq. cbv zeta. simpl.
  repeat split.
  - apply history_step. apply recomputed_static.
  - apply history_step.
    intros x. destruct (N.eqb (li_id x) id); [apply Hf | apply li_evolves_same].
Qed.

(** What one request does to the three tables of the orders. *)
Lemma handle_tables e db r :
  let db' := snd (handle e db r) in
  history o_evolves (orders db) (orders db')
  /\ history li_evolves (order_line_items db) (order_line_items db')
  /\ extends (shipments db) (shipments db').
Proof.
  assert (Hsame : history o_evolves (orders db) (orders db)
                  /\ history li_evolves (order_line_items db) (order_line_items db)
                  /\ extends (shipments db) (shipments db)).
  { repeat split; [apply history_same, o_evolves_same
                  | apply history_same, li_evolves_same | apply extends_same]. }
  destruct r as [body|id body|orderId itemId|orderId itemId body|id]; simpl.
  - destruct (createOrder_cases e db body)
      as [(r & -> & _)|(o & db1 & rows & db2 & Hc)]; [exact Hsame|].
    cbv zeta in Hc. destruct Hc as (Hv & Ho & Hi & ->). simpl snd.
    rewrite logAction_orders, logAction_line_items, logAction_shipments.
    assert (Hne : cb_lineItems (sanitize_create body) <> []).
    { unfold valid_create in Hv. apply andb_true_iff in Hv. destruct Hv as [Hv _].
      apply andb_true_iff in Hv. destruct Hv as [_ Hv].
      intros E. rewrite E in Hv. discriminate. }
    pose proof (insert_line_items_orders _ _ _ _ _ _ Hi Hne) as Hord.
    apply insert_line_items_rows in Hi.
    destruct Hi as (Hitems & _ & _ & _ & Hship & _).
    apply insert_order_effect in Ho. destruct Ho as (-> & _).
    simpl in *. rewrite Hord, Hitems, Hship, map_app. repeat split.
    + eexists _, _. split; [reflexivity|].
      apply Forall2_map_step. apply recompute_order_static.
    + apply history_add, li_evolves_same.
    + apply extends_same.
  - pose proof (updateOrder_frame e db id body) as Hf. cbv zeta in Hf.
    destruct Hf as (Hframe & _ & -> & -> & _). repeat split.
    + exists (orders (snd (updateOrder e db id body))), [].
      split; [now rewrite app_nil_r|].
      apply Forall2_of_map_eq in Hframe.
      apply Forall2_flip in Hframe.
      eapply Forall2_impl; [|exact Hframe].
      intros a b Hab. unfold order_frame in Hab. unfold o_evolves, o_static.
      congruence.
    + apply history_same, li_evolves_same.
    + apply extends_same.
  - unfold setInProduction.
    destruct (find_line_item itemId orderId db); [|exact Hsame].
    pose proof (update_line_items_where_tables (now e) itemId set_in_production db
                  (set_in_production_evolves (now e))) as Hu.
    destruct (update_line_items_where (now e) itemId set_in_production db).
    cbv zeta in Hu. simpl in *.
    rewrite logAction_orders, logAction_line_items, logAction_shipments.
    destruct Hu as (H1 & H2 & -> & _). repeat split; auto. apply extends_same.
  - destruct (shipLineItem_cases e db orderId itemId body)
      as [(r & -> & _)|(li & db1 & rows & db2 & Hc)]; [exact Hsame|].
    cbv zeta in Hc. destruct Hc as (_ & Hs & Hu & ->). simpl snd.
    rewrite logAction_orders, logAction_line_items, logAction_shipments.
    apply update_shipped_effect in Hu. destruct Hu as (q & _ & _ & Hu).
    match type of Hu with
    | update_line_items_where ?t ?i ?f ?d = _ =>
        pose proof (update_line_items_where_tables t i f d
                      (fun x => set_shipped_evolves _ _ _ _ x)) as Ht
    end.
    rewrite Hu in Ht. cbv zeta in Ht. simpl in Ht.
    destruct Ht as (H1 & H2 & -> & _).
    apply insert_shipment_effect in Hs. destruct Hs as (s & -> & _).
    simpl in *. repeat split; auto. now exists [s].
  - unfold cancelOrder.
    destruct (find _ (orders db)) as [found|]; [|exact Hsame].
    simpl snd.
    rewrite logAction_orders, logAction_line_items, logAction_shipments.
    simpl. repeat split.
    + apply history_step.
      intros x. destruct (N.eqb (o_id x) id); reflexivity.
    + apply history_same, li_evolves_same.
    + apply extends_same.
Qed.

Lemma run_tables (l : list (env * request)) :
  forall db,
    history o_evolves (orders db) (orders (run db l))
    /\ history li_evolves (order_line_items db) (order_line_items (run db l))
    /\ extends (shipments db) (shipments (run db l)).
Proof.
  induction l as [|[e r] l IH]; intros db; simpl.
  - repeat split; [apply history_same, o_evolves_same
                  | apply history_same, li_evolves_same | apply extends_same].
  - destruct (handle_tables e db r) as (A1 & A2 & A3).
    destruct (IH (snd (handle e db r))) as (B1 & B2 & B3).
    repeat split.
    + eapply history_chain; eauto using o_evolves_chain.
    + eapply history_chain; eauto using li_evolves_chain.
    + eapply extends_chain; eauto.
Qed.

(** X2.  No sequence of requests removes, moves or re-writes a line item:
    every line item is still there, in place, with its id, order, part,
    description, colors, quantity, unit and creation time; it is still in
    production if it was, and still has a [date_shipped] if it had one. *)
Theorem line_items_persist :
  forall (l : list (env * request)) (db : database),
    history li_evolves (order_line_items db) (order_line_items (run db l)).
Proof. intros l db. apply run_tables. Qed.

(** X3.  No sequence of requests removes an order or gives it another id,
    customer, creation time or creator. *)
Theorem orders_persist :
  forall (l : list (env * request)) (db : database),
    history o_evolves (orders db) (orders (run db l)).
Proof. intros l db. apply run_tables. Qed.

(** X4.  The shipment rows are a log: a sequence of requests leaves every
    shipment row as it was and only adds rows after them. *)
Theorem shipments_append_only :
  forall (l : list (env * request)) (db : database),
    extends (shipments db) (shipments (run db l)).
Proof. intros l db. apply run_tables. Qed.

(** ** Errors and the audit log *)

Lemma updateOrder_cases e db id body :
  (exists r, updateOrder e db id body = (r, db)
             /\ In r [ValidationErrors; OrderNotFound; TransactionFailure])
  \/ (exists oldValues rows db1,
        let b := sanitize_update body in
        valid_update b = true
        /\ find (fun o => N.eqb (o_id o) id) (orders db) = Some oldValues
        /\ update_order_stmt (now e) id (ub_poNumber b) (ub_dueDate b)
             (ub_quotedShipDate b) (ub_notes b) db = Some (rows, db1)
        /\ updateOrder e db id body
           = (OrderUpdated (hd_error rows),
              logAction e "UPDATE_ORDER" "orders" id (Some (OrderImage oldValues))
                (option_map OrderImage (hd_error rows)) db1)).
Proof.
  unfold updateOrder.
  destruct (valid_update (sanitize_update body)) eqn:Hv; simpl negb; cbv iota.
  2: { left. eexists. split; [reflexivity | simpl; auto]. }
  destruct (find _ (orders db)) as [oldValues|] eqn:Hf.
  2: { left. eexists. split; [reflexivity | simpl; auto]. }
  destruct (update_order_stmt _ _ _ _ _ _ db) as [[rows db1]|] eqn:Hu.
  2: { left. eexists. split; [reflexivity | simpl; auto]. }
  right. exists oldValues, rows, db1. cbv zeta. auto.
Qed.

Lemma update_order_stmt_rows t id po due quoted notes db rows db1 :
  update_order_stmt t id po due quoted notes db = Some (rows, db1) ->
  exists all,
    map_opt (update_order_row t id po due quoted notes) (orders db) = Some all
    /\ key_taken id all = false
    /\ rows = filter (fun o => N.eqb (o_id o) id) all
    /\ db1 = with_orders db all.
Proof.
  unfold update_order_stmt.
  destruct (map_opt _ (orders db)) as [all|]; [|discriminate].
  destruct (key_taken id all) eqn:Hk; [discriminate|].
  intros H. injection H as <- <-. exists all. auto.
Qed.

Lemma setInProduction_cases e db orderId itemId :
  (find_line_item itemId orderId db = None
   /\ setInProduction e db orderId itemId = (LineItemNotFound, db))
  \/ (exists oldValues,
        find_line_item itemId orderId db = Some oldValues
        /\ setInProduction e db orderId itemId
           = (ItemUpdated (hd_error (fst (update_line_items_where (now e) itemId
                                            set_in_production db))),
              logAction e "SET_PRODUCTION" "order_line_items" itemId
                (Some (LineItemImage oldValues))
                (option_map LineItemImage
                   (hd_error (fst (update_line_items_where (now e) itemId
                                     set_in_production db))))
                (snd (update_line_items_where (now e) itemId
                        set_in_production db)))).
Proof.
  unfold setInProduction.
  destruct (find_line_item itemId orderId db) as [oldValues|]; [|now left].
  right. exists oldValues. split; [reflexivity|].
  destruct (update_line_items_where (now e) itemId set_in_production db).
  reflexivity.
Qed.

Lemma logAction_audit_log e a tn r o n db :
  audit_log (logAction e a tn r o n db)
  = audit_log db
    ++ (if audit_sink_up e
        then [{| a_user_id := user_id e; a_action := a; a_table_name := tn;
                 a_record_id := r; a_old_values := o; a_new_values := n |}]
        else []).
Proof.
  unfold logAction. destruct (audit_sink_up e); simpl;
    [reflexivity | now rewrite app_nil_r].
Qed.

Lemma update_order_stmt_audit_log t id po due quoted notes db rows db1 :
  update_order_stmt t id po due quoted notes db = Some (rows, db1) ->
  audit_log db1 = audit_log db.
Proof.
  intros H. apply update_order_stmt_rows in H.
  destruct H as (all & _ & _ & _ & ->). reflexivity.
Qed.

(** What a mutating route does: either it answers an error and leaves the
    database as it was, or it answers a success and its last step is the
    [logAction] of the route, on a database with the audit log untouched. *)
Lemma handle_outcome e db r :
  (is_error (fst (handle e db r)) = true /\ snd (handle e db r) = db)
  \/ (is_error (fst (handle e db r)) = false
      /\ exists d a tn rid o n,
           snd (handle e db r) = logAction e a tn rid o n d
           /\ audit_log d = audit_log db
           /\ (a, tn) = action_of r).
Proof.
  destruct r as [body|id body|orderId itemId|orderId itemId body|id];
    simpl handle.
  - destruct (createOrder_cases e db body)
      as [(r & -> & Hin)|(o & db1 & rows & db2 & Hc)].
    + left. split; [|reflexivity]. simpl in Hin.
      repeat (destruct Hin as [<-|Hin]; [reflexivity|]). contradiction.
    + right. cbv zeta in Hc. destruct Hc as (_ & Ho & Hi & ->).
      split; [reflexivity|]. simpl snd. do 6 eexists.
      split; [reflexivity|]. split; [|reflexivity].
      apply insert_order_rows in Ho. destruct Ho as (_ & _ & _ & A & _).
      apply insert_line_items_rows in Hi. destruct Hi as (_ & _ & _ & _ & _ & B).
      congruence.
  - destruct (updateOrder_cases e db id body)
      as [(r & -> & Hin)|(o & rows & db1 & Hc)].
    + left. split; [|reflexivity]. simpl in Hin.
      repeat (destruct Hin as [<-|Hin]; [reflexivity|]). contradiction.
    + right. cbv zeta in Hc. destruct Hc as (_ & _ & Hu & ->).
      split; [reflexivity|]. simpl snd. do 6 eexists.
      split; [reflexivity|]. split; [|reflexivity].
      eapply update_order_stmt_audit_log; eassumption.
  - destruct (setInProduction_cases e db orderId itemId)
      as [[_ ->]|(o & _ & ->)].
    + left. now split.
    + right. split; [reflexivity|]. simpl snd. do 6 eexists.
      split; [reflexivity|]. split; [|reflexivity].
      apply update_line_items_where_tables. apply set_in_production_evolves.
  - destruct (shipLineItem_cases e db orderId itemId body)
      as [(r & -> & Hin)|(li & db1 & rows & db2 & Hc)].
    + left. split; [|reflexivity]. simpl in Hin.
      repeat (destruct Hin as [<-|Hin]; [reflexivity|]). contradiction.
    + right. cbv zeta in Hc. destruct Hc as (_ & Hs & Hu & ->).
      split; [reflexivity|]. simpl snd. do 6 eexists.
      split; [reflexivity|]. split; [|reflexivity].
      apply insert_shipment_audit_log in Hs.
      apply update_shipped_audit_log in Hu. congruence.
  - unfold cancelOrder. destruct (find _ (orders db)) as [found|].
    + right. split; [reflexivity|]. simpl snd. do 6 eexists.
      split; [reflexivity|]. now split.
    + left. now split.
Qed.

(** X5.  An error answer of a mutating route leaves every table exactly as
    the request found it. *)
Theorem error_changes_nothing :
  forall (e : env) (db : database) (r : request),
    is_error (fst (handle e db r)) = true -> snd (handle e db r) = db.
Proof.
  intros e db r H.
  destruct (handle_outcome e db r) as [[_ Hdb]|[Hok _]]; [exact Hdb|].
  rewrite H in Hok. discriminate.
Qed.

Lemma error_changes_nothing_witness :
  snd (handle e0 placed (ShipLineItem 100 101 (ship (json_number "101")))) = placed.
Proof.
  exact (error_changes_nothing e0 placed
           (ShipLineItem 100 101 (ship (json_number "101")))
           ltac:(vm_compute; reflexivity)).
Defined.

(** X6.  The audit log only grows, by at most one entry per request: a
    request answered with an error, or handled while the sink is down, adds
    none; any other request adds exactly one, in the name of the caller and
    with the action and table of its route. *)
Theorem one_audit_entry_per_success :
  forall (e : env) (db : database) (r : request),
    let resp := fst (handle e db r) in
    let db' := snd (handle e db r) in
    exists l,
      audit_log db' = audit_log db ++ l
      /\ if is_error resp || negb (audit_sink_up e)
         then l = []
         else exists en,
                l = [en]
                /\ a_user_id en = user_id e
                /\ (a_action en, a_table_name en) = action_of r.
Proof.
  intros e db r. cbv zeta.
  destruct (handle_outcome e db r)
    as [[-> ->]|(-> & d & a & tn & rid & o & n & -> & Hd & Ha)].
  - exists []. now rewrite app_nil_r.
  - rewrite logAction_audit_log, Hd.
    eexists. split; [reflexivity|]. simpl orb.
    destruct (audit_sink_up e); simpl; [|reflexivity].
    eexists. split; [reflexivity|]. simpl. auto.
Qed.

(** ** cancelOrder *)






(** ** A line item is reached through its own order only *)

(** X8.  When no line item with the id of the path belongs to the order of
    the path (it does not exist, or belongs to another order), the
    production route and the ship route answer not found and change
    nothing, whatever the body of a well-formed ship request asks. *)
Theorem line_item_of_another_order :
  forall (e : env) (db : database) (orderId itemId : uuid),
    (forall li, In li (order_line_items db) ->
                li_id li = itemId -> li_order_id li <> orderId) ->
    setInProduction e db orderId itemId = (LineItemNotFound, db)
    /\ forall body, valid_ship (sanitize_ship body) = true ->
         shipLineItem e db orderId itemId body = (LineItemNotFound, db).
Proof.
  intros e db orderId itemId H.
  assert (Hfind : find_line_item itemId orderId db = None).
  { unfold find_line_item.
    destruct (find _ (order_line_items db)) as [li|] eqn:Hf; [|reflexivity].
    apply find_some in Hf. destruct Hf as [Hin Hb].
    apply andb_true_iff in Hb. destruct Hb as [H1 H2].
    apply N.eqb_eq in H1, H2. now destruct (H li Hin H1). }
  split.
  - unfold setInProduction. now rewrite Hfind.
  - intros body Hv. unfold shipLineItem. now rewrite Hv, Hfind.
Qed.

Lemma line_item_of_another_order_witness :
  setInProduction e0 placed 999 101 = (LineItemNotFound, placed).
Proof.
  refine (proj1 (line_item_of_another_order e0 placed 999 101 _)).
  intros li Hin. vm_compute in Hin. destruct Hin as [<-|[]].
  intros _. vm_compute. discriminate.
Defined.

(** ** The ship route does not look at the order *)

Lemma update_line_items_where_with_orders t id f db os :
  fst (update_line_items_where t id f (with_orders db os))
  = fst (update_line_items_where t id f db)
  /\ exists os',
       snd (update_line_items_where t id f (with_orders db os))
       = with_orders (snd (update_line_items_where t id f db)) os'.
Proof.
  rewrite !update_line_items_where_eq. cbv zeta. simpl. split; [reflexivity|].
  eexists. reflexivity.
Qed.

(** X9.  The ship route makes no check on the order: with any other rows in
    [orders] (the order cancelled, shipped, or missing) it gives the same
    answer and leaves the same line items, shipments and audit log. *)
Theorem ship_ignores_orders :
  forall (e : env) (db : database) (os : list order) (orderId itemId : uuid)
         (body : ship_body),
    let a := shipLineItem e db orderId itemId body in
    let b := shipLineItem e (with_orders db os) orderId itemId body in
    fst b = fst a
    /\ order_line_items (snd b) = order_line_items (snd a)
    /\ shipments (snd b) = shipments (snd a)
    /\ audit_log (snd b) = audit_log (snd a).
Proof.
  intros e db os orderId itemId body. cbv zeta. unfold shipLineItem.
  destruct (negb (valid_ship (sanitize_ship body))); [now repeat split|].
  change (find_line_item itemId orderId (with_orders db os))
    with (find_line_item itemId orderId db).
  destruct (find_line_item itemId orderId db) as [li|]; [|now repeat split].
  destruct (JS.gt _ _); [now repeat split|].
  assert (Hs : forall q d tn n,
             insert_shipment e itemId q d tn n (with_orders db os)
             = option_map (fun x => with_orders x os)
                 (insert_shipment e itemId q d tn n db)).
  { intros q d tn n. unfold insert_shipment. simpl.
    destruct (negb (existsb _ (order_line_items db))); [reflexivity|].
    destruct (PG.numeric_in _); [|reflexivity].
    destruct (PG.varchar_opt 100 tn); [|reflexivity].
    destruct (negb (0 <? _)); reflexivity. }
  rewrite Hs.
  destruct (insert_shipment e itemId _ _ _ _ db) as [db1|]; simpl option_map;
    [|now repeat split].
  unfold update_shipped.
  destruct (PG.numeric_in _) as [q|]; [|now repeat split].
  destruct (negb (0 <=? q)); [now repeat split|].
  match goal with
  | |- context [update_line_items_where ?t ?i ?f (with_orders db1 os)] =>
      destruct (update_line_items_where_with_orders t i f db1 os) as (H1 & os' & H2);
      destruct (update_line_items_where t i f (with_orders db1 os)) as [r2 d2];
      destruct (update_line_items_where t i f db1) as [r1 d1]
  end.
  simpl in H1, H2. subst r2 d2. simpl fst. simpl snd.
  rewrite !logAction_line_items, !logAction_shipments, !logAction_audit_log.
  repeat split.
Qed.

(** ** updateOrder, field by field *)


Lemma map_opt_find {A} (f : A -> option A) (p : A -> bool) (l all : list A) x :
  (forall a b, f a = Some b -> p b = p a) ->
  map_opt f l = Some all ->
  find p l = Some x ->
  exists y, f x = Some y /\ find p all = Some y.
Proof.
  intros Hp. revert all. induction l as [|a l IH]; intros all; simpl; [discriminate|].
  destruct (f a) as [b|] eqn:Hb; [|discriminate].
  destruct (map_opt f l) as [r|]; [|discriminate].
  intros H. injection H as <-. simpl. rewrite (Hp a b Hb).
  destruct (p a).
  - intros Hx. injection Hx as <-. eauto.
  - intros Hx. apply (IH r eq_refl Hx).
Qed.

Lemma map_opt_in {A} (f : A -> option A) (l all : list A) x :
  map_opt f l = Some all -> In x l -> exists y, f x = Some y /\ In y all.
Proof.
  revert all. induction l as [|a l IH]; intros all; simpl; [contradiction|].
  destruct (f a) as [b|] eqn:Hb; [|discriminate].
  destruct (map_opt f l) as [r|]; [|discriminate].
  intros H. injection H as <-. intros [<-|Hin].
  - exists b. split; [exact Hb | now left].
  - destruct (IH r eq_refl Hin) as (y & Hy & Hiny). exists y. split; [exact Hy | now right].
Qed.

Lemma update_order_row_id t id po due quoted notes a b :
  update_order_row t id po due quoted notes a = Some b ->
  N.eqb (o_id b) id = N.eqb (o_id a) id.
Proof.
  unfold update_order_row. destruct (N.eqb (o_id a) id) eqn:E.
  - destruct (PG.varchar 100 _); [|discriminate].
    intros H. injection H as <-. exact E.
  - intros H. injection H as <-. exact E.
Qed.



(** X11.  An update that would give an order the PO number of another order
    of the same customer is answered with the internal error of the store,
    not with the conflict answer of order creation, and changes nothing. *)
Theorem updateOrder_duplicate_po :
  forall (e : env) (db : database) (id : uuid) (body : update_body)
         (p : string) (o o2 : order),
    ub_poNumber body = Some p ->
    Text.trim p <> ""%string ->
    find (fun o => N.eqb (o_id o) id) (orders db) = Some o ->
    In o2 (orders db) ->
    o_id o2 <> id ->
    o_customer_id o2 = o_customer_id o ->
    o_po_number o2 = Text.trim p ->
    (String.length (o_po_number o2) <= 100)%nat ->
    updateOrder e db id body = (TransactionFailure, db).
Proof.
  intros e db id body p o o2 Hp Hne Hfind Hin2 Hid2 Hcust Hpo Hlen.
  unfold updateOrder.
  assert (Hv : valid_update (sanitize_update body) = true).
  { unfold valid_update, sanitize_update. simpl. rewrite Hp. simpl.
    unfold notEmpty. apply negb_true_iff. now apply String.eqb_neq. }
  rewrite Hv, Hfind. simpl negb. cbv iota.
  unfold update_order_stmt.
  destruct (map_opt _ (orders db)) as [all|] eqn:Hall; [|reflexivity].
  assert (Hk : key_taken id all = true); [|now rewrite Hk].
  destruct (map_opt_find _ (fun o => N.eqb (o_id o) id) _ _ _
              (update_order_row_id _ _ _ _ _ _) Hall Hfind) as (o' & Ho' & Hfind').
  destruct (map_opt_in _ _ _ _ Hall Hin2) as (y & Hy & Hiny).
  unfold update_order_row in Hy.
  destruct (N.eqb_spec (o_id o2) id) as [|_]; [contradiction|].
  injection Hy as <-.
  unfold update_order_row in Ho'.
  rewrite (find_order_id _ _ _ Hfind), N.eqb_refl in Ho'.
  unfold sanitize_update in Ho'. simpl in Ho'. rewrite Hp in Ho'. simpl in Ho'.
  unfold PG.varchar in Ho'. rewrite <- Hpo in Ho'.
  apply Nat.leb_le in Hlen. rewrite Hlen in Ho'. injection Ho' as <-.
  apply find_some in Hfind'. destruct Hfind' as [Hin' Hid'].
  unfold key_taken. apply existsb_exists. eexists. split; [exact Hin'|].
  rewrite Hid'. simpl. apply existsb_exists. exists o2. split; [exact Hiny|].
  simpl. apply N.eqb_neq in Hid2. rewrite Hid2, Hcust, N.eqb_refl, String.eqb_refl.
  reflexivity.
Qed.

Lemma updateOrder_duplicate_po_witness :
  updateOrder e0 More.two_orders 102 (More.take_po "PO-2024-001")
  = (TransactionFailure, More.two_orders).
Proof.
  refine (updateOrder_duplicate_po e0 More.two_orders 102
            (More.take_po "PO-2024-001") "PO-2024-001"%string
            {| o_id := 102; o_po_number := "po-2024-001"; o_customer_id := 1;
               o_due_date := None; o_quoted_ship_date := None;
               o_status := pending; o_notes := None;
               o_created_at := 1; o_updated_at := 1; o_created_by := 7 |}
            {| o_id := 100; o_po_number := "PO-2024-001"; o_customer_id := 1;
               o_due_date := None; o_quoted_ship_date := None;
               o_status := pending; o_notes := None;
               o_created_at := 1; o_updated_at := 1; o_created_by := 7 |}
            eq_refl _ _ _ _ _ _ _).
  - vm_compute. discriminate.
  - vm_compute. reflexivity.
  - vm_compute. left. reflexivity.
  - vm_compute. discriminate.
  - reflexivity.
  - vm_compute. reflexivity.
  - vm_compute. lia.
Defined.

(** ** The order POST / creates *)

Lemma status_of_counts_untouched (rows : list line_item) :
  rows <> [] -> Forall untouched rows -> status_of_counts rows = pending.
Proof.
  intros Hne Hall. rewrite status_of_counts_rule. unfold recompute_rule.
  assert (Hnone : forall f, (forall li, untouched li -> f li = false) ->
                            existsb f rows = false).
  { intros f Hf. induction Hall as [|li l Hli _ IH]; simpl; [reflexivity|].
    rewrite (Hf li Hli). simpl.
    destruct l; [reflexivity | apply IH; discriminate]. }
  assert (H1 : forallb fully_shipped rows = false).
  { destruct rows as [|li l]; [congruence|].
    inversion Hall as [|? ? (_ & _ & Hd) _]; subst. simpl.
    unfold fully_shipped. now rewrite Hd. }
  rewrite H1, !Hnone; [reflexivity| |].
  - intros li (_ & _ & Hd). unfold fully_shipped. now rewrite Hd.
  - now intros li (_ & Hp & _).
Qed.

(** X12.  The order [POST /] creates starts pending and its line items start
    unshipped: on success, provided no line item already refers to the id
    the store generates next, the created order has status pending (also
    after the status trigger has run for each inserted line item), its line
    items are exactly the created rows, and each of them has nothing
    shipped, no [date_shipped], is not in production and carries a quantity
    between 0.01 and 99999999.99. *)
Theorem created_order_is_pending :
  forall (e : env) (db : database) (body : create_body) (o : order)
         (rows : list line_item) (db' : database),
    createOrder e db body = (OrderCreated o rows, db') ->
    (forall li, In li (order_line_items db) -> li_order_id li <> next_id db) ->
    o_id o = next_id db
    /\ o_status o = pending
    /\ order_status_of (o_id o) db' = Some pending
    /\ items_of_order (o_id o) db' = rows
    /\ rows <> []
    /\ Forall (fun li => untouched li /\ 0 < li_quantity li < 10 ^ 10) rows.
Proof.
  intros e db body o rows db' H Hfresh.
  destruct (createOrder_cases e db body)
    as [(r & Hr & Hin)|(o1 & db1 & rows1 & db2 & Hc)].
  - rewrite Hr in H. injection H as -> _. simpl in Hin.
    repeat (destruct Hin as [Hin|Hin]; [discriminate|]). contradiction.
  - cbv zeta in Hc. destruct Hc as (Hv & Ho & Hi & Heq).
    rewrite Heq in H. injection H as -> -> <-.
    assert (Hne : cb_lineItems (sanitize_create body) <> []).
    { unfold valid_create in Hv. apply andb_true_iff in Hv. destruct Hv as [Hv _].
      apply andb_true_iff in Hv. destruct Hv as [_ Hv].
      intros E. rewrite E in Hv. discriminate. }
    pose proof (insert_line_items_orders _ _ _ _ _ _ Hi Hne) as Hord.
    assert (Hrows : forall items d rs d2,
               insert_line_items e (o_id o) items d = Some (rs, d2) ->
               Forall (fun li => untouched li /\ 0 < li_quantity li < 10 ^ 10) rs).
    { induction items as [|it items IH]; intros d rs d2; simpl.
      - intros E. injection E as <- _. constructor.
      - destruct (insert_line_item e (o_id o) it d) as [[row d1]|] eqn:H1;
          [|discriminate].
        destruct (insert_line_items e (o_id o) items d1) as [[rs' d2']|] eqn:H2;
          [|discriminate].
        intros E. injection E as <- _.
        apply insert_line_item_effect in H1.
        destruct H1 as (_ & _ & _ & _ & _ & A & B & C & D & _).
        constructor; [|eapply IH; eassumption].
        unfold untouched. auto. }
    pose proof (Hrows _ _ _ _ Hi) as Hall.
    apply insert_line_items_rows in Hi.
    destruct Hi as (Hitems & Hlen & Hoid & _).
    apply insert_order_effect in Ho. destruct Ho as (-> & Hid & _ & Hst & _).
    simpl in Hord, Hitems.
    assert (Hrne : rows <> []).
    { intros E. rewrite E in Hlen. apply Hne.
      apply length_zero_iff_nil. now rewrite <- Hlen. }
    assert (Hio : items_of_order (o_id o) db2 = rows).
    { unfold items_of_order. rewrite Hitems, filter_app.
      replace (filter _ (order_line_items db)) with (@nil line_item).
      - simpl. clear - Hoid. induction Hoid as [|li l Hli _ IH]; simpl; [reflexivity|].
        rewrite Hli, N.eqb_refl. now rewrite IH.
      - symmetry. rewrite Hid. clear - Hfresh.
        induction (order_line_items db) as [|li l IH]; simpl; [reflexivity|].
        destruct (N.eqb_spec (li_order_id li) (next_id db)) as [E|E].
        + exfalso. apply (Hfresh li); [now left | exact E].
        + apply IH. intros x Hx. apply Hfresh. now right. }
    repeat split; try assumption.
    + unfold order_status_of. rewrite logAction_orders, Hord.
      rewrite find_map_preserved by (intros x; now rewrite recompute_order_id).
      destruct (find _ (orders db ++ [o])) as [x|] eqn:Hf.
      * simpl. unfold recompute_order.
        rewrite (find_order_id _ _ _ Hf), N.eqb_refl. simpl. rewrite Hio.
        f_equal. apply status_of_counts_untouched; [exact Hrne|].
        eapply Forall_impl; [|exact Hall]. now intros li [Hu _].
      * exfalso.
        assert (Hn : N.eqb (o_id o) (o_id o) = false)
          by (apply (find_none _ _ Hf o); apply in_or_app; right; now left).
        now rewrite N.eqb_refl in Hn.
    + unfold items_of_order. rewrite logAction_line_items. exact Hio.
Qed.

Lemma created_order_is_pending_witness :
  order_status_of 100 placed = Some pending /\ items_of_order 100 placed <> [].
Proof.
  pose (o := {| o_id := 100; o_po_number := "PO-2024-001"; o_customer_id := 1;
                o_due_date := None; o_quoted_ship_date := None;
                o_status := pending; o_notes := None;
                o_created_at := 1; o_updated_at := 1; o_created_by := 7 |}).
  pose (row := {| li_id := 101; li_order_id := 100; li_part_id := None;
                  li_part_number := "WG-001";
                  li_description := "Wire Guard Standard";
                  li_colors := Some "Black"%string; li_quantity := 10000;
                  li_unit := "pieces"; li_in_production := false;
                  li_shipped_quantity := 0; li_date_shipped := None;
                  li_created_at := 1; li_updated_at := 1 |}).
  assert (Hc : createOrder e0 empty (one_item "100")
               = (OrderCreated o [row], placed))
    by (vm_compute; reflexivity).
  destruct (created_order_is_pending e0 empty (one_item "100") o [row] placed Hc)
    as (_ & _ & H1 & H2 & H3 & _).
  - intros li Hin. vm_compute in Hin. contradiction.
  - split; [exact H1|]. change (o_id o) with 100%N in H2. rewrite H2. discriminate.
Defined.

(** ** The constraints of the schema *)

Lemma ids_ok_add ids next :
  ids_ok ids next -> ids_ok (ids ++ [next]) (N.succ next).
Proof.
  intros [Hnd Hlt]. split.
  - apply NoDup_app; [exact Hnd | repeat constructor; auto | ].
    intros x Hx [<-|[]]. rewrite Forall_forall in Hlt.
    specialize (Hlt _ Hx). lia.
  - apply Forall_app. split.
    + eapply Forall_impl; [|exact Hlt]. intros; simpl in *; lia.
    + repeat constructor. lia.
Qed.

Lemma ids_ok_next ids next : ids_ok ids next -> ids_ok ids (N.succ next).
Proof.
  intros [Hnd Hlt]. split; [exact Hnd|].
  eapply Forall_impl; [|exact Hlt]. intros; simpl in *; lia.
Qed.

Lemma schema_ok_logAction e a tn r o n db :
  schema_ok db -> schema_ok (logAction e a tn r o n db).
Proof. unfold logAction. destruct (audit_sink_up e); auto. Qed.

Ltac keys_step :=
  first [ assumption | now apply ids_ok_add | now apply ids_ok_next ].

Ltac open_schema H :=
  let K1 := fresh "K1" in let K2 := fresh "K2" in let K3 := fresh "K3" in
  let K4 := fresh "K4" in let R1 := fresh "R1" in let R2 := fresh "R2" in
  let R3 := fresh "R3" in let C1 := fresh "C1" in let C2 := fresh "C2" in
  let C3 := fresh "C3" in
  destruct H as ((K1 & K2 & K3 & K4) & (R1 & R2 & R3) & (C1 & C2 & C3)).

(** A statement that rewrites rows of [orders] without touching their id,
    customer or PO number. *)
Lemma schema_ok_orders_map (g : order -> order) db :
  (forall o, o_id (g o) = o_id o /\ o_customer_id (g o) = o_customer_id o
             /\ o_po_number (g o) = o_po_number o) ->
  schema_ok db -> schema_ok (with_orders db (map g (orders db))).
Proof.
  intros Hg H. open_schema H.
  assert (Hid : map o_id (map g (orders db)) = map o_id (orders db)).
  { rewrite map_map. apply map_ext. intros o. apply Hg. }
  assert (Hkey : map (fun o => (o_customer_id o, o_po_number o)) (map g (orders db))
                 = map (fun o => (o_customer_id o, o_po_number o)) (orders db)).
  { rewrite map_map. apply map_ext. intros o.
    destruct (Hg o) as (_ & -> & ->). reflexivity. }
  split; [|split].
  - unfold keys_ok. simpl. rewrite Hid, Hkey. auto.
  - unfold references_ok. simpl. rewrite Hid. repeat split; try assumption.
    apply Forall_map. eapply Forall_impl; [|exact R1].
    intros o Ho. simpl. destruct (Hg o) as (_ & -> & _). exact Ho.
  - unfold checks_ok. simpl. repeat split; try assumption.
    apply Forall_map. eapply Forall_impl; [|exact C3].
    intros o Ho. simpl. destruct (Hg o) as (_ & _ & ->). exact Ho.
Qed.

(** A statement that rewrites rows of [order_line_items] without touching
    their fixed columns. *)
Lemma schema_ok_items_map (g : line_item -> line_item) db :
  (forall li, li_static (g li) = li_static li
              /\ (0 <= li_shipped_quantity li < 10 ^ 10 ->
                  0 <= li_shipped_quantity (g li) < 10 ^ 10)) ->
  schema_ok db -> schema_ok (with_line_items db (map g (order_line_items db))).
Proof.
  intros Hg H. open_schema H.
  assert (Hs : forall li, li_id (g li) = li_id li
                          /\ li_order_id (g li) = li_order_id li
                          /\ li_part_id (g li) = li_part_id li
                          /\ li_quantity (g li) = li_quantity li
                          /\ li_unit (g li) = li_unit li
                          /\ li_part_number (g li) = li_part_number li).
  { intros li. destruct (Hg li) as [H _]. unfold li_static in H.
    injection H as -> -> -> -> _ _ -> -> _. repeat split. }
  assert (Hid : map li_id (map g (order_line_items db))
                = map li_id (order_line_items db)).
  { rewrite map_map. apply map_ext. intros li. apply Hs. }
  split; [|split].
  - unfold keys_ok. simpl. rewrite Hid. auto.
  - unfold references_ok. simpl. rewrite Hid. repeat split; try assumption.
    apply Forall_map. eapply Forall_impl; [|exact R2].
    intros li [H1 H2]. simpl.
    destruct (Hs li) as (_ & -> & -> & _). split; assumption.
  - unfold checks_ok. simpl. repeat split; try assumption.
    apply Forall_map. eapply Forall_impl; [|exact C1].
    intros li (H1 & H2 & H3 & H4). unfold item_checks.
    destruct (Hs li) as (_ & _ & _ & -> & -> & ->).
    refine (conj H1 (conj _ (conj H3 H4))). now apply (Hg li).
Qed.

Lemma schema_ok_insert_order e po c due quoted notes db o db1 :
  insert_order e po c due quoted notes db = Some (o, db1) ->
  schema_ok db -> schema_ok db1.
Proof.
  intros H Hok. open_schema Hok.
  apply insert_order_effect in H.
  destruct H as (-> & Hid & Hc & _ & Hlen & Hcust & Hkey).
  split; [|split].
  - unfold keys_ok. simpl. rewrite !map_app. simpl. rewrite Hid, Hc.
    split; [keys_step | split; [keys_step | split; [keys_step|]]].
    apply NoDup_app; [exact K4 | repeat constructor; auto |].
    intros x Hx [<-|[]]. contradiction.
  - unfold references_ok. simpl. rewrite map_app. repeat split; try assumption.
    + apply Forall_app. split; [exact R1 | constructor; [|constructor]]. now rewrite Hc.
    + eapply Forall_impl; [|exact R2]. intros li [H1 H2]. split; [|exact H2].
      apply in_or_app. now left.
  - unfold checks_ok. simpl. repeat split; try assumption.
    apply Forall_app. split; [exact C3 | constructor; [exact Hlen | constructor]].
Qed.

Lemma recompute_order_keeps t id db o :
  o_id (recompute_order t id db o) = o_id o
  /\ o_customer_id (recompute_order t id db o) = o_customer_id o
  /\ o_po_number (recompute_order t id db o) = o_po_number o.
Proof. unfold recompute_order. destruct (N.eqb (o_id o) id); repeat split. Qed.

Lemma recomputed_keeps t l db o :
  o_id (recomputed t l db o) = o_id o
  /\ o_customer_id (recomputed t l db o) = o_customer_id o
  /\ o_po_number (recomputed t l db o) = o_po_number o.
Proof. unfold recomputed. destruct (existsb _ l); repeat split. Qed.

Lemma schema_ok_insert_line_item e oid item db row db' :
  insert_line_item e oid item db = Some (row, db') ->
  schema_ok db -> schema_ok db'.
Proof.
  intros H Hok. apply insert_line_item_effect in H.
  destruct H as (-> & Hid & Hord & Hin & Hpart & _ & Hsh & _ & Hq & Hu & Hlen).
  rewrite update_order_status_eq.
  apply (schema_ok_orders_map _ _ (recompute_order_keeps _ _ _)).
  open_schema Hok.
  split; [|split].
  - unfold keys_ok. simpl. rewrite !map_app. simpl. rewrite Hid.
    split; [keys_step | split; [keys_step | split; [keys_step | exact K4]]].
  - unfold references_ok. simpl. rewrite map_app. repeat split; try assumption.
    + apply Forall_app. split; [exact R2 | constructor; [|constructor]].
      rewrite Hord. split; assumption.
    + eapply Forall_impl; [|exact R3]. intros s Hs. apply in_or_app. now left.
  - unfold checks_ok. simpl. repeat split; try assumption.
    apply Forall_app. split; [exact C1 | constructor; [|constructor]].
    unfold item_checks. rewrite Hsh.
    refine (conj Hq (conj _ (conj Hu Hlen))). lia.
Qed.

Lemma schema_ok_insert_line_items e oid items :
  forall db rows db',
    insert_line_items e oid items db = Some (rows, db') ->
    schema_ok db -> schema_ok db'.
Proof.
  induction items as [|item items IH]; intros db rows db'; simpl.
  - intros H. injection H as _ <-. auto.
  - destruct (insert_line_item e oid item db) as [[row db1]|] eqn:H1; [|discriminate].
    destruct (insert_line_items e oid items db1) as [[rs db2]|] eqn:H2; [|discriminate].
    intros H. injection H as _ <-. intros Hok.
    eapply IH; [exact H2|]. eapply schema_ok_insert_line_item; eassumption.
Qed.

Lemma schema_ok_insert_shipment e itemId q d tn notes db db1 :
  insert_shipment e itemId q d tn notes db = Some db1 ->
  schema_ok db -> schema_ok db1.
Proof.
  intros H Hok. open_schema Hok.
  apply insert_shipment_effect in H.
  destruct H as (s & -> & Hid & Hli & Hin & _ & Hq & _).
  split; [|split].
  - unfold keys_ok. simpl. rewrite !map_app. simpl. rewrite Hid.
    split; [keys_step | split; [keys_step | split; [keys_step | exact K4]]].
  - unfold references_ok. simpl. repeat split; try assumption.
    apply Forall_app. split; [exact R3 | constructor; [|constructor]]. now rewrite Hli.
  - unfold checks_ok. simpl. repeat split; try assumption.
    apply Forall_app. split; [exact C2 | constructor; [lia | constructor]].
Qed.

Lemma schema_ok_update_where t id f db :
  (forall li, li_static (touch t (f li)) = li_static li
              /\ (0 <= li_shipped_quantity li < 10 ^ 10 ->
                  0 <= li_shipped_quantity (touch t (f li)) < 10 ^ 10)) ->
  schema_ok db -> schema_ok (snd (update_line_items_where t id f db)).
Proof.
  intros Hf Hok. rewrite update_line_items_where_eq. cbv zeta. simpl snd.
  set (g := fun li => if N.eqb (li_id li) id then touch t (f li) else li).
  assert (Hitems : schema_ok (with_line_items db (map g (order_line_items db)))).
  { apply schema_ok_items_map; [|exact Hok]. intros li. unfold g.
    destruct (N.eqb (li_id li) id); [apply Hf | now split]. }
  exact (schema_ok_orders_map _ (with_line_items db (map g (order_line_items db)))
           (fun o => recomputed_keeps _ _ _ o) Hitems).
Qed.

Lemma NoDup_map_by {A B C} (f : A -> B) (g : A -> C) (l : list A) :
  NoDup (map g l) ->
  (forall a b, In a l -> In b l -> f a = f b -> g a = g b) ->
  NoDup (map f l).
Proof.
  induction l as [|x l IH]; simpl; intros Hnd H; [constructor|].
  inversion Hnd as [|? ? Hx Hl]; subst. constructor.
  - intros Hin. apply in_map_iff in Hin. destruct Hin as (y & Hy & Hiny).
    apply Hx. rewrite <- (H y x); [now apply in_map | now right | now left | exact Hy].
  - apply IH; [exact Hl|]. intros a b Ha Hb. apply H; now right.
Qed.

Lemma NoDup_map_same {A B} (f : A -> B) (l : list A) a b :
  NoDup (map f l) -> In a l -> In b l -> f a = f b -> a = b.
Proof.
  induction l as [|x l IH]; simpl; intros Hnd Ha Hb E; [contradiction|].
  inversion Hnd as [|? ? Hx Hl]; subst.
  destruct Ha as [<-|Ha], Hb as [<-|Hb]; auto.
  - exfalso. apply Hx. rewrite E. now apply in_map.
  - exfalso. apply Hx. rewrite <- E. now apply in_map.
Qed.

Lemma Forall2_in_r {A B} (R : A -> B -> Prop) l l' y :
  Forall2 R l l' -> In y l' -> exists x, In x l /\ R x y.
Proof.
  induction 1 as [|a b l l' Hab _ IH]; simpl; [contradiction|].
  intros [<-|Hy].
  - exists a. split; [now left | exact Hab].
  - destruct (IH Hy) as (x & Hx & Hr). exists x. split; [now right | exact Hr].
Qed.

Lemma update_order_rows_kept t id po due quoted notes (l all : list order) :
  map_opt (update_order_row t id po due quoted notes) l = Some all ->
  Forall2 (fun o a => o_id a = o_id o
                      /\ o_customer_id a = o_customer_id o
                      /\ (o_id o <> id -> a = o)
                      /\ (o_id o = id -> (String.length (o_po_number a) <= 100)%nat))
          l all.
Proof.
  revert all. induction l as [|o l IH]; intros all; simpl.
  - intros H. injection H as <-. constructor.
  - destruct (update_order_row t id po due quoted notes o) as [o'|] eqn:Ho;
      [|discriminate].
    destruct (map_opt _ l) as [r|]; [|discriminate].
    intros H. injection H as <-. constructor; [|now apply IH].
    unfold update_order_row in Ho.
    destruct (N.eqb_spec (o_id o) id) as [Hid|Hid].
    + destruct (PG.varchar 100 _) as [p|] eqn:Hp; [|discriminate].
      injection Ho as <-. simpl. repeat split; try congruence.
      intros _. eapply varchar_length; eassumption.
    + injection Ho as <-. repeat split; congruence.
Qed.

Lemma schema_ok_update_order_stmt t id po due quoted notes db rows db1 :
  update_order_stmt t id po due quoted notes db = Some (rows, db1) ->
  schema_ok db -> schema_ok db1.
Proof.
  intros H Hok. apply update_order_stmt_rows in H.
  destruct H as (all & Hall & Hkey & _ & ->).
  apply update_order_rows_kept in Hall. open_schema Hok.
  assert (Hid : map o_id all = map o_id (orders db)).
  { clear - Hall. induction Hall as [|o a l l' (H & _) _ IH]; simpl;
      [reflexivity | now rewrite H, IH]. }
  split; [|split].
  - unfold keys_ok. simpl. rewrite Hid.
    split; [keys_step | split; [keys_step | split; [keys_step|]]].
    apply NoDup_map_by with (g := o_id); [rewrite Hid; apply K1|].
    intros a b Ha Hb E. injection E as Ec Ep.
    destruct (N.eq_dec (o_id a) id) as [Aid|Aid],
             (N.eq_dec (o_id b) id) as [Bid|Bid]; [congruence| | |].
    + exfalso. rewrite <- not_true_iff_false in Hkey. apply Hkey.
      unfold key_taken. apply existsb_exists. exists a. split; [exact Ha|].
      rewrite Aid, N.eqb_refl. simpl. apply existsb_exists. exists b.
      split; [exact Hb|]. apply N.eqb_neq in Bid.
      now rewrite Bid, Ec, Ep, N.eqb_refl, String.eqb_refl.
    + exfalso. rewrite <- not_true_iff_false in Hkey. apply Hkey.
      unfold key_taken. apply existsb_exists. exists b. split; [exact Hb|].
      rewrite Bid, N.eqb_refl. simpl. apply existsb_exists. exists a.
      split; [exact Ha|]. apply N.eqb_neq in Aid.
      now rewrite Aid, Ec, Ep, N.eqb_refl, String.eqb_refl.
    + destruct (Forall2_in_r _ _ _ _ Hall Ha) as (a0 & Ha0 & Ia & _ & Sa & _).
      destruct (Forall2_in_r _ _ _ _ Hall Hb) as (b0 & Hb0 & Ib & _ & Sb & _).
      assert (Ea : a = a0) by (apply Sa; congruence).
      assert (Eb : b = b0) by (apply Sb; congruence).
      subst a0 b0. f_equal.
      apply (NoDup_map_same _ _ _ _ K4 Ha0 Hb0). congruence.
  - unfold references_ok. simpl. rewrite Hid. repeat split; try assumption.
    clear - Hall R1. induction Hall as [|o a l l' (_ & H & _) _ IH];
      [constructor|].
    inversion R1; subst. constructor; [now rewrite H | now apply IH].
  - unfold checks_ok. simpl. repeat split; try assumption.
    clear - Hall C3. induction Hall as [|o a l l' (_ & _ & H1 & H2) _ IH];
      [constructor|].
    inversion C3; subst. constructor; [|now apply IH].
    destruct (N.eq_dec (o_id o) id) as [E|E]; [now apply H2|].
    now rewrite (H1 E).
Qed.

Lemma schema_ok_handle e db r : schema_ok db -> schema_ok (snd (handle e db r)).
Proof.
  intros Hok.
  destruct r as [body|id body|orderId itemId|orderId itemId body|id]; simpl.
  - destruct (createOrder_cases e db body)
      as [(r & -> & _)|(o & db1 & rows & db2 & Hc)]; [exact Hok|].
    cbv zeta in Hc. destruct Hc as (_ & Ho & Hi & ->). simpl snd.
    apply schema_ok_logAction.
    eapply schema_ok_insert_line_items; [exact Hi|].
    eapply schema_ok_insert_order; eassumption.
  - destruct (updateOrder_cases e db id body)
      as [(r & -> & _)|(o & rows & db1 & Hc)]; [exact Hok|].
    cbv zeta in Hc. destruct Hc as (_ & _ & Hu & ->). simpl snd.
    apply schema_ok_logAction.
    eapply schema_ok_update_order_stmt; eassumption.
  - destruct (setInProduction_cases e db orderId itemId)
      as [[_ ->]|(o & _ & ->)]; [exact Hok|].
    simpl snd. apply schema_ok_logAction.
    apply schema_ok_update_where; [|exact Hok]. intros li. now split.
  - destruct (shipLineItem_cases e db orderId itemId body)
      as [(r & -> & _)|(li & db1 & rows & db2 & Hc)]; [exact Hok|].
    cbv zeta in Hc. destruct Hc as (_ & Hs & Hu & ->). simpl snd.
    apply schema_ok_logAction.
    apply update_shipped_effect in Hu. destruct Hu as (q & _ & Hq & Hu).
    match type of Hu with
    | update_line_items_where ?t ?i ?f ?d = _ =>
        replace db2 with (snd (update_line_items_where t i f d)) by now rewrite Hu
    end.
    apply schema_ok_update_where; [intros x; now split|].
    eapply schema_ok_insert_shipment; eassumption.
  - unfold cancelOrder. destruct (find _ (orders db)) as [found|]; [|exact Hok].
    simpl snd. apply schema_ok_logAction.
    apply schema_ok_orders_map; [|exact Hok].
    intros o. destruct (N.eqb (o_id o) id); repeat split.
Qed.

(** X13.  The constraints of the schema are kept by every sequence of
    requests: primary keys stay distinct (and older than the next id
    generated), (customer, PO number) stays unique, every order refers to a
    customer, every line item to an order (and to a part if to any), every
    shipment to a line item, ordered and shipment quantities stay positive,
    shipped quantities non-negative, all within DECIMAL(10,2), units among
    feet, meters and pieces, part and PO numbers within 100 characters. *)
Theorem schema_kept :
  forall (l : list (env * request)) (db : database),
    schema_ok db -> schema_ok (run db l).
Proof.
  induction l as [|[e r] l IH]; intros db H; simpl; [exact H|].
  apply IH. now apply schema_ok_handle.
Qed.

Lemma schema_kept_witness :
  schema_ok thirty_hundredths
  /\ schema_ok
       (run thirty_hundredths
          [(e0, ShipLineItem 100 101 (ship (json_number "0.1")));
           (e0, UpdateOrder 100 (More.take_po "PO-2024-007"));
           (e0, CancelOrder 100)]).
Proof.
  assert (H : schema_ok thirty_hundredths).
  { unfold schema_ok, keys_ok, references_ok, checks_ok, ids_ok, item_checks.
    simpl.
    repeat match goal with
           | |- _ /\ _ => split
           | |- NoDup _ => constructor
           | |- Forall _ _ => constructor
           | |- ~ In _ _ => simpl; intuition discriminate
           | |- _ \/ _ => auto
           | |- forall p, _ = Some p -> _ => intros ? ?; discriminate
           | |- (_ < _)%N => reflexivity
           | |- (_ <= _)%nat => repeat constructor
           | |- _ < _ => reflexivity
           | |- _ <= _ => discriminate
           end. }
  exact (conj H (schema_kept _ _ H)).
Defined.

(** ** Authentication and roles *)

Lemma split_fields_scheme (w rest : string) :
  no_space w = true ->
  split_fields (w ++ String " " rest)%string
  = (w, fst (split_fields rest) :: snd (split_fields rest)).
Proof.
  unfold no_space. induction w as [|c w IH]; simpl; intros H.
  - now destruct (split_fields rest).
  - apply andb_prop in H. destruct H as [Hc Hw].
    rewrite (IH Hw). now destruct (Ascii.eqb c " ").
Qed.

Lemma token_of_scheme (w rest : string) :
  no_space w = true ->
  token_of (Some (w ++ String " " rest)%string) = Some (fst (split_fields rest)).
Proof.
  intros H. unfold token_of, split. rewrite (split_fields_scheme _ _ H).
  destruct (String.eqb_spec (w ++ String " " rest)%string "") as [E|_]; [|reflexivity].
  destruct w; discriminate.
Qed.

(** X16.  [authenticateToken] never looks at the scheme of the
    Authorization header: the token is what stands between the first and the
    second space, so any word without a space in the place of Bearer gives
    the same answer, or the same user. *)
Theorem scheme_not_checked :
  forall (verify : string -> verified) (users : list user) (scheme rest : string),
    no_space scheme = true ->
    token_of (Some (scheme ++ " " ++ rest)%string) = Some (fst (split_fields rest))
    /\ authenticateToken verify users (Some (scheme ++ " " ++ rest)%string)
       = authenticateToken verify users (Some ("Bearer " ++ rest)%string).
Proof.
  intros verify users scheme rest H.
  assert (Hb : token_of (Some ("Bearer " ++ rest)%string) = Some (fst (split_fields rest))).
  { apply (token_of_scheme "Bearer"). reflexivity. }
  pose proof (token_of_scheme scheme rest H) as Hs.
  change (String " " rest) with (" " ++ rest)%string in Hs.
  split; [exact Hs|].
  unfold authenticateToken. now rewrite Hs, Hb.
Qed.

Lemma scheme_not_checked_witness :
  token_of (Some "Basic t8") = Some (fst (split_fields "t8"))
  /\ authenticateToken Staff.verify Staff.users (Some "Basic t8")
     = authenticateToken Staff.verify Staff.users (Some "Bearer t8").
Proof.
  exact (scheme_not_checked Staff.verify Staff.users "Basic" "t8" eq_refl).
Defined.

Lemma authenticateToken_user verify users h u :
  authenticateToken verify users h = inr u ->
  exists token,
    token_of h = Some token /\ token <> ""
    /\ verify token = Decoded (Uuid (u_id u))
    /\ In u users /\ u_active u = true.
Proof.
  unfold authenticateToken. cbv zeta.
  destruct (token_of h) as [token|]; simpl; [|discriminate].
  destruct (String.eqb_spec token "") as [|Hne]; [discriminate|].
  destruct (verify token) as [[| |id]| |] eqn:Hv; try discriminate.
  destruct (filter _ users) as [|u0 l] eqn:Hf; [discriminate|].
  intros H. injection H as <-.
  assert (Hin : In u0 (filter (fun u => N.eqb (u_id u) id && u_active u) users))
    by (rewrite Hf; now left).
  apply filter_In in Hin. destruct Hin as [Hin Hb].
  apply andb_prop in Hb. destruct Hb as [Hid Ha]. apply N.eqb_eq in Hid.
  exists token. subst id. auto.
Qed.

Lemma authenticateToken_answer verify users h a :
  authenticateToken verify users h = inl a -> is_error a = true.
Proof.
  unfold authenticateToken. cbv zeta.
  destruct (no_token _); [now intros [= <-]|].
  destruct (verify _) as [[| |id]| |]; try now intros [= <-].
  destruct (filter _ users); [now intros [= <-] | discriminate].
Qed.

Lemma requireRole_next roles u :
  requireRole roles (Some u) = None -> In (u_role u) roles.
Proof.
  unfold requireRole. destruct (existsb _ roles) eqn:E; [|discriminate].
  intros _. apply existsb_exists in E. destruct E as (x & Hx & E).
  apply String.eqb_eq in E. now subst x.
Qed.

Lemma requireRole_answer roles u a :
  requireRole roles u = Some a -> is_error a = true.
Proof.
  unfold requireRole. destruct u as [u|]; [|now intros [= <-]].
  destruct (negb _); [now intros [= <-] | discriminate].
Qed.

(** What [serve] does: it answers an error and changes nothing, or it
    hands the request to the route in the name of an active user of a role
    the route admits, whom the token names. *)
Lemma serve_cases verify users e db h r :
  (is_error (fst (serve verify users e db h r)) = true
   /\ snd (serve verify users e db h r) = db)
  \/ exists token u,
       token_of h = Some token /\ token <> ""
       /\ verify token = Decoded (Uuid (u_id u))
       /\ In u users /\ u_active u = true
       /\ In (u_role u) (roles_of r)
       /\ serve verify users e db h r = handle (as_user u e) db r.
Proof.
  unfold serve.
  destruct (authenticateToken verify users h) as [a|u] eqn:Ha.
  - left. split; [|reflexivity]. eapply authenticateToken_answer, Ha.
  - destruct (requireRole (roles_of r) (Some u)) as [a|] eqn:Hr.
    + left. split; [|reflexivity]. eapply requireRole_answer, Hr.
    + right. apply authenticateToken_user in Ha.
      destruct Ha as (token & H1 & H2 & H3 & H4 & H5).
      apply requireRole_next in Hr. exists token, u. auto 10.
Qed.

(** X14.  Behind [authenticateToken] and the [requireRole] of its route, a
    mutating request succeeds, or changes anything at all, only when the
    Authorization header carries a token that [jwt.verify] accepts and that
    names an active user who is admin or manager (admin for the
    cancellation); the route then runs in the name of that user. *)
Theorem changes_need_a_role :
  forall (verify : string -> verified) (users : list user) (e : env)
         (db : database) (authorization : option string) (r : request),
    let out := serve verify users e db authorization r in
    is_error (fst out) = false \/ snd out <> db ->
    exists token u,
      token_of authorization = Some token /\ token <> ""
      /\ verify token = Decoded (Uuid (u_id u))
      /\ In u users /\ u_active u = true
      /\ In (u_role u) (roles_of r)
      /\ out = handle (as_user u e) db r.
Proof.
  intros verify users e db h r out H. subst out.
  destruct (serve_cases verify users e db h r) as [[He Hdb]|Hs]; [|exact Hs].
  destruct H as [H|H]; [congruence | contradiction].
Qed.

Lemma changes_need_a_role_witness :
  exists token u,
    token_of (Some "Bearer t8") = Some token /\ token <> ""
    /\ Staff.verify token = Decoded (Uuid (u_id u))
    /\ In u Staff.users /\ u_active u = true
    /\ In (u_role u) (roles_of (ShipLineItem 100 101 (ship (json_number "40"))))
    /\ serve Staff.verify Staff.users e0 placed (Some "Bearer t8")
         (ShipLineItem 100 101 (ship (json_number "40")))
       = handle (as_user u e0) placed
           (ShipLineItem 100 101 (ship (json_number "40"))).
Proof.
  assert (H : is_error
                (fst (serve Staff.verify Staff.users e0 placed (Some "Bearer t8")
                        (ShipLineItem 100 101 (ship (json_number "40")))))
              = false) by (vm_compute; reflexivity).
  exact (changes_need_a_role Staff.verify Staff.users e0 placed
           (Some "Bearer t8") (ShipLineItem 100 101 (ship (json_number "40")))
           (or_introl H)).
Defined.

(** X15.  Whatever the header and the request, every entry a served
    request adds to the audit log carries the id of an active user of a role
    the route admits, and the action and table of the route. *)
Theorem audit_entries_name_the_user :
  forall (verify : string -> verified) (users : list user) (e : env)
         (db : database) (authorization : option string) (r : request),
    exists l,
      audit_log (snd (serve verify users e db authorization r))
      = audit_log db ++ l
      /\ Forall (fun en =>
                   exists u,
                     In u users /\ u_active u = true
                     /\ In (u_role u) (roles_of r)
                     /\ a_user_id en = u_id u
                     /\ (a_action en, a_table_name en) = action_of r) l.
Proof.
  intros verify users e db h r.
  destruct (serve_cases verify users e db h r)
    as [[_ ->]|(token & u & _ & _ & _ & Hin & Hact & Hrole & ->)].
  - exists []. split; [now rewrite app_nil_r | constructor].
  - destruct (handle_outcome (as_user u e) db r)
      as [[_ ->]|(_ & d & a & tn & rid & o & n & -> & Hd & Ha)].
    + exists []. split; [now rewrite app_nil_r | constructor].
    + rewrite logAction_audit_log, Hd. eexists. split; [reflexivity|].
      destruct (audit_sink_up (as_user u e)); constructor; [|constructor].
      exists u. simpl. auto.
Qed.

(** ** The reading routes *)

Lemma count_filter {A} (f g : A -> bool) (l : list A) :
  count f (filter g l) = count (fun x => g x && f x) l.
Proof.
  induction l as [|x l IH]; [reflexivity|]. simpl filter.
  rewrite (count_cons (fun x => g x && f x)).
  destruct (g x); simpl andb.
  - now rewrite count_cons, IH.
  - now rewrite IH.
Qed.

(** X17.  The dashboard counts every order that is not cancelled once: the
    total is the number of orders not cancelled, the pending and production
    counts are the numbers of orders with these statuses, the count of this
    month's shipped orders is at most the number of shipped orders, and the
    three together never exceed the total. *)
Theorem dashboard_counts :
  forall (same_month : timestamp -> date -> bool) (e : env) (db : database),
    let d := dashboardStats same_month e db in
    let having st := count (fun o => status_eqb (o_status o) st) (orders db) in
    total_orders d = having pending + having production + having shipped
    /\ total_orders d + having cancelled = Z.of_nat (List.length (orders db))
    /\ pending_orders d = having pending
    /\ production_orders d = having production
    /\ 0 <= shipped_this_month d <= having shipped
    /\ pending_orders d + production_orders d + shipped_this_month d
       <= total_orders d.
Proof.
  intros same_month e db. cbv zeta. unfold dashboardStats. simpl.
  rewrite !count_filter. unfold not_cancelled.
  induction (orders db) as [|o l IH].
  - rewrite !count_nil. simpl. lia.
  - rewrite !(count_cons _ o l). simpl List.length. rewrite Nat2Z.inj_succ.
    destruct IH as (I1 & I2 & I3 & I4 & I5 & I6).
    destruct (o_status o); cbn [status_eqb negb andb];
      try destruct (same_month (o_updated_at o) (today e)); lia.
Qed.

Lemma count_map {A B} (f : B -> bool) (g : A -> B) (l : list A) :
  count f (map g l) = count (fun x => f (g x)) l.
Proof.
  induction l as [|x l IH]; [reflexivity|]. simpl map.
  now rewrite count_cons, (count_cons (fun x => f (g x))), IH.
Qed.

Lemma count_ext_in {A} (f g : A -> bool) (l : list A) :
  (forall x, In x l -> f x = g x) -> count f l = count g l.
Proof.
  induction l as [|x l IH]; intros H; [reflexivity|].
  rewrite !count_cons, (H x (or_introl eq_refl)), IH; [reflexivity|].
  intros y Hy. apply H. now right.
Qed.

(** The count of the rows that pass [f] when the one row with the id of [o]
    is cancelled. *)
Lemma count_after_cancel t id (f : order -> bool) (l : list order) o :
  NoDup (map o_id l) ->
  find (fun o => N.eqb (o_id o) id) l = Some o ->
  count (fun x => not_cancelled x && f x)
        (map (fun o => if N.eqb (o_id o) id then set_order_status t cancelled o else o) l)
  = count (fun x => not_cancelled x && f x) l
    - (if not_cancelled o && f o then 1 else 0).
Proof.
  induction l as [|x l IH]; simpl; intros Hnd Hf; [discriminate|].
  inversion Hnd as [|? ? Hx Hl]; subst.
  rewrite !count_cons.
  destruct (N.eqb_spec (o_id x) id) as [E|E].
  - injection Hf as <-.
    assert (Hrest :
      count (fun x => not_cancelled x && f x)
            (map (fun o => if N.eqb (o_id o) id
                           then set_order_status t cancelled o else o) l)
      = count (fun x => not_cancelled x && f x) l).
    { rewrite count_map. apply count_ext_in. intros y Hy.
      destruct (N.eqb_spec (o_id y) id) as [Ey|_]; [|reflexivity].
      exfalso. apply Hx. rewrite E, <- Ey. now apply in_map. }
    rewrite Hrest. unfold not_cancelled at 1.
    cbn [set_order_status o_status status_eqb negb andb]. lia.
  - rewrite (IH Hl Hf). lia.
Qed.

(** X18.  A cancelled order leaves the dashboard: when order ids are
    distinct, cancelling an order that was not cancelled lowers the total by
    one and the count of its status by at most one, and raises no count;
    cancelling a cancelled order changes no count. *)
Theorem cancelled_order_leaves_dashboard :
  forall (same_month : timestamp -> date -> bool) (e e' : env) (db : database)
         (id : uuid) (o : order),
    NoDup (map o_id (orders db)) ->
    find (fun o => N.eqb (o_id o) id) (orders db) = Some o ->
    let before := dashboardStats same_month e' db in
    let after := dashboardStats same_month e' (snd (cancelOrder e db id)) in
    total_orders after
    = total_orders before - (if not_cancelled o then 1 else 0)
    /\ pending_orders after
       = pending_orders before - (if status_eqb (o_status o) pending then 1 else 0)
    /\ production_orders after
       = production_orders before
         - (if status_eqb (o_status o) production then 1 else 0)
    /\ shipped_this_month before - (if status_eqb (o_status o) shipped then 1 else 0)
       <= shipped_this_month after <= shipped_this_month before.
Proof.
  intros same_month e e' db id o Hnd Hf. cbv zeta.
  unfold cancelOrder. rewrite Hf. simpl snd.
  unfold dashboardStats. rewrite logAction_orders. simpl.
  rewrite !count_filter.
  rewrite !(count_after_cancel _ _ _ _ _ Hnd Hf).
  unfold not_cancelled. destruct (o_status o); cbn [status_eqb negb andb];
    try destruct (same_month (o_updated_at o) (today e')); lia.
Qed.

Lemma cancelled_order_leaves_dashboard_witness :
  total_orders (dashboardStats Reads.same_month e0 (snd (cancelOrder e0 placed 100)))
  = total_orders (dashboardStats Reads.same_month e0 placed) - 1.
Proof.
  assert (Hnd : NoDup (map o_id (orders placed)))
    by (vm_compute; repeat constructor; simpl; tauto).
  assert (Hf : find (fun o => N.eqb (o_id o) 100) (orders placed)
               = hd_error (orders placed)) by (vm_compute; reflexivity).
  destruct (orders placed) as [|o l] eqn:E; [vm_compute in E; discriminate|].
  assert (Hs : not_cancelled o = true).
  { assert (Ho : hd_error (orders placed) = Some o) by now rewrite E.
    vm_compute in Ho. injection Ho as <-. reflexivity. }
  pose proof (cancelled_order_leaves_dashboard Reads.same_month e0 e0 placed 100 o) as H.
  rewrite E in H. specialize (H Hnd Hf). cbv zeta in H.
  rewrite Hs in H. exact (proj1 H).
Defined.

(** ** GET /:id *)

Lemma Permutation_filter' {A} (f : A -> bool) (l l' : list A) :
  Permutation l l' -> Permutation (filter f l) (filter f l').
Proof.
  induction 1 as [|x l l' _ IH|x y l|l l' l'' _ IH1 _ IH2]; simpl.
  - constructor.
  - destruct (f x); [now constructor | exact IH].
  - destruct (f x), (f y); try reflexivity. constructor.
  - now transitivity (filter f l').
Qed.

Lemma filter_twice {A} (f g : A -> bool) (l : list A) :
  filter f (filter g l) = filter (fun x => f x && g x) l.
Proof.
  induction l as [|x l IH]; [reflexivity|]. simpl.
  destruct (g x); simpl.
  - rewrite andb_true_r. destruct (f x); now rewrite IH.
  - now rewrite andb_false_r.
Qed.

Lemma Permutation_sum (l l' : list Z) :
  Permutation l l' -> fold_right Z.add 0 l = fold_right Z.add 0 l'.
Proof.
  induction 1; simpl; lia.
Qed.

Lemma in_orders_with_customers db o c :
  In (o, c) (orders_with_customers db)
  <-> In o (orders db) /\ In c (customers db) /\ c_id c = o_customer_id o.
Proof.
  unfold orders_with_customers. rewrite in_flat_map. split.
  - intros (o' & Ho & H). apply in_map_iff in H. destruct H as (c' & E & Hc).
    injection E as <- <-. apply filter_In in Hc. destruct Hc as [Hc Hid].
    apply N.eqb_eq in Hid. auto.
  - intros (Ho & Hc & Hid). exists o. split; [exact Ho|].
    apply in_map. apply filter_In. split; [exact Hc|]. now apply N.eqb_eq.
Qed.

Lemma find_unique id (l : list order) o :
  NoDup (map o_id l) -> In o l -> o_id o = id ->
  find (fun o => N.eqb (o_id o) id) l = Some o.
Proof.
  induction l as [|x l IH]; simpl; intros Hnd Hin Hid; [contradiction|].
  inversion Hnd as [|? ? Hx Hl]; subst.
  destruct (N.eqb_spec (o_id x) (o_id o)) as [E|E].
  - destruct Hin as [->|Hin]; [reflexivity|].
    exfalso. apply Hx. rewrite E. now apply in_map.
  - destruct Hin as [->|Hin]; [congruence|]. now apply IH.
Qed.

Lemma shipments_of_row users (p : shipment -> bool) (l : list shipment) :
  map sr_shipment
      (filter (fun r => p (sr_shipment r)) (map (shipment_with_user users) l))
  = filter p l.
Proof.
  induction l as [|s l IH]; [reflexivity|]. simpl.
  destruct (p s); simpl; now rewrite IH.
Qed.

Lemma thirty_hundredths_schema : schema_ok thirty_hundredths.
Proof.
  unfold schema_ok, keys_ok, references_ok, checks_ok, ids_ok, item_checks.
  simpl.
  repeat match goal with
         | |- _ /\ _ => split
         | |- NoDup _ => constructor
         | |- Forall _ _ => constructor
         | |- ~ In _ _ => simpl; intuition discriminate
         | |- _ \/ _ => auto
         | |- forall p, _ = Some p -> _ => intros ? ?; discriminate
         | |- (_ < _)%N => reflexivity
         | |- (_ <= _)%nat => repeat constructor
         | |- _ < _ => reflexivity
         | |- _ <= _ => discriminate
         end.
Defined.

Lemma thirty_hundredths_in_step : status_consistent thirty_hundredths.
Proof.
  intros o [<-|[]]. right. right. reflexivity.
Defined.

(** X19.  On a database that satisfies its schema, [GET /:id] answers 404
    exactly when no order has the id; otherwise it shows that order with
    its customer, the line items of the order, each once, and under each
    line item exactly the shipments recorded for it, each once, whose
    quantities add up to the total of its shipments. *)
Theorem getOrder_details :
  forall (by_created_at : list line_item -> list line_item)
         (by_ship_date_desc : list shipment -> list shipment)
         (users : list user) (db : database) (id : uuid),
    (forall l, Permutation (by_created_at l) l) ->
    (forall l, Permutation (by_ship_date_desc l) l) ->
    schema_ok db ->
    match getOrder by_created_at by_ship_date_desc users db id with
    | None => find (fun o => N.eqb (o_id o) id) (orders db) = None
    | Some d =>
        find (fun o => N.eqb (o_id o) id) (orders db) = Some (od_order d)
        /\ In (od_customer d) (customers db)
        /\ c_id (od_customer d) = o_customer_id (od_order d)
        /\ Permutation (map lr_item (od_lineItems d)) (items_of_order id db)
        /\ Forall (fun row =>
                     Permutation
                       (map sr_shipment (lr_shipments row))
                       (filter (fun s => N.eqb (s_line_item_id s) (li_id (lr_item row)))
                               (shipments db))
                     /\ fold_right Z.add 0
                          (map (fun s => s_quantity (sr_shipment s)) (lr_shipments row))
                        = shipments_total (li_id (lr_item row)) db)
                  (od_lineItems d)
    end.
Proof.
  intros by_created_at by_ship_date_desc users db id Hitems Hships Hok.
  destruct Hok as (((Hnd & _) & _) & (Hcust & _) & _).
  unfold getOrder.
  destruct (filter _ (orders_with_customers db)) as [|[o c] rest] eqn:Hf.
  - destruct (find _ (orders db)) as [o|] eqn:Ho; [|reflexivity].
    exfalso. apply find_some in Ho. destruct Ho as [Hin Hid].
    rewrite Forall_forall in Hcust. specialize (Hcust o Hin).
    apply in_map_iff in Hcust. destruct Hcust as (c & Hc & Hinc).
    assert (H : In (o, c) (filter (fun oc => N.eqb (o_id (fst oc)) id)
                                  (orders_with_customers db))).
    { apply filter_In. split; [|exact Hid].
      apply in_orders_with_customers. auto. }
    rewrite Hf in H. contradiction.
  - assert (H : In (o, c) (filter (fun oc => N.eqb (o_id (fst oc)) id)
                                  (orders_with_customers db)))
      by (rewrite Hf; now left).
    apply filter_In in H. destruct H as [H Hid]. simpl in Hid.
    apply N.eqb_eq in Hid. apply in_orders_with_customers in H.
    destruct H as (Ho & Hc & Hcid). cbv zeta. simpl.
    split; [now apply find_unique|]. split; [exact Hc|]. split; [exact Hcid|].
    split.
    + rewrite map_map. simpl. rewrite map_id. apply Hitems.
    + apply Forall_forall. intros row Hrow. apply in_map_iff in Hrow.
      destruct Hrow as (item & <- & Hitem). simpl.
      assert (Hperm :
        Permutation
          (map sr_shipment
             (filter (fun s => N.eqb (s_line_item_id (sr_shipment s)) (li_id item))
                (match map li_id (by_created_at (items_of_order id db)) with
                 | [] => []
                 | _ :: _ =>
                     map (shipment_with_user users)
                       (by_ship_date_desc
                          (filter
                             (fun s => existsb (N.eqb (s_line_item_id s))
                                         (map li_id (by_created_at (items_of_order id db))))
                             (shipments db)))
                 end)))
          (filter (fun s => N.eqb (s_line_item_id s) (li_id item)) (shipments db))).
      { assert (Hid' : In (li_id item)
                         (map li_id (by_created_at (items_of_order id db))))
          by now apply in_map.
        destruct (map li_id (by_created_at (items_of_order id db)))
          as [|i ids] eqn:Hids; [contradiction|].
        rewrite (shipments_of_row users
                   (fun s => N.eqb (s_line_item_id s) (li_id item))).
        etransitivity; [apply Permutation_filter', Hships|].
        rewrite filter_twice.
        rewrite (filter_ext_in _ (fun s => N.eqb (s_line_item_id s) (li_id item)));
          [reflexivity|].
        intros s _. destruct (N.eqb_spec (s_line_item_id s) (li_id item)) as [E|E];
          [|reflexivity].
        assert (Hex : existsb (N.eqb (s_line_item_id s)) (i :: ids) = true).
        { apply existsb_exists. exists (li_id item).
          split; [exact Hid'|]. now apply N.eqb_eq. }
        now rewrite Hex. }
      split; [exact Hperm|].
      unfold shipments_total. rewrite <- (map_map sr_shipment s_quantity).
      apply Permutation_sum. now apply Permutation_map.
Qed.

Lemma getOrder_details_witness :
  exists d,
    getOrder Reads.as_stored Reads.as_stored Staff.users thirty_hundredths 100
    = Some d
    /\ find (fun o => N.eqb (o_id o) 100) (orders thirty_hundredths)
       = Some (od_order d)
    /\ Permutation (map lr_item (od_lineItems d))
                   (items_of_order 100 thirty_hundredths).
Proof.
  pose proof (getOrder_details Reads.as_stored Reads.as_stored Staff.users
                thirty_hundredths 100
                (fun l => Permutation_refl l) (fun l => Permutation_refl l)
                thirty_hundredths_schema) as H.
  destruct (getOrder Reads.as_stored Reads.as_stored Staff.users
              thirty_hundredths 100) as [d|] eqn:E.
  - exists d. split; [reflexivity|].
    split; [exact (proj1 H) | exact (proj1 (proj2 (proj2 (proj2 H))))].
  - vm_compute in E. discriminate.
Defined.


(** ** GET / *)

Lemma in_firstn {A} (x : A) n l : In x (firstn n l) -> In x l.
Proof.
  intros H. rewrite <- (firstn_skipn n l). apply in_or_app. now left.
Qed.

Lemma in_skipn {A} (x : A) n l : In x (skipn n l) -> In x l.
Proof.
  intros H. rewrite <- (firstn_skipn n l). apply in_or_app. now right.
Qed.

Lemma NoDup_firstn {A} n (l : list A) : NoDup l -> NoDup (firstn n l).
Proof.
  intros H. rewrite <- (firstn_skipn n l) in H. now apply NoDup_app_remove_r in H.
Qed.

Lemma NoDup_skipn {A} n (l : list A) : NoDup l -> NoDup (skipn n l).
Proof.
  intros H. rewrite <- (firstn_skipn n l) in H. now apply NoDup_app_remove_l in H.
Qed.

Lemma NoDup_map_filter {A B} (g : A -> B) (f : A -> bool) (l : list A) :
  NoDup (map g l) -> NoDup (map g (filter f l)).
Proof.
  induction l as [|x l IH]; simpl; intros H; [constructor|].
  inversion H as [|? ? Hx Hl]; subst.
  destruct (f x); [|now apply IH]. simpl. constructor; [|now apply IH].
  intros Hin. apply Hx. apply in_map_iff in Hin. destruct Hin as (y & <- & Hy).
  apply in_map. apply filter_In in Hy. tauto.
Qed.

Lemma one_customer (cs : list customer) k :
  NoDup (map c_id cs) ->
  (List.length (filter (fun c => N.eqb (c_id c) k) cs) <= 1)%nat.
Proof.
  induction cs as [|c cs IH]; simpl; intros H; [lia|].
  inversion H as [|? ? Hx Hl]; subst.
  destruct (N.eqb_spec (c_id c) k) as [E|E]; [|now apply IH].
  simpl. destruct (filter _ cs) as [|c' r] eqn:Hf; [simpl; lia|].
  exfalso. apply Hx.
  assert (Hin : In c' (filter (fun c => N.eqb (c_id c) k) cs))
    by (rewrite Hf; now left).
  apply filter_In in Hin. destruct Hin as [Hin Hk]. apply N.eqb_eq in Hk.
  rewrite E, <- Hk. now apply in_map.
Qed.

Lemma orders_with_customers_ids db :
  NoDup (map o_id (orders db)) -> NoDup (map c_id (customers db)) ->
  NoDup (map (fun oc => o_id (fst oc)) (orders_with_customers db)).
Proof.
  intros Ho Hc. unfold orders_with_customers.
  induction (orders db) as [|o l IH]; simpl; [constructor|].
  inversion Ho as [|? ? Hx Hl]; subst.
  rewrite map_app, map_map. simpl.
  pose proof (one_customer (customers db) (o_customer_id o) Hc) as Hone.
  destruct (filter _ (customers db)) as [|c [|c' r]]; simpl in *;
    [now apply IH | | lia].
  constructor; [|now apply IH].
  intros Hin. apply Hx. apply in_map_iff in Hin.
  destruct Hin as ([o' c'] & E & Hin). simpl in E.
  apply in_flat_map in Hin. destruct Hin as (o'' & Ho'' & Hin).
  apply in_map_iff in Hin. destruct Hin as (c'' & E' & _).
  injection E' as <- <-. rewrite <- E. now apply in_map.
Qed.

Lemma whereClause_cancelled ilike q o c :
  lq_status q = Some "cancelled" -> whereClause ilike q o c = false.
Proof.
  intros H. unfold whereClause, not_cancelled. rewrite H. simpl given.
  destruct (o_status o); simpl; rewrite ?andb_false_r; reflexivity.
Qed.

(** X20.  What [GET /] lists: an answer is refused when the limit or the
    offset is negative or the customer filter is no UUID; otherwise the page
    has no more rows than the limit, every row is an order of the database
    that is not cancelled, with its customer, passes the filters of the
    query and carries the aggregates of its own line items; asking for the
    status cancelled gives the empty page and the total 0; and when order
    ids and customer ids are distinct, no order is listed twice and the
    page is no longer than the total. *)
Theorem listed_orders :
  forall (ilike : string -> string -> bool)
         (newest_first : list order_row -> list order_row)
         (limit offset : Z) (q : list_query) (db : database)
         (page : list order_row) (total : Z),
    (forall l, Permutation (newest_first l) l) ->
    listOrders ilike newest_first limit offset q db = Some (page, total) ->
    0 <= limit /\ 0 <= offset /\ lq_customer q <> NotUuid
    /\ Z.of_nat (List.length page) <= limit
    /\ Forall (fun r =>
                 In (or_order r) (orders db)
                 /\ In (or_customer r) (customers db)
                 /\ c_id (or_customer r) = o_customer_id (or_order r)
                 /\ o_status (or_order r) <> cancelled
                 /\ whereClause ilike q (or_order r) (or_customer r) = true
                 /\ r = order_row_of db (or_order r, or_customer r))
              page
    /\ (lq_status q = Some "cancelled"%string -> page = [] /\ total = 0)
    /\ (NoDup (map o_id (orders db)) -> NoDup (map c_id (customers db)) ->
        NoDup (map (fun r => o_id (or_order r)) page)
        /\ Z.of_nat (List.length page) <= total).
Proof.
  intros ilike newest_first limit offset q db page total Hperm H.
  unfold listOrders in H.
  assert (Hq : lq_customer q <> NotUuid /\
               (if (limit <? 0) || (offset <? 0) then None
                else Some
                  (firstn (Z.to_nat limit)
                     (skipn (Z.to_nat offset)
                        (newest_first
                           (map (order_row_of db)
                              (filter (fun oc => whereClause ilike q (fst oc) (snd oc))
                                 (orders_with_customers db))))),
                   Z.of_nat (List.length
                      (nodup N.eq_dec
                         (map (fun oc => o_id (fst oc))
                            (filter (fun oc => whereClause ilike q (fst oc) (snd oc))
                               (orders_with_customers db)))))))
               = Some (page, total)).
  { destruct (lq_customer q); [split; [discriminate | exact H]
                              | discriminate
                              | split; [discriminate | exact H]]. }
  clear H. destruct Hq as [Hc H].
  destruct ((limit <? 0) || (offset <? 0)) eqn:Hneg; [discriminate|].
  apply orb_false_elim in Hneg. destruct Hneg as [Hl Ho].
  apply Z.ltb_ge in Hl. apply Z.ltb_ge in Ho.
  set (matching := filter (fun oc => whereClause ilike q (fst oc) (snd oc))
                          (orders_with_customers db)) in *.
  injection H as <- <-.
  split; [exact Hl|]. split; [exact Ho|]. split; [exact Hc|].
  split; [|split; [|split]].
  - pose proof (firstn_le_length (Z.to_nat limit)
        (skipn (Z.to_nat offset) (newest_first (map (order_row_of db) matching)))).
    lia.
  - apply Forall_forall. intros r Hr.
    apply in_firstn, in_skipn in Hr.
    apply (Permutation_in _ (Hperm _)) in Hr.
    apply in_map_iff in Hr. destruct Hr as ([o c] & <- & Hin).
    apply filter_In in Hin. destruct Hin as [Hin Hw]. simpl in Hw.
    apply in_orders_with_customers in Hin. destruct Hin as (Hio & Hic & Hid).
    simpl. repeat split; try assumption.
    unfold whereClause, not_cancelled in Hw. intros E. rewrite E in Hw.
    discriminate.
  - intros Hs.
    assert (Hm : matching = []).
    { unfold matching. induction (orders_with_customers db) as [|[o c] l IH];
        [reflexivity|].
      simpl. now rewrite (whereClause_cancelled _ _ _ _ Hs). }
    rewrite Hm. simpl map.
    pose proof (Hperm []) as Hnil. apply Permutation_sym, Permutation_nil in Hnil.
    rewrite Hnil. now rewrite skipn_nil, firstn_nil.
  - intros Hno Hnc.
    pose proof (orders_with_customers_ids db Hno Hnc) as Hids.
    assert (Hm : NoDup (map (fun oc => o_id (fst oc)) matching))
      by (unfold matching; now apply NoDup_map_filter).
    assert (HL : Permutation
                   (map (fun r => o_id (or_order r))
                        (newest_first (map (order_row_of db) matching)))
                   (map (fun oc => o_id (fst oc)) matching)).
    { etransitivity; [apply Permutation_map, Hperm|].
      rewrite map_map. reflexivity. }
    split.
    + rewrite <- firstn_map, <- skipn_map.
      apply NoDup_firstn, NoDup_skipn.
      apply (Permutation_NoDup (Permutation_sym HL)). exact Hm.
    + rewrite (nodup_fixed_point N.eq_dec Hm). rewrite length_map.
      pose proof (firstn_le_length (Z.to_nat limit)
        (skipn (Z.to_nat offset) (newest_first (map (order_row_of db) matching)))).
      assert (Hle : (List.length (firstn (Z.to_nat limit)
                  (skipn (Z.to_nat offset)
                     (newest_first (map (order_row_of db) matching))))
              <= List.length matching)%nat).
      { rewrite length_firstn, length_skipn.
        rewrite (Permutation_length (Hperm _)), length_map. lia. }
      lia.
Qed.

Lemma listed_orders_witness :
  exists page total,
    listOrders Reads.ilike Reads.as_stored 50 0 Reads.all_orders thirty_hundredths
    = Some (page, total)
    /\ Z.of_nat (List.length page) <= 50
    /\ Forall (fun r => o_status (or_order r) <> cancelled) page.
Proof.
  destruct (listOrders Reads.ilike Reads.as_stored 50 0 Reads.all_orders
              thirty_hundredths) as [[page total]|] eqn:E.
  - exists page, total. split; [reflexivity|].
    pose proof (listed_orders Reads.ilike Reads.as_stored 50 0 Reads.all_orders
                  thirty_hundredths page total
                  (fun l => Permutation_refl l) E) as H.
    destruct H as (_ & _ & _ & Hlen & Hrows & _).
    split; [exact Hlen|].
    eapply Forall_impl; [|exact Hrows]. intros r Hr. apply Hr.
  - vm_compute in E. discriminate.
Defined.


(** X21.  The list agrees with the status: when the status of every order
    is in step with its line items, every listed order that has line items
    is shipped exactly when all its line items count as shipped, and a
    pending one has none that counts as shipped; the two counts of a row
    are those of the line items of its order. *)
Theorem listed_status_agrees :
  forall (ilike : string -> string -> bool)
         (newest_first : list order_row -> list order_row)
         (limit offset : Z) (q : list_query) (db : database)
         (page : list order_row) (total : Z),
    (forall l, Permutation (newest_first l) l) ->
    status_consistent db ->
    listOrders ilike newest_first limit offset q db = Some (page, total) ->
    Forall (fun r =>
              let items := items_of_order (o_id (or_order r)) db in
              or_total_line_items r = Z.of_nat (List.length items)
              /\ or_shipped_items r = count fully_shipped items
              /\ 0 <= or_shipped_items r <= or_total_line_items r
              /\ (0 < or_total_line_items r ->
                  (o_status (or_order r) = shipped
                   <-> or_shipped_items r = or_total_line_items r)
                  /\ (o_status (or_order r) = pending -> or_shipped_items r = 0)))
           page.
Proof.
  intros ilike newest_first limit offset q db page total Hperm Hst H.
  assert (Hrows : Forall (fun r => In (or_order r) (orders db)
                                   /\ o_status (or_order r) <> cancelled
                                   /\ r = order_row_of db (or_order r, or_customer r))
                         page).
  { unfold listOrders in H.
    assert (H' : exists l, Some (firstn (Z.to_nat limit)
                   (skipn (Z.to_nat offset)
                      (newest_first (map (order_row_of db)
                         (filter (fun oc => whereClause ilike q (fst oc) (snd oc))
                            (orders_with_customers db))))), l) = Some (page, total)).
    { destruct (lq_customer q); try discriminate;
        destruct ((limit <? 0) || (offset <? 0)); try discriminate;
        eexists; exact H. }
    destruct H' as (l & H'). injection H' as <- _.
    apply Forall_forall. intros r Hr.
    apply in_firstn, in_skipn in Hr.
    apply (Permutation_in _ (Hperm _)) in Hr.
    apply in_map_iff in Hr. destruct Hr as ([o c] & <- & Hin).
    apply filter_In in Hin. destruct Hin as [Hin Hw]. simpl in Hw.
    apply in_orders_with_customers in Hin. destruct Hin as (Hio & _).
    simpl. repeat split; try assumption.
    unfold whereClause, not_cancelled in Hw. intros E. rewrite E in Hw.
    discriminate. }
  eapply Forall_impl; [|exact Hrows]. clear Hrows.
  intros r (Hin & Hnc & Hr). cbv zeta.
  set (items := items_of_order (o_id (or_order r)) db).
  assert (Ht : or_total_line_items r = Z.of_nat (List.length items))
    by (rewrite Hr; simpl; apply count_length).
  assert (Hs : or_shipped_items r = count fully_shipped items)
    by (rewrite Hr; reflexivity).
  pose proof (count_nonneg fully_shipped items) as H0.
  pose proof (count_le_length fully_shipped items) as H1.
  split; [exact Ht|]. split; [exact Hs|]. split; [lia|].
  intros Hpos.
  destruct (Hst _ Hin) as [Hc|[He|Hrule]]; [contradiction| |].
  - fold items in He. rewrite He in Ht. simpl in Ht. lia.
  - fold items in Hrule. unfold recompute_rule in Hrule.
    pose proof (count_all fully_shipped items) as Hall.
    rewrite count_length in Hall.
    destruct (forallb fully_shipped items) eqn:Hfa.
    + apply Z.eqb_eq in Hall. split; [split; [lia | congruence]|].
      rewrite Hrule. discriminate.
    + apply Z.eqb_neq in Hall.
      pose proof (count_some fully_shipped items) as Hsome.
      destruct (existsb li_in_production items || existsb fully_shipped items)
        eqn:Hex.
      * split; [split; [rewrite Hrule; discriminate | lia]|].
        rewrite Hrule. discriminate.
      * apply orb_false_elim in Hex. destruct Hex as [_ Hex].
        rewrite Hex in Hsome. rewrite Z.gtb_ltb in Hsome.
        apply Z.ltb_ge in Hsome.
        split; [split; [rewrite Hrule; discriminate | lia]|].
        intros _. lia.
Qed.

Lemma listed_status_agrees_witness :
  exists page total,
    listOrders Reads.ilike Reads.as_stored 50 0 Reads.all_orders thirty_hundredths
    = Some (page, total)
    /\ Forall (fun r => 0 <= or_shipped_items r <= or_total_line_items r) page.
Proof.
  destruct (listOrders Reads.ilike Reads.as_stored 50 0 Reads.all_orders
              thirty_hundredths) as [[page total]|] eqn:E.
  - exists page, total. split; [reflexivity|].
    pose proof (listed_status_agrees Reads.ilike Reads.as_stored 50 0
                  Reads.all_orders thirty_hundredths page total
                  (fun l => Permutation_refl l) thirty_hundredths_in_step E) as H.
    eapply Forall_impl; [|exact H]. intros r Hr. apply Hr.
  - vm_compute in E. discriminate.
Defined.
(** ** Time stamps *)

Lemma stamped_map {A} (c u : A -> timestamp) t (g : A -> A) (l : list A) :
  (forall x, g x = x \/ u (g x) = t) -> stamped c u t l (map g l).
Proof.
  intros Hg. exists (map g l), []. split; [now rewrite app_nil_r|].
  split; [|constructor].
  induction l as [|x l IH]; simpl; constructor; auto.
Qed.

Lemma stamped_same {A} (c u : A -> timestamp) t (l : list A) : stamped c u t l l.
Proof.
  rewrite <- (map_id l) at 2. apply stamped_map. now left.
Qed.

Lemma stamped_add {A} (c u : A -> timestamp) t (l rows : list A) :
  Forall (fun b => c b = t /\ u b = t) rows -> stamped c u t l (l ++ rows).
Proof.
  intros H. exists l, rows. split; [reflexivity|]. split; [|exact H].
  induction l; constructor; auto.
Qed.

Lemma recompute_order_stamp t id db o :
  recompute_order t id db o = o \/ o_updated_at (recompute_order t id db o) = t.
Proof.
  unfold recompute_order. destruct (N.eqb (o_id o) id); [now right | now left].
Qed.

Lemma recomputed_stamp t l db o :
  recomputed t l db o = o \/ o_updated_at (recomputed t l db o) = t.
Proof.
  unfold recomputed. destruct (existsb _ l); [now right | now left].
Qed.

Lemma insert_order_stamps e po c due quoted notes db o db1 :
  insert_order e po c due quoted notes db = Some (o, db1) ->
  o_created_at o = now e /\ o_updated_at o = now e.
Proof.
  unfold insert_order, fresh. repeat on_branch.
  intros H. injection H as <- <-. now split.
Qed.

Lemma insert_line_item_stamps e oid item db row db' :
  insert_line_item e oid item db = Some (row, db') ->
  li_created_at row = now e /\ li_updated_at row = now e.
Proof.
  unfold insert_line_item. repeat on_branch. unfold fresh in *.
  match goal with H : (_, _) = (_, _) |- _ => injection H as <- <- end.
  intros H. injection H as <- <-. now split.
Qed.

Lemma insert_line_items_stamps e oid items :
  forall db rows db',
    insert_line_items e oid items db = Some (rows, db') ->
    Forall (fun li => li_created_at li = now e /\ li_updated_at li = now e) rows.
Proof.
  induction items as [|item items IH]; intros db rows db'; simpl.
  - intros H. injection H as <- <-. constructor.
  - destruct (insert_line_item e oid item db) as [[row db1]|] eqn:H1; [|discriminate].
    destruct (insert_line_items e oid items db1) as [[rs db2]|] eqn:H2; [|discriminate].
    intros H. injection H as <- <-. constructor.
    + eapply insert_line_item_stamps, H1.
    + eapply IH, H2.
Qed.

Lemma insert_shipment_stamps e itemId q d tn notes db db1 :
  insert_shipment e itemId q d tn notes db = Some db1 ->
  exists s, shipments db1 = shipments db ++ [s] /\ s_created_at s = now e.
Proof.
  unfold insert_shipment, fresh. repeat on_branch.
  intros H. injection H as <-. eexists. split; reflexivity.
Qed.

Lemma update_order_rows_stamps t id po due quoted notes (l all : list order) :
  map_opt (update_order_row t id po due quoted notes) l = Some all ->
  Forall2 (fun a b => b = a \/ o_updated_at b = t) l all.
Proof.
  revert all. induction l as [|o l IH]; intros all; simpl.
  - intros H. injection H as <-. constructor.
  - destruct (update_order_row t id po due quoted notes o) as [o'|] eqn:Ho;
      [|discriminate].
    destruct (map_opt _ l) as [r|]; [|discriminate].
    intros H. injection H as <-. constructor; [|now apply IH].
    unfold update_order_row in Ho.
    destruct (N.eqb (o_id o) id).
    + destruct (PG.varchar 100 _); [|discriminate]. injection Ho as <-. now right.
    + injection Ho as <-. now left.
Qed.

Lemma update_line_items_where_stamps t id f db :
  let db' := snd (update_line_items_where t id f db) in
  stamped o_created_at o_updated_at t (orders db) (orders db')
  /\ stamped li_created_at li_updated_at t (order_line_items db)
       (order_line_items db')
  /\ shipments db' = shipments db.
Proof.
  rewrite update_line_items_where_eq. cbv zeta. simpl. repeat split.
  - apply stamped_map. intros o. apply recomputed_stamp.
  - apply stamped_map. intros x. destruct (N.eqb (li_id x) id); [now right | now left].
Qed.

(** X22.  The time stamps tell what a request wrote: after a request
    handled at time [t], every order and every line item that was there is
    exactly as it was or carries [updated_at = t]; the orders and line items
    the request added carry [created_at = updated_at = t]; the shipments
    that were there are as they were, and one it added carries
    [created_at = t]. *)
Theorem written_rows_are_stamped :
  forall (e : env) (db : database) (r : request),
    let db' := snd (handle e db r) in
    stamped o_created_at o_updated_at (now e) (orders db) (orders db')
    /\ stamped li_created_at li_updated_at (now e) (order_line_items db)
         (order_line_items db')
    /\ exists l, shipments db' = shipments db ++ l
                 /\ Forall (fun s => s_created_at s = now e) l.
Proof.
  intros e db r. cbv zeta.
  assert (Hsame : stamped o_created_at o_updated_at (now e) (orders db) (orders db)
                  /\ stamped li_created_at li_updated_at (now e)
                       (order_line_items db) (order_line_items db)
                  /\ exists l, shipments db = shipments db ++ l
                               /\ Forall (fun s => s_created_at s = now e) l).
  { split; [apply stamped_same|]. split; [apply stamped_same|].
    exists []. split; [now rewrite app_nil_r | constructor]. }
  destruct r as [body|id body|orderId itemId|orderId itemId body|id]; simpl.
  - destruct (createOrder_cases e db body)
      as [(r & -> & _)|(o & db1 & rows & db2 & Hc)]; [exact Hsame|].
    cbv zeta in Hc. destruct Hc as (Hv & Ho & Hi & ->). simpl snd.
    rewrite logAction_orders, logAction_line_items, logAction_shipments.
    assert (Hne : cb_lineItems (sanitize_create body) <> []).
    { unfold valid_create in Hv. apply andb_true_iff in Hv. destruct Hv as [Hv _].
      apply andb_true_iff in Hv. destruct Hv as [_ Hv].
      intros E. rewrite E in Hv. discriminate. }
    pose proof (insert_line_items_orders _ _ _ _ _ _ Hi Hne) as Hord.
    pose proof (insert_line_items_stamps _ _ _ _ _ _ Hi) as Hst.
    apply insert_line_items_rows in Hi.
    destruct Hi as (Hitems & _ & _ & _ & Hship & _).
    pose proof (insert_order_stamps _ _ _ _ _ _ _ _ _ Ho) as [Hoc Hou].
    apply insert_order_effect in Ho. destruct Ho as (-> & _).
    simpl in *. rewrite Hord, Hitems, Hship, map_app. repeat split.
    + eexists _, _. split; [reflexivity|]. split.
      * clear. induction (orders db); simpl; constructor; auto.
        apply recompute_order_stamp.
      * simpl. constructor; [|constructor].
        unfold recompute_order. destruct (N.eqb _ _); simpl; auto.
    + now apply stamped_add.
    + exists []. split; [now rewrite app_nil_r | constructor].
  - destruct (updateOrder_cases e db id body)
      as [(r & -> & _)|(o & rows & db1 & Hc)]; [exact Hsame|].
    cbv zeta in Hc. destruct Hc as (_ & _ & Hu & ->). simpl snd.
    rewrite logAction_orders, logAction_line_items, logAction_shipments.
    apply update_order_stmt_rows in Hu.
    destruct Hu as (all & Hall & _ & _ & ->). simpl.
    apply update_order_rows_stamps in Hall. repeat split.
    + exists all, []. split; [now rewrite app_nil_r|]. split; [exact Hall|constructor].
    + apply stamped_same.
    + exists []. split; [now rewrite app_nil_r | constructor].
  - destruct (setInProduction_cases e db orderId itemId)
      as [[_ ->]|(o & _ & ->)]; [exact Hsame|].
    simpl snd.
    rewrite logAction_orders, logAction_line_items, logAction_shipments.
    destruct (update_line_items_where_stamps (now e) itemId set_in_production db)
      as (H1 & H2 & H3).
    split; [exact H1|]. split; [exact H2|].
    exists []. split; [now rewrite app_nil_r | constructor].
  - destruct (shipLineItem_cases e db orderId itemId body)
      as [(r & -> & _)|(li & db1 & rows & db2 & Hc)]; [exact Hsame|].
    cbv zeta in Hc. destruct Hc as (_ & Hs & Hu & ->). simpl snd.
    rewrite logAction_orders, logAction_line_items, logAction_shipments.
    apply update_shipped_effect in Hu. destruct Hu as (q & _ & _ & Hu).
    match type of Hu with
    | update_line_items_where ?t ?i ?f ?d = _ =>
        pose proof (update_line_items_where_stamps t i f d) as Ht
    end.
    rewrite Hu in Ht. cbv zeta in Ht. simpl in Ht.
    destruct Ht as (H1 & H2 & ->).
    pose proof (insert_shipment_stamps _ _ _ _ _ _ _ _ Hs) as (s & Hsh & Hsc).
    apply insert_shipment_effect in Hs. destruct Hs as (s' & -> & _).
    simpl in *. split; [exact H1|]. split; [exact H2|].
    exists [s]. split; [exact Hsh|]. now constructor.
  - unfold cancelOrder.
    destruct (find _ (orders db)) as [found|]; [|exact Hsame].
    simpl snd.
    rewrite logAction_orders, logAction_line_items, logAction_shipments.
    simpl. repeat split.
    + apply stamped_map. intros x. destruct (N.eqb (o_id x) id); [now right | now left].
    + apply stamped_same.
    + exists []. split; [now rewrite app_nil_r | constructor].
Qed.
(** ** Quantities with a decimal point *)












(** ** Whole quantities *)

Lemma digits_value_from_pos (u : Decimal.uint) (acc : positive) :
  Text.digits_value_from (NilEmpty.string_of_uint u) (Zpos acc)
  = Zpos (Pos.of_uint_acc u acc).
Proof.
  revert acc.
  induction u; intros acc;
    cbn [NilEmpty.string_of_uint Text.digits_value_from Pos.of_uint_acc];
    [reflexivity|..];
    rewrite <- IHu; f_equal;
    match goal with
    | |- context [Z.of_N (N_of_ascii ?c)] =>
        let v := eval vm_compute in (Z.of_N (N_of_ascii c)) in
        change (Z.of_N (N_of_ascii c)) with v
    end; lia.
Qed.

Lemma digits_value_from_zero (u : Decimal.uint) :
  Text.digits_value_from (NilEmpty.string_of_uint u) 0 = Z.of_N (Pos.of_uint u).
Proof.
  induction u;
    cbn [NilEmpty.string_of_uint Text.digits_value_from Pos.of_uint];
    [reflexivity | exact IHu | ..];
    apply (digits_value_from_pos u).
Qed.

Lemma string_of_uint_digits (u : Decimal.uint) :
  all_digits (NilEmpty.string_of_uint u) = true.
Proof. induction u; simpl; auto. Qed.

Lemma of_Z_uint (p : positive) :
  Text.of_Z (Zpos p) = NilEmpty.string_of_uint (Pos.to_uint p).
Proof.
  unfold Text.of_Z. simpl. unfold NilZero.string_of_uint.
  pose proof (Unsigned.to_uint_nonnil p) as H.
  destruct (Pos.to_uint p); [contradiction|..]; reflexivity.
Qed.

Lemma of_Z_value (z : Z) : 0 <= z -> Text.digits_value (Text.of_Z z) = z.
Proof.
  intros Hz. destruct z as [|p|p]; [reflexivity| |lia].
  rewrite of_Z_uint. unfold Text.digits_value.
  rewrite digits_value_from_zero, Unsigned.of_to. reflexivity.
Qed.

Lemma of_Z_digits (z : Z) :
  0 <= z -> all_digits (Text.of_Z z) = true /\ Text.of_Z z <> ""%string.
Proof.
  intros Hz. destruct z as [|p|p]; [split; [reflexivity | discriminate]| |lia].
  rewrite of_Z_uint. split; [apply string_of_uint_digits|].
  pose proof (Unsigned.to_uint_nonnil p) as H.
  destruct (Pos.to_uint p); [contradiction|..]; discriminate.
Qed.

Lemma of_Z_digit (z : Z) : 0 <= z <= 9 -> String.length (Text.of_Z z) = 1%nat.
Proof.
  intros Hz.
  assert (H : z = 0 \/ z = 1 \/ z = 2 \/ z = 3 \/ z = 4 \/ z = 5 \/ z = 6
              \/ z = 7 \/ z = 8 \/ z = 9) by lia.
  repeat (destruct H as [->|H]; [reflexivity|]). now subst.
Qed.

Lemma digits_value_from_linear (s : string) (acc : Z) :
  Text.digits_value_from s acc
  = acc * 10 ^ Z.of_nat (String.length s) + Text.digits_value s.
Proof.
  unfold Text.digits_value. revert acc.
  induction s as [|c s IH]; intros acc.
  - simpl. lia.
  - cbn [Text.digits_value_from String.length]. rewrite IH.
    rewrite (IH (10 * 0 + _)). rewrite Nat2Z.inj_succ, Z.pow_succ_r by lia. ring.
Qed.

Lemma all_digits_app (s t : string) :
  all_digits (s ++ t) = all_digits s && all_digits t.
Proof.
  induction s as [|c s IH]; simpl; [reflexivity|].
  now rewrite IH, andb_assoc.
Qed.

Lemma digits_value_bound (s : string) :
  all_digits s = true ->
  0 <= Text.digits_value s < 10 ^ Z.of_nat (String.length s).
Proof.
  unfold Text.digits_value. induction s as [|c s IH]; intros H.
  - simpl. lia.
  - simpl in H. apply andb_true_iff in H. destruct H as [Hc Hs].
    cbn [Text.digits_value_from String.length].
    rewrite digits_value_from_linear. specialize (IH Hs).
    unfold Text.digits_value in *.
    rewrite Nat2Z.inj_succ, Z.pow_succ_r by lia.
    unfold Text.is_digit in Hc. cbv zeta in Hc.
    apply andb_true_iff in Hc. destruct Hc as [H1 H2].
    apply N.leb_le in H1, H2.
    assert (0 < 10 ^ Z.of_nat (String.length s)) by (apply Z.pow_pos_nonneg; lia).
    nia.
Qed.

Lemma span_digits_all (s : string) :
  all_digits s = true -> Text.span_digits s = (s, EmptyString).
Proof.
  induction s as [|c s IH]; simpl; intros H; [reflexivity|].
  apply andb_true_iff in H. destruct H as [Hc Hs].
  now rewrite Hc, (IH Hs).
Qed.

Lemma span_digits_point (s rest : string) :
  all_digits s = true ->
  Text.span_digits (s ++ String "." rest) = (s, String "." rest).
Proof.
  induction s as [|c s IH]; simpl; intros H; [reflexivity|].
  apply andb_true_iff in H. destruct H as [Hc Hs].
  now rewrite Hc, (IH Hs).
Qed.

Lemma scan_sign_digit (c : ascii) (s : string) :
  Text.is_digit c = true -> Text.scan_sign (String c s) = (false, String c s).
Proof.
  destruct c as [[] [] [] [] [] [] [] []]; try discriminate; reflexivity.
Qed.

Lemma rev_from_twice (s a b : string) :
  Text.rev_from (Text.rev_from s a) b = Text.rev_from a (s ++ b).
Proof.
  revert a b. induction s as [|c s IH]; intros a b; simpl; [reflexivity|].
  now rewrite IH.
Qed.

Lemma rev_from_no_spaces (s a : string) :
  no_spaces_in s -> no_spaces_in a -> no_spaces_in (Text.rev_from s a).
Proof.
  revert a. induction s as [|c s IH]; intros a Hs Ha; simpl; [exact Ha|].
  destruct Hs as [Hc Hs]. apply IH; [exact Hs | now split].
Qed.

Lemma drop_spaces_none (s : string) : no_spaces_in s -> Text.drop_spaces s = s.
Proof.
  destruct s as [|c s]; [reflexivity|]. intros [Hc _]. simpl. now rewrite Hc.
Qed.

Lemma trim_none (s : string) : no_spaces_in s -> Text.trim s = s.
Proof.
  intros H. unfold Text.trim, Text.rev.
  rewrite (drop_spaces_none s H).
  rewrite (drop_spaces_none (Text.rev_from s "")).
  - rewrite rev_from_twice. simpl. induction s; simpl; [reflexivity|].
    f_equal. apply IHs. apply H.
  - apply rev_from_no_spaces; [exact H | exact I].
Qed.

Lemma all_digits_no_spaces (s : string) : all_digits s = true -> no_spaces_in s.
Proof.
  induction s as [|c s IH]; simpl; intros H; [exact I|].
  apply andb_true_iff in H. destruct H as [Hc Hs]. split; [|now apply IH].
  destruct c as [[] [] [] [] [] [] [] []]; try discriminate; reflexivity.
Qed.

Lemma no_spaces_app (s t : string) :
  no_spaces_in s -> no_spaces_in t -> no_spaces_in (s ++ t).
Proof.
  induction s as [|c s IH]; simpl; intros Hs Ht; [exact Ht|].
  destruct Hs as [Hc Hs]. split; [exact Hc | now apply IH].
Qed.

Lemma append_empty (s : string) : (s ++ "")%string = s.
Proof. induction s as [|c s IH]; simpl; [reflexivity | now rewrite IH]. Qed.

Lemma append_assoc' (a b c : string) :
  ((a ++ b) ++ c)%string = (a ++ b ++ c)%string.
Proof. induction a as [|x a IH]; simpl; [reflexivity | now rewrite IH]. Qed.

Lemma length_append' (a b : string) :
  String.length (a ++ b) = (String.length a + String.length b)%nat.
Proof. induction a as [|x a IH]; simpl; [reflexivity | now rewrite IH]. Qed.

(** The store reading a text of digits. *)
Lemma numeric_in_digits (d : string) :
  all_digits d = true -> d <> ""%string ->
  PG.numeric_in d
  = if Text.digits_value d * 100 <? 10 ^ 10
    then Some (100 * Text.digits_value d) else None.
Proof.
  intros Hd Hne. unfold PG.numeric_in.
  rewrite (trim_none d (all_digits_no_spaces d Hd)).
  assert (Hs : Text.scan d
               = Some {| Text.sc_neg := false; Text.sc_int := d;
                         Text.sc_frac := ""; Text.sc_exp := 0 |}).
  { unfold Text.scan. destruct d as [|c r]; [congruence|].
    simpl in Hd. apply andb_true_iff in Hd. destruct Hd as [Hc Hr].
    rewrite (scan_sign_digit c r Hc).
    rewrite (span_digits_all (String c r)) by (simpl; now rewrite Hc, Hr).
    reflexivity. }
  rewrite Hs. unfold Text.has_digit, Text.mantissa, Text.exponent10.
  cbn [Text.sc_neg Text.sc_int Text.sc_frac Text.sc_exp].
  assert (He : String.eqb d "" = false) by now apply String.eqb_neq.
  rewrite He, append_empty. cbn [andb negb].
  change (0 - Z.of_nat (String.length "") + 2) with 2.
  change (0 <=? 2) with true. cbv iota.
  change (10 ^ 2) with 100.
  destruct (_ <? _); [f_equal; lia | reflexivity].
Qed.

(** The store reading the text of a [DECIMAL(10,2)] value followed by
    digits. *)
Lemma numeric_in_appended (h : PG.numeric) (d : string) :
  0 <= h -> all_digits d = true -> d <> ""%string ->
  PG.numeric_in (PG.numeric_out h ++ d)
  = if h + appended d <? 10 ^ 10 then Some (h + appended d) else None.
Proof.
  intros Hh Hd Hne.
  set (I := Text.of_Z (Z.abs h / 100)).
  set (D1 := Text.of_Z (Z.abs h mod 100 / 10)).
  set (D2 := Text.of_Z ((Z.abs h mod 100) mod 10)).
  assert (Hr : 0 <= Z.abs h mod 100 < 100) by (apply Z.mod_pos_bound; lia).
  assert (Hr1 : 0 <= Z.abs h mod 100 / 10 <= 9).
  { split; [apply Z.div_pos; lia|]. apply Z.lt_succ_r.
    apply Z.div_lt_upper_bound; lia. }
  assert (Hr2 : 0 <= (Z.abs h mod 100) mod 10 <= 9)
    by (pose proof (Z.mod_pos_bound (Z.abs h mod 100) 10); lia).
  assert (HI0 : 0 <= Z.abs h / 100) by (apply Z.div_pos; lia).
  destruct (of_Z_digits _ HI0) as [HI HIne]. fold I in HI, HIne.
  destruct (of_Z_digits _ (proj1 Hr1)) as [HD1 _]. fold D1 in HD1.
  destruct (of_Z_digits _ (proj1 Hr2)) as [HD2 _]. fold D2 in HD2.
  assert (HL1 : String.length D1 = 1%nat) by now apply of_Z_digit.
  assert (HL2 : String.length D2 = 1%nat) by now apply of_Z_digit.
  assert (Hout : (PG.numeric_out h ++ d)%string
                 = (I ++ String "." (D1 ++ D2 ++ d))%string).
  { unfold PG.numeric_out. cbv zeta. fold I D1 D2.
    destruct (Z.ltb_spec h 0); [lia|].
    change ("" ++ I ++ "." ++ D1 ++ D2)%string
      with (I ++ String "." (D1 ++ D2))%string.
    rewrite append_assoc'. cbn [String.append]. now rewrite append_assoc'. }
  rewrite Hout. clear Hout.
  assert (HF : all_digits (D1 ++ D2 ++ d) = true)
    by (rewrite !all_digits_app, HD1, HD2, Hd; reflexivity).
  assert (Hns : no_spaces_in (I ++ String "." (D1 ++ D2 ++ d))).
  { apply no_spaces_app; [now apply all_digits_no_spaces|].
    split; [reflexivity | now apply all_digits_no_spaces]. }
  unfold PG.numeric_in. rewrite (trim_none _ Hns).
  assert (Hs : Text.scan (I ++ String "." (D1 ++ D2 ++ d))
               = Some {| Text.sc_neg := false; Text.sc_int := I;
                         Text.sc_frac := (D1 ++ D2 ++ d)%string;
                         Text.sc_exp := 0 |}).
  { unfold Text.scan. destruct I as [|c r] eqn:EI; [congruence|].
    simpl in HI. apply andb_true_iff in HI. destruct HI as [Hc Hrr].
    change (String c r ++ String "." (D1 ++ D2 ++ d))%string
      with (String c (r ++ String "." (D1 ++ D2 ++ d)))%string.
    rewrite (scan_sign_digit c _ Hc).
    change (String c (r ++ String "." (D1 ++ D2 ++ d)))%string
      with (String c r ++ String "." (D1 ++ D2 ++ d))%string.
    rewrite (span_digits_point (String c r)) by (simpl; now rewrite Hc, Hrr).
    rewrite (span_digits_all _ HF). reflexivity. }
  rewrite Hs. clear Hs.
  unfold Text.has_digit, Text.mantissa, Text.exponent10.
  cbn [Text.sc_neg Text.sc_int Text.sc_frac Text.sc_exp].
  assert (HIe : String.eqb I "" = false) by now apply String.eqb_neq.
  rewrite HIe. cbn [andb negb].
  set (k := Z.of_nat (String.length d)).
  assert (Hk : 1 <= k).
  { unfold k. destruct d; [congruence|]. simpl String.length. lia. }
  assert (Hlen : Z.of_nat (String.length (D1 ++ D2 ++ d)) = 2 + k).
  { rewrite !length_append', HL1, HL2. unfold k. lia. }
  rewrite Hlen.
  replace (0 - (2 + k) + 2) with (- k) by lia.
  destruct (Z.leb_spec 0 (- k)) as [|_]; [lia|].
  replace (- - k) with k by lia.
  assert (Hm : Text.digits_value (I ++ D1 ++ D2 ++ d)
               = h * 10 ^ k + Text.digits_value d).
  { unfold Text.digits_value at 1.
    rewrite !digits_value_from_app.
    rewrite (digits_value_from_linear d), (digits_value_from_linear D2),
      (digits_value_from_linear D1).
    rewrite HL1, HL2.
    fold (Text.digits_value I). unfold I, D1, D2.
    rewrite !of_Z_value by lia. fold k.
    rewrite Z.abs_eq in * by lia.
    pose proof (Z.div_mod h 100 ltac:(lia)) as E1.
    pose proof (Z.div_mod (h mod 100) 10 ltac:(lia)) as E2.
    change (10 ^ Z.of_nat 1) with 10. lia. }
  rewrite Hm.
  pose proof (digits_value_bound d Hd) as Hv. fold k in Hv.
  assert (Hp : 0 < 10 ^ k) by (apply Z.pow_pos_nonneg; lia).
  assert (Heven : 10 ^ k = 2 * (10 ^ k / 2)).
  { replace k with (Z.succ (k - 1)) by lia. rewrite Z.pow_succ_r by lia.
    replace (10 * 10 ^ (k - 1)) with (5 * 10 ^ (k - 1) * 2) by lia.
    rewrite Z.div_mul by lia. lia. }
  assert (Hq : (h * 10 ^ k + Text.digits_value d + 10 ^ k / 2) / 10 ^ k
               = h + appended d).
  { unfold appended. fold k.
    destruct (Z.leb_spec (10 ^ k) (2 * Text.digits_value d)).
    - symmetry. apply (Z.div_unique _ _ _
        (Text.digits_value d + 10 ^ k / 2 - 10 ^ k)); lia.
    - symmetry. apply (Z.div_unique _ _ _ (Text.digits_value d + 10 ^ k / 2)); lia. }
  rewrite Hq. reflexivity.
Qed.

Lemma updated_rows t id f db li' :
  In li' (fst (update_line_items_where t id f db)) ->
  li_id li' = id
  /\ In li' (order_line_items (snd (update_line_items_where t id f db)))
  /\ exists x, In x (order_line_items db) /\ li' = touch t (f x).
Proof.
  rewrite update_line_items_where_eq. cbv zeta. simpl. intros H.
  apply filter_In in H. destruct H as [Hin Hid]. apply N.eqb_eq in Hid.
  split; [exact Hid|]. split; [exact Hin|].
  apply in_map_iff in Hin. destruct Hin as (x & Hx & Hin).
  exists x. split; [exact Hin|].
  destruct (N.eqb_spec (li_id x) id) as [E|E]; [now symmetry|].
  subst li'. contradiction.
Qed.

Lemma appended_first_digit (c : ascii) (r : string) :
  all_digits (String c r) = true ->
  appended (String c r) = if 5 <=? Z.of_N (N_of_ascii c) - 48 then 1 else 0.
Proof.
  intros H. simpl in H. apply andb_true_iff in H. destruct H as [Hc Hr].
  pose proof (digits_value_bound r Hr) as Hv.
  unfold appended, Text.digits_value.
  cbn [Text.digits_value_from String.length].
  rewrite digits_value_from_linear, Nat2Z.inj_succ, Z.pow_succ_r by lia.
  assert (Hp : 0 < 10 ^ Z.of_nat (String.length r))
    by (apply Z.pow_pos_nonneg; lia).
  unfold Text.is_digit in Hc. cbv zeta in Hc.
  apply andb_true_iff in Hc. destruct Hc as [H1 H2].
  apply N.leb_le in H1, H2.
  destruct (Z.leb_spec 5 (Z.of_N (N_of_ascii c) - 48));
    destruct (Z.leb_spec (10 * 10 ^ Z.of_nat (String.length r))
                (2 * ((10 * 0 + (Z.of_N (N_of_ascii c) - 48))
                      * 10 ^ Z.of_nat (String.length r) + Text.digits_value r)));
    try reflexivity; exfalso; nia.
Qed.

(** X24.  What a whole quantity adds: when the text of the quantity of the
    body is made of digits and the ship route succeeds, the shipment it
    records carries that quantity, while the [shipped_quantity] of the line
    item grows by one hundredth when the first digit is 5 or more, and stays
    as it was otherwise. *)
Theorem whole_number_shipment :
  forall (e : env) (db db' : database) (orderId itemId : uuid) (body : ship_body)
         (li li' : line_item) (v : JS.value) (remaining : JS.number),
    find_line_item itemId orderId db = Some li ->
    0 <= li_shipped_quantity li ->
    all_digits (JS.ToString (sb_quantity body)) = true ->
    JS.ToString (sb_quantity body) <> ""%string ->
    shipLineItem e db orderId itemId body
    = (ItemShipped (Some li') v remaining, db') ->
    let d := JS.ToString (sb_quantity body) in
    li_id li' = itemId
    /\ In li' (order_line_items db')
    /\ li_shipped_quantity li' = li_shipped_quantity li + appended d
    /\ appended d
       = match d with
         | String c _ => if 5 <=? Z.of_N (N_of_ascii c) - 48 then 1 else 0
         | EmptyString => 0
         end
    /\ exists s,
         shipments db' = shipments db ++ [s]
         /\ s_line_item_id s = itemId
         /\ s_quantity s = 100 * Text.digits_value d.
Proof.
  intros e db db' orderId itemId body li li' v remaining Hfind Hpos Hd Hne H d.
  destruct (shipLineItem_cases e db orderId itemId body)
    as [(r & Hr & Hin)|(lineItem & db1 & rows & db2 & Hc)].
  - exfalso. rewrite Hr in H. injection H as -> _. simpl in Hin.
    repeat (destruct Hin as [Hin|Hin]; [discriminate|]). contradiction.
  - cbv zeta in Hc. destruct Hc as (Hf & Hs & Hu & Heq).
    rewrite Hfind in Hf. injection Hf as <-.
    rewrite Heq in H. injection H as Hrow _ _ <-.
    rewrite logAction_line_items, logAction_shipments.
    assert (Hq : sb_quantity (sanitize_ship body) = sb_quantity body) by reflexivity.
    rewrite Hq in *.
    apply update_shipped_effect in Hu. destruct Hu as (q & Hin & _ & Hu).
    assert (Ht : PG.prepareValue (JS.add (row_shipped_quantity li) (sb_quantity body))
                 = (PG.numeric_out (li_shipped_quantity li) ++ d)%string).
    { unfold row_shipped_quantity, d. simpl.
      destruct (sb_quantity body); reflexivity. }
    rewrite Ht, (numeric_in_appended (li_shipped_quantity li) d Hpos Hd Hne) in Hin.
    destruct (_ <? _) in Hin; [|discriminate]. injection Hin as <-.
    assert (Hli : In li' (fst (update_line_items_where (now e) itemId
                     (set_shipped (li_shipped_quantity li + appended d)
                        (JS.ge (JS.add (row_shipped_quantity li) (sb_quantity body))
                               (row_quantity li))
                        (or_else (sb_shipDate (sanitize_ship body)) (today e))) db1))).
    { rewrite Hu. simpl. destruct rows; [discriminate|].
      injection Hrow as ->. now left. }
    apply updated_rows in Hli. rewrite Hu in Hli. simpl in Hli.
    destruct Hli as (Hid & Hin' & x & _ & Hx).
    split; [exact Hid|]. split; [exact Hin'|].
    split; [now rewrite Hx|].
    split; [unfold d in *; destruct (JS.ToString (sb_quantity body));
            [congruence | now apply appended_first_digit]|].
    pose proof (update_line_items_where_tables (now e) itemId _ db1
                  (fun x => set_shipped_evolves (now e)
                     (li_shipped_quantity li + appended d)
                     (JS.ge (JS.add (row_shipped_quantity li) (sb_quantity body))
                            (row_quantity li))
                     (or_else (sb_shipDate (sanitize_ship body)) (today e)) x)) as Hsh.
    rewrite Hu in Hsh. cbv zeta in Hsh. simpl in Hsh.
    destruct Hsh as (_ & _ & -> & _).
    apply insert_shipment_effect in Hs.
    destruct Hs as (s & -> & _ & Hsl & _ & Hsq & _).
    exists s. split; [reflexivity|]. split; [exact Hsl|].
    unfold PG.prepareValue in Hsq. fold d in Hsq.
    rewrite (numeric_in_digits d Hd Hne) in Hsq.
    destruct (_ <? _) in Hsq; [|discriminate]. now injection Hsq as <-.
Qed.

Lemma whole_number_shipment_witness :
  exists li' v remaining db',
    shipLineItem e0 placed 100 101 (ship (json_number "7"))
    = (ItemShipped (Some li') v remaining, db')
    /\ li_shipped_quantity li' = 0 + appended "7".
Proof.
  destruct (shipLineItem e0 placed 100 101 (ship (json_number "7")))
    as [r db'] eqn:E.
  assert (Hf : fst (shipLineItem e0 placed 100 101 (ship (json_number "7"))) = r)
    by now rewrite E.
  vm_compute in Hf. subst r.
  destruct (find_line_item 101 100 placed) as [li|] eqn:Hfind;
    [|vm_compute in Hfind; discriminate].
  assert (Hq : li_shipped_quantity li = 0).
  { pose proof Hfind as Hc. vm_compute in Hc. now injection Hc as <-. }
  assert (Hd : all_digits (JS.ToString (sb_quantity (ship (json_number "7")))) = true)
    by (vm_compute; reflexivity).
  assert (Hne : JS.ToString (sb_quantity (ship (json_number "7"))) <> ""%string)
    by (vm_compute; discriminate).
  assert (Ht : JS.ToString (sb_quantity (ship (json_number "7"))) = "7"%string)
    by (vm_compute; reflexivity).
  pose proof (whole_number_shipment e0 placed db' 100 101
                (ship (json_number "7")) li _ _ _ Hfind
                ltac:(rewrite Hq; lia) Hd Hne E) as H.
  cbv zeta in H. destruct H as (_ & _ & H & _).
  rewrite Ht, Hq in H.
  eexists _, _, _, db'. split; [reflexivity | exact H].
Defined.
